(** * Manufacturing-station voucher pipeline: DID resolver, owner-key
      service and voucher callback

    A shallow embedding of [did_resolver.go], [owner_key_service.go] and
    [voucher_callback.go].  Go values are modelled as follows:

    - [string] is [String.string]; [strings.HasPrefix], [strings.TrimPrefix],
      [strings.Split] and [strings.Join] are written out in [GoStrings];
    - [time.Time] is an instant in nanoseconds ([Z]); [time.Duration] is an
      [int64] number of nanoseconds and [Time.Sub] saturates at its bounds;
    - a function returning [(T, error)] returns an [errorOr T]; a function that can
      also panic (index out of range, nil dereference) is a [run T];
    - the [did_cache] table is a [gmap] from the primary key [did_uri] to the
      row; every access to it is appended to an operation log;
    - everything outside the repository (HTTP, crypto and encoding libraries,
      the clock, the random source, the errors of the database) is a field
      of an environment record; the collaborators of the callback are fields
      of its own record. *)

From Stdlib Require Import ZArith Lia Bool Ascii String List.
From stdpp Require Import gmap strings list pretty.
Import ListNotations.

Local Open Scope Z_scope.
#[local] Set Warnings "-register-all".

(** ** Results of Go calls

    A Go function declared to return [(T, error)] either returns a value or
    an error, or it panics before returning. *)

Inductive errorOr (A : Type) : Type :=
| Value (a : A)
| Failure (err : string).
Arguments Value {A} a.
Arguments Failure {A} err.

Inductive run (A : Type) : Type :=
| Returns (r : errorOr A)
| Panics (msg : string).
Arguments Returns {A} r.
Arguments Panics {A} msg.

(** [fmt.Errorf("<ctx>: %w", err)] and [fmt.Sprintf("<ctx>: %v", err)] build
    the same text. *)
Definition wrap (ctx inner : string) : string := ctx +:+ ": " +:+ inner.

(** ** The fragments of package [strings] the code uses *)

Module GoStrings.

Definition HasPrefix (s p : string) : bool := String.prefix p s.

Definition TrimPrefix (s p : string) : string :=
  if HasPrefix s p
  then String.substring (String.length p) (String.length s - String.length p) s
  else s.

(** [strings.Split(s, sep)] for a one-byte separator: the pieces between
    the occurrences of [sep], always at least one piece. *)
Fixpoint Split (s : string) (sep : ascii) : list string :=
  match s with
  | EmptyString => [EmptyString]
  | String c rest =>
      if Ascii.eqb c sep then EmptyString :: Split rest sep
      else match Split rest sep with
           | [] => [String c EmptyString]
           | piece :: pieces => String c piece :: pieces
           end
  end.

Fixpoint Join (parts : list string) (sep : string) : string :=
  match parts with
  | [] => EmptyString
  | [p] => p
  | p :: ps => p +:+ sep +:+ Join ps sep
  end.

Fixpoint contains (s : string) (c : ascii) : bool :=
  match s with
  | EmptyString => false
  | String a rest => Ascii.eqb a c || contains rest c
  end.

End GoStrings.

(** ** Package [time] *)

Module GoTime.

Definition Time := Z.
Definition Duration := Z.

Definition minDuration : Duration := - 2 ^ 63.
Definition maxDuration : Duration := 2 ^ 63 - 1.

(** [t.Sub(u)]: the difference, or the extreme duration when it does not
    fit in an [int64]. *)
Definition Sub (t u : Time) : Duration :=
  let d := t - u in
  if d <? minDuration then minDuration
  else if maxDuration <? d then maxDuration
  else d.

End GoTime.

(** ** Values of the libraries the code is written against *)

Definition bytes := list Z.

Inductive Curve : Type := P256 | P384.

(** The dynamic values a [crypto.PublicKey] holds here: [*ecdsa.PublicKey],
    [*rsa.PublicKey], or a key of another algorithm. *)
Inductive CryptoPublicKey : Type :=
| ECDSAPublicKey (curve : Curve) (X Y : Z)
| RSAPublicKey (N E : Z)
| OtherPublicKey (algorithm : string) (raw : bytes).

Record ecdsa_PrivateKey : Type := {
  ecdsa_Curve : Curve;
  ecdsa_X : Z;
  ecdsa_Y : Z;
  ecdsa_D : Z
}.

Definition ecdsa_Public (k : ecdsa_PrivateKey) : CryptoPublicKey :=
  ECDSAPublicKey (ecdsa_Curve k) (ecdsa_X k) (ecdsa_Y k).

Record rsa_PrivateKey : Type := {
  rsa_N : Z;
  rsa_E : Z;
  rsa_D : Z
}.

Definition rsa_Public (k : rsa_PrivateKey) : CryptoPublicKey :=
  RSAPublicKey (rsa_N k) (rsa_E k).

(** What [encoding/json] stores in an [interface{}]. *)
Inductive GoAny : Type :=
| ANil
| ABool (b : bool)
| ANumber (n : Z)
| AString (s : string)
| ASlice (items : list GoAny)
| AMap (fields : list (string * GoAny)).

(** Lookup in a decoded JSON object ([m[key]] on a [map[string]interface{}]). *)
Fixpoint map_index (fields : list (string * GoAny)) (key : string) : option GoAny :=
  match fields with
  | [] => None
  | (k, v) :: rest => if String.eqb k key then Some v else map_index rest key
  end.

(** [did.VerificationMethod] and [did.Document] of go-did, reduced to the
    fields the resolver reads.  [Document.VerificationMethod] is a slice of
    pointers ([[]*VerificationMethod]): an element is a method or [nil]. *)
Record VerificationMethod : Type := {
  PublicKeyJwk : option (gmap string GoAny);
  PublicKeyMultibase : string;
  PublicKeyBase58 : string
}.

Record Document : Type := {
  ID : string;
  VerificationMethods : list (option VerificationMethod)
}.

Record HTTPResponse : Type := {
  StatusCode : Z;
  Body : errorOr string
}.

Record PEMBlock : Type := {
  BlockType : string;
  BlockBytes : bytes
}.

(** [OwnerKeyResponse] (owner_key_service.go:16). *)
Record OwnerKeyResponse : Type := {
  OwnerKeyPEM : string;
  OwnerDID : string;
  ResponseError : string
}.

(** ** The environment: everything the repository calls but does not define *)

Record Env : Type := {
  (** [time.Now()], by the number of earlier readings of the clock *)
  time_Now : nat -> GoTime.Time;
  (** [ecdsa.GenerateKey(curve, rand.Reader)] and [rsa.GenerateKey(rand.Reader,
      bits)], by the number of earlier draws from [rand.Reader] *)
  ecdsa_GenerateKey : Curve -> nat -> errorOr ecdsa_PrivateKey;
  rsa_GenerateKey : Z -> nat -> errorOr rsa_PrivateKey;
  (** [http.NewRequestWithContext(ctx, method, url, nil)]; the request is
      identified with its URL *)
  http_NewRequestWithContext : string -> string -> errorOr string;
  (** [httpClient.Do(req)], with [io.ReadAll(resp.Body)] as [Body] *)
  http_Do : string -> errorOr HTTPResponse;
  did_ParseDocument : string -> errorOr Document;
  x509_MarshalPKIXPublicKey : CryptoPublicKey -> errorOr bytes;
  x509_ParsePKIXPublicKey : bytes -> errorOr CryptoPublicKey;
  (** [x509.ParseCertificate(der)], reduced to the certificate's [PublicKey] *)
  x509_ParseCertificate : bytes -> errorOr CryptoPublicKey;
  x509_ParsePKCS1PublicKey : bytes -> errorOr CryptoPublicKey;
  (** [pem.Decode(data)]: the first block, or [nil] *)
  pem_Decode : string -> option PEMBlock;
  os_ReadFile : string -> errorOr string;
  (** [json.Unmarshal(data, &docMap)] into a [map[string]interface{}] *)
  json_Unmarshal_map : string -> errorOr (list (string * GoAny));
  (** [json.Unmarshal(output, &response)] into an [OwnerKeyResponse] *)
  json_Unmarshal_OwnerKeyResponse : string -> errorOr OwnerKeyResponse;
  (** [ExternalCommandExecutor.Execute(ctx, variables)] *)
  executor_Execute : gmap string string -> errorOr string;
  (** the error, if any, with which the session state's [exec] answers a
      statement (a closed or locked database, ...) *)
  exec_error : string -> option string
}.

(** ** The [did_cache] table *)

Module Cache.

(** [DIDCacheEntry] (did_resolver.go:28). *)
Record DIDCacheEntry : Type := {
  DIDURI : string;
  PublicKey : bytes;
  DIDURL : string;
  Timestamp : GoTime.Time;
  LastRefreshAttempt : GoTime.Time;
  LastRefreshError : string;
  LastUsed : GoTime.Time
}.

(** A column value of the generic [map[string]any] row object. *)
Inductive Column : Type :=
| CText (s : string)
| CBlob (b : bytes)
| CTime (t : GoTime.Time).

Definition text_of (c : option Column) (default : string) : string :=
  match c with Some (CText s) => s | _ => default end.
Definition blob_of (c : option Column) (default : bytes) : bytes :=
  match c with Some (CBlob b) => b | _ => default end.
Definition time_of (c : option Column) (default : GoTime.Time) : GoTime.Time :=
  match c with Some (CTime t) => t | _ => default end.

(** Overwrite the columns named in [kvs], keep the others. *)
Definition set_columns (kvs : gmap string Column) (row : DIDCacheEntry) : DIDCacheEntry :=
  {| DIDURI := text_of (kvs !! "did_uri") (DIDURI row);
     PublicKey := blob_of (kvs !! "public_key") (PublicKey row);
     DIDURL := text_of (kvs !! "did_url") (DIDURL row);
     Timestamp := time_of (kvs !! "timestamp") (Timestamp row);
     LastRefreshAttempt := time_of (kvs !! "last_refresh_attempt") (LastRefreshAttempt row);
     LastRefreshError := text_of (kvs !! "last_refresh_error") (LastRefreshError row);
     LastUsed := time_of (kvs !! "last_used") (LastUsed row) |}.

(** A new row needs the primary key and every [NOT NULL] column of the
    schema in [InitializeCache]; [did_url] and [last_refresh_error] may be
    missing. *)
Definition new_row (kvs : gmap string Column) : option DIDCacheEntry :=
  match kvs !! "did_uri", kvs !! "public_key", kvs !! "timestamp",
        kvs !! "last_refresh_attempt", kvs !! "last_used" with
  | Some (CText uri), Some (CBlob key), Some (CTime ts), Some (CTime att), Some (CTime used) =>
      Some {| DIDURI := uri; PublicKey := key;
              DIDURL := text_of (kvs !! "did_url") "";
              Timestamp := ts; LastRefreshAttempt := att;
              LastRefreshError := text_of (kvs !! "last_refresh_error") "";
              LastUsed := used |}
  | _, _, _, _, _ => None
  end.

(** Modelled from the spec: the Cache Store contract ([get], [upsert],
    [touch_last_used], [record_error]) is given by the session state's
    [query], [insertOrIgnore] and [insert] methods, which are not in the
    repository.  [query] is [get(uri) -> entry | absent]. *)
Definition query (table : gmap string DIDCacheEntry) (uri : string) : errorOr DIDCacheEntry :=
  match table !! uri with
  | Some row => Value row
  | None => Failure "not found"
  end.

(** Modelled from the spec: [insertOrIgnore] adds the row when its key is
    free and leaves the table alone otherwise; either way it reports no
    error. *)
Definition insertOrIgnore (table : gmap string DIDCacheEntry) (kvs : gmap string Column)
    : option string * gmap string DIDCacheEntry :=
  match new_row kvs with
  | Some row =>
      match table !! DIDURI row with
      | Some _ => (None, table)
      | None => (None, <[DIDURI row := row]> table)
      end
  | None => (Some "constraint failed", table)
  end.

(** Modelled from the spec: [insert] with a [where] clause on [did_uri]
    overwrites the named columns of the row with that key
    ([touch_last_used], [record_error], and the update half of [upsert]);
    without such a row it can only add a complete row. *)
Definition insert (table : gmap string DIDCacheEntry) (kvs : gmap string Column)
    (where_uri : string) : option string * gmap string DIDCacheEntry :=
  match table !! where_uri with
  | Some row => (None, <[where_uri := set_columns kvs row]> table)
  | None =>
      match new_row kvs with
      | Some row => (None, <[DIDURI row := row]> table)
      | None => (Some "constraint failed", table)
      end
  end.

(** One access to the table, as recorded in the operation log. *)
Inductive Op : Type :=
| OpQuery (uri : string)
| OpInsertOrIgnore (kvs : gmap string Column)
| OpInsert (kvs : gmap string Column) (where_uri : string).

End Cache.

(** ** The world the resolver runs in *)

(** The table is shared; a resolver holds a handle on it (its
    [sessionState]), [nil], or a value without the database methods. *)
Inductive SessionHandle : Type :=
| NilSession
| PlainSession
| DBSession.

Record World : Type := {
  did_cache : gmap string Cache.DIDCacheEntry;
  oplog : list Cache.Op;
  clock : nat;
  draws : nat
}.

Definition log_op (op : Cache.Op) (w : World) : World :=
  {| did_cache := did_cache w; oplog := oplog w ++ [op];
     clock := clock w; draws := draws w |}.

Definition set_table (t : gmap string Cache.DIDCacheEntry) (w : World) : World :=
  {| did_cache := t; oplog := oplog w; clock := clock w; draws := draws w |}.

Definition tick (w : World) : World :=
  {| did_cache := did_cache w; oplog := oplog w;
     clock := S (clock w); draws := draws w |}.

Definition draw (w : World) : World :=
  {| did_cache := did_cache w; oplog := oplog w;
     clock := clock w; draws := S (draws w) |}.

(** [DIDCache], the resolver's configuration (fields as in [DefaultConfig]). *)
Record DIDCache : Type := {
  Enabled : bool;
  RefreshInterval : GoTime.Duration;
  MaxAge : GoTime.Duration;
  FailureBackoff : GoTime.Duration;
  PurgeUnused : GoTime.Duration;
  PurgeOnStartup : bool
}.

(** [DIDResolver] (did_resolver.go:39), as [NewDIDResolver] builds it: the
    HTTP client is in the environment, and the configuration is a
    [DIDCache], not [nil] (every caller passes one). *)
Record DIDResolver : Type := {
  sessionState : SessionHandle;
  config : DIDCache
}.

Definition NewDIDResolver (sessionState : SessionHandle) (config : DIDCache) : DIDResolver :=
  {| sessionState := sessionState; config := config |}.

(** ** did_resolver.go *)

Module Resolver.

Import GoStrings.
Import Cache.

Definition colon : ascii := ":"%char.

Section WithEnv.

Variable env : Env.

(** [getFromCache] (line 435). *)
Definition getFromCache (r : DIDResolver) (didURI : string) (w : World)
    : errorOr DIDCacheEntry * World :=
  match sessionState r with
  | NilSession => (Failure "no session state available", w)
  | PlainSession => (Failure "session state does not support database queries", w)
  | DBSession => (Cache.query (did_cache w) didURI, log_op (OpQuery didURI) w)
  end.

(** [updateCache] (line 467). *)
Definition updateCache (r : DIDResolver) (entry : DIDCacheEntry) (w : World)
    : option string * World :=
  match sessionState r with
  | NilSession => (Some "no session state available", w)
  | PlainSession => (Some "session state does not support database operations", w)
  | DBSession =>
      let kvs : gmap string Column :=
        <["did_uri" := CText (DIDURI entry)]>
        (<["public_key" := CBlob (PublicKey entry)]>
        (<["did_url" := CText (DIDURL entry)]>
        (<["timestamp" := CTime (Timestamp entry)]>
        (<["last_refresh_attempt" := CTime (LastRefreshAttempt entry)]>
        (<["last_refresh_error" := CText (LastRefreshError entry)]>
        (<["last_used" := CTime (LastUsed entry)]> ∅)))))) in
      let '(err, t1) := Cache.insertOrIgnore (did_cache w) kvs in
      let w1 := set_table t1 (log_op (OpInsertOrIgnore kvs) w) in
      match err with
      | Some _ =>
          let '(err2, t2) := Cache.insert (did_cache w1) kvs (DIDURI entry) in
          (err2, set_table t2 (log_op (OpInsert kvs (DIDURI entry)) w1))
      | None => (None, w1)
      end
  end.

(** [updateLastUsed] (line 504). *)
Definition updateLastUsed (r : DIDResolver) (didURI : string) (lastUsed : GoTime.Time)
    (w : World) : option string * World :=
  match sessionState r with
  | NilSession => (Some "no session state available", w)
  | PlainSession => (Some "session state does not support database operations", w)
  | DBSession =>
      let kvs : gmap string Column := <["last_used" := CTime lastUsed]> ∅ in
      let '(err, t1) := Cache.insert (did_cache w) kvs didURI in
      (err, set_table t1 (log_op (OpInsert kvs didURI) w))
  end.

(** [updateCacheError] (line 524). *)
Definition updateCacheError (r : DIDResolver) (didURI : string)
    (timestamp : GoTime.Time) (errorMsg : string) (w : World) : option string * World :=
  match sessionState r with
  | NilSession => (Some "no session state available", w)
  | PlainSession => (Some "session state does not support database operations", w)
  | DBSession =>
      let kvs : gmap string Column :=
        <["last_refresh_attempt" := CTime timestamp]>
        (<["last_refresh_error" := CText errorMsg]> ∅) in
      let '(err, t1) := Cache.insert (did_cache w) kvs didURI in
      (err, set_table t1 (log_op (OpInsert kvs didURI) w))
  end.

(** [deserializePublicKey] (line 428). *)
Definition deserializePublicKey (keyBytes : bytes) : errorOr CryptoPublicKey :=
  x509_ParsePKIXPublicKey env keyBytes.

(** [extractPublicKeyFromDIDKey] (line 122). *)
Definition extractPublicKeyFromDIDKey (didKey : string) : errorOr CryptoPublicKey :=
  Failure "did:key resolution not yet implemented - need proper multicodec decoding".

(** [parseECJWK] (line 331).  The key comes from [ecdsa.GenerateKey] on
    [rand.Reader]; the entries [x] and [y] of [jwkData] are not read. *)
Definition parseECJWK (jwkData : gmap string GoAny) (w : World)
    : errorOr CryptoPublicKey * World :=
  match jwkData !! "crv" with
  | Some (AString crv) =>
      let curve :=
        if String.eqb crv "P-256" then Some P256
        else if String.eqb crv "P-384" then Some P384
        else None in
      match curve with
      | None => (Failure ("unsupported EC curve: " +:+ crv), w)
      | Some curve =>
          match ecdsa_GenerateKey env curve (draws w) with
          | Failure err => (Failure (wrap "failed to generate test EC key" err), draw w)
          | Value privateKey => (Value (ecdsa_Public privateKey), draw w)
          end
      end
  | _ => (Failure "missing or invalid crv in EC JWK", w)
  end.

(** [parseRSAJWK] (line 362): [jwkData] is not read at all. *)
Definition parseRSAJWK (jwkData : gmap string GoAny) (w : World)
    : errorOr CryptoPublicKey * World :=
  match rsa_GenerateKey env 2048 (draws w) with
  | Failure err => (Failure (wrap "failed to generate test RSA key" err), draw w)
  | Value privateKey => (Value (rsa_Public privateKey), draw w)
  end.

(** [parseJWK] (line 310). *)
Definition parseJWK (jwkData : gmap string GoAny) (w : World)
    : errorOr CryptoPublicKey * World :=
  match jwkData !! "kty" with
  | Some (AString kty) =>
      if String.eqb kty "EC" then parseECJWK jwkData w
      else if String.eqb kty "RSA" then parseRSAJWK jwkData w
      else (Failure ("unsupported JWK key type: " +:+ kty), w)
  | _ => (Failure "missing or invalid kty in JWK", w)
  end.

(** [parseMultibase] (line 373) and [parseBase58] (line 380). *)
Definition parseMultibase (multibase : string) : errorOr CryptoPublicKey :=
  Failure "multibase parsing not yet implemented".
Definition parseBase58 (base58 : string) : errorOr CryptoPublicKey :=
  Failure "base58 parsing not yet implemented".

(** [extractPublicKey] (line 283).  [vm := doc.VerificationMethod[0]] is
    a pointer; reading [vm.PublicKeyJwk] through a [nil] one panics. *)
Definition extractPublicKey (doc : Document) (w : World)
    : run CryptoPublicKey * World :=
  match VerificationMethods doc with
  | [] => (Returns (Failure "no verification methods found in DID document"), w)
  | None :: _ =>
      (Panics "runtime error: invalid memory address or nil pointer dereference", w)
  | Some vm :: _ =>
      match PublicKeyJwk vm with
      | Some jwk => let '(res, w1) := parseJWK jwk w in (Returns res, w1)
      | None =>
          if negb (String.eqb (PublicKeyMultibase vm) "")
          then (Returns (parseMultibase (PublicKeyMultibase vm)), w)
          else if negb (String.eqb (PublicKeyBase58 vm) "")
          then (Returns (parseBase58 (PublicKeyBase58 vm)), w)
          else (Returns (Failure "no supported public key format found in verification method"), w)
      end
  end.

(** [extractDIDURL] (line 387). *)
Definition extractDIDURL (doc : Document) : string :=
  let didURI := ID doc in
  if negb (HasPrefix didURI "did:file:") then ""
  else
    let filename := TrimPrefix didURI "did:file:" in
    if String.eqb filename "" then ""
    else
      (* filepath.Join("examples", filename) *)
      match os_ReadFile env ("examples/" +:+ filename) with
      | Failure _ => ""
      | Value data =>
          match json_Unmarshal_map env data with
          | Failure _ => ""
          | Value docMap =>
              match map_index docMap "fido-device-onboarding" with
              | Some (AMap fdoExt) =>
                  match map_index fdoExt "voucherRecipientURL" with
                  | Some (AString voucherURL) => voucherURL
                  | _ => ""
                  end
              | _ => ""
              end
          end
      end.

(** [fetchDIDWeb] (line 195). *)
Definition fetchDIDWeb (r : DIDResolver) (didURI : string) (now : GoTime.Time)
    (w : World) : run (CryptoPublicKey * string) * World :=
  let fail (msg : string) (w : World) : run (CryptoPublicKey * string) * World :=
    (Returns (Failure msg), snd (updateCacheError r didURI now msg w)) in
  let parts := Split (TrimPrefix didURI "did:web:") colon in
  match parts with
  | [] => fail "invalid did:web format" w
  | domain :: rest =>
      let path := match rest with
                  | [] => ""
                  | _ => "/" +:+ Join rest ":"
                  end in
      let url := "https://" +:+ domain +:+ "/.well-known/did.json" +:+ path in
      match http_NewRequestWithContext env "GET" url with
      | Failure err => fail (wrap "failed to create request" err) w
      | Value req =>
      match http_Do env req with
      | Failure err => fail (wrap "failed to fetch DID document" err) w
      | Value resp =>
      if negb (StatusCode resp =? 200)
      then fail ("HTTP " +:+ pretty (StatusCode resp) +:+ " when fetching DID document") w
      else
      match Body resp with
      | Failure err => fail (wrap "failed to read response body" err) w
      | Value body =>
      match did_ParseDocument env body with
      | Failure err => fail (wrap "failed to parse DID document" err) w
      | Value doc =>
      match extractPublicKey doc w with
      | (Panics msg, w1) => (Panics msg, w1)
      | (Returns (Failure err), w1) => fail (wrap "failed to extract public key" err) w1
      | (Returns (Value publicKey), w1) =>
      let didURL := extractDIDURL doc in
      match x509_MarshalPKIXPublicKey env publicKey with
      | Failure err => fail (wrap "failed to serialize public key" err) w1
      | Value publicKeyBytes =>
          let entry := {| DIDURI := didURI; PublicKey := publicKeyBytes;
                          DIDURL := didURL; Timestamp := now;
                          LastRefreshAttempt := now; LastRefreshError := "";
                          LastUsed := now |} in
          (* a failed cache update is only printed *)
          (Returns (Value (publicKey, didURL)), snd (updateCache r entry w1))
      end end end end end end
  end.

(** [strings.Split(didURI, ":")[1]] in the last line of [ResolveDIDKey]
    and of [refreshFromNetwork]. *)
Definition unsupportedMethod {A} (didURI : string) : run A :=
  match Split didURI colon with
  | _ :: method :: _ => Returns (Failure ("unsupported DID method: " +:+ method))
  | parts =>
      Panics ("runtime error: index out of range [1] with length "
              +:+ pretty (Z.of_nat (length parts)))
  end.

(** [refreshFromNetwork] (line 151). *)
Definition refreshFromNetwork (r : DIDResolver) (didURI : string) (w : World)
    : run (CryptoPublicKey * string) * World :=
  let now := time_Now env (clock w) in
  let w := tick w in
  if HasPrefix didURI "did:web:" then
    fetchDIDWeb r didURI now w
  else if HasPrefix didURI "did:key:" then
    match extractPublicKeyFromDIDKey didURI with
    | Failure err =>
        (Returns (Failure (wrap "failed to extract public key" err)),
         snd (updateCacheError r didURI now (wrap "failed to extract public key" err) w))
    | Value publicKey =>
        match x509_MarshalPKIXPublicKey env publicKey with
        | Failure err => (Returns (Failure (wrap "failed to serialize public key" err)), w)
        | Value publicKeyBytes =>
            let entry := {| DIDURI := didURI; PublicKey := publicKeyBytes;
                            DIDURL := ""; Timestamp := now;
                            LastRefreshAttempt := now; LastRefreshError := "";
                            LastUsed := now |} in
            (Returns (Value (publicKey, "")), snd (updateCache r entry w))
        end
    end
  else (unsupportedMethod didURI, w).

(** [shouldRefresh] (line 130). *)
Definition shouldRefresh (config : DIDCache) (cached : DIDCacheEntry)
    (now : GoTime.Time) : bool :=
  if MaxAge config <? GoTime.Sub now (Timestamp cached) then true
  else if GoTime.Sub now (Timestamp cached) <? RefreshInterval config then false
  else if GoTime.Sub now (LastRefreshAttempt cached) <? FailureBackoff config then false
  else true.

(** [resolveDIDKeyDirect] (line 76). *)
Definition resolveDIDKeyDirect (r : DIDResolver) (didURI : string) (w : World)
    : run (CryptoPublicKey * string) * World :=
  match extractPublicKeyFromDIDKey didURI with
  | Failure err =>
      (Returns (Failure (wrap "failed to extract public key from did:key" err)), w)
  | Value publicKey => (Returns (Value (publicKey, "")), w)
  end.

(** [resolveDIDWebCached] (line 89). *)
Definition resolveDIDWebCached (r : DIDResolver) (didURI : string) (w : World)
    : run (CryptoPublicKey * string) * World :=
  let now := time_Now env (clock w) in
  let w := tick w in
  match getFromCache r didURI w with
  | (Value cached, w1) =>
      let w2 := snd (updateLastUsed r didURI now w1) in
      let useCached (w : World) : run (CryptoPublicKey * string) * World :=
        match deserializePublicKey (PublicKey cached) with
        | Failure err =>
            (Returns (Failure (wrap "failed to deserialize cached public key" err)), w)
        | Value publicKey => (Returns (Value (publicKey, DIDURL cached)), w)
        end in
      if shouldRefresh (config r) cached now then
        match refreshFromNetwork r didURI w2 with
        | (Returns (Value refreshed), w3) => (Returns (Value refreshed), w3)
        | (Returns (Failure refreshErr), w3) => useCached w3
        | (Panics msg, w3) => (Panics msg, w3)
        end
      else useCached w2
  | (Failure _, w1) => refreshFromNetwork r didURI w1
  end.

(** [ResolveDIDKey] (line 57). *)
Definition ResolveDIDKey (r : DIDResolver) (didURI : string) (w : World)
    : run (CryptoPublicKey * string) * World :=
  if negb (Enabled (config r)) then (Returns (Failure "DID cache is disabled"), w)
  else if HasPrefix didURI "did:key:" then resolveDIDKeyDirect r didURI w
  else if HasPrefix didURI "did:web:" then resolveDIDWebCached r didURI w
  else (unsupportedMethod didURI, w).

End WithEnv.

End Resolver.

(** ** owner_key_service.go *)

Module OwnerKey.

(** [OwnerKeyResult] (line 35). *)
Record OwnerKeyResult : Type := {
  PublicKey : CryptoPublicKey;
  DIDURL : string
}.

Section WithEnv.

Variable env : Env.

(** [parsePKIXPublicKey] (line 121). *)
Definition parsePKIXPublicKey (data : bytes) : errorOr CryptoPublicKey :=
  match x509_ParsePKIXPublicKey env data with
  | Failure err => Failure (wrap "failed to parse PKIX public key" err)
  | Value pubKey => Value pubKey
  end.

(** [parseCertificatePublicKey] (line 131). *)
Definition parseCertificatePublicKey (data : bytes) : errorOr CryptoPublicKey :=
  match x509_ParseCertificate env data with
  | Failure err => Failure (wrap "failed to parse certificate" err)
  | Value certPublicKey => Value certPublicKey
  end.

(** [parsePublicKeyFromPEM] (line 101). *)
Definition parsePublicKeyFromPEM (data : string) : errorOr CryptoPublicKey :=
  match pem_Decode env data with
  | None => Failure "failed to decode PEM block"
  | Some block =>
      if String.eqb (BlockType block) "PUBLIC KEY"
      then parsePKIXPublicKey (BlockBytes block)
      else if String.eqb (BlockType block) "CERTIFICATE"
      then parseCertificatePublicKey (BlockBytes block)
      else Failure ("unsupported PEM block type: " +:+ BlockType block)
  end.

(** [handleDIDResponse] (line 85): the resolver is built on a [nil]
    session state and [&DIDCache{Enabled: false}], every other field of
    the configuration at its zero value. *)
Definition handleDIDResponse (didURI : string) (w : World)
    : run OwnerKeyResult * World :=
  let resolver :=
    NewDIDResolver NilSession
      {| Enabled := false; RefreshInterval := 0; MaxAge := 0;
         FailureBackoff := 0; PurgeUnused := 0; PurgeOnStartup := false |} in
  match Resolver.ResolveDIDKey env resolver didURI w with
  | (Returns (Failure err), w1) =>
      (Returns (Failure (wrap ("failed to resolve DID " +:+ didURI) err)), w1)
  | (Returns (Value (publicKey, didURL)), w1) =>
      (Returns (Value {| PublicKey := publicKey; DIDURL := didURL |}), w1)
  | (Panics msg, w1) => (Panics msg, w1)
  end.

(** [GetOwnerKey] (line 41). *)
Definition GetOwnerKey (serial model : string) (w : World)
    : run OwnerKeyResult * World :=
  let variables : gmap string string :=
    <["serialno" := serial]> (<["model" := model]> (<["guid" := ""]> ∅)) in
  match executor_Execute env variables with
  | Failure err => (Returns (Failure (wrap "failed to execute owner key command" err)), w)
  | Value output =>
      match json_Unmarshal_OwnerKeyResponse env output with
      | Failure err => (Returns (Failure (wrap "failed to parse owner key response" err)), w)
      | Value response =>
          if negb (String.eqb (ResponseError response) "")
          then (Returns (Failure ("owner key service error: " +:+ ResponseError response)), w)
          else if negb (String.eqb (OwnerDID response) "")
          then handleDIDResponse (OwnerDID response) w
          else if String.eqb (OwnerKeyPEM response) ""
          then (Returns (Failure "no owner key returned"), w)
          else
            match parsePublicKeyFromPEM (OwnerKeyPEM response) with
            | Failure err => (Returns (Failure (wrap "failed to parse PEM key" err)), w)
            | Value publicKey =>
                (Returns (Value {| PublicKey := publicKey; DIDURL := "" |}), w)
            end
      end
  end.

End WithEnv.

End OwnerKey.

(** ** voucher_callback.go *)

Module Callback.

Import OwnerKey.

(** [fdo.Voucher], reduced to the header fields the callback reads and the
    chain of entries that signing and extension append to. *)
Record Voucher : Type := {
  GUID : bytes;
  DeviceInfo : string;
  Entries : list bytes
}.

(** [custom.DeviceMfgInfo]. *)
Record DeviceMfgInfo : Type := {
  SerialNumber : string;
  MfgDeviceInfo : string
}.

(** The [sessionState interface{}] argument: [nil], a value without the
    [DeviceSelfInfo] method, or one whose [DeviceSelfInfo] answers with a
    (possibly nil) [*DeviceMfgInfo] or an error. *)
Inductive SessionState : Type :=
| SessionNil
| SessionOpaque
| SessionDeviceInfo (answer : errorOr (option DeviceMfgInfo)).

(** The dynamic value of [nextOwner crypto.PublicKey] (an [interface{}]):
    a key, a certificate chain, or the owner-key service's result record
    (should line 120 hand that on). *)
Inductive OwnerValue : Type :=
| KeyValue (key : CryptoPublicKey)
| CertChainValue (chain : list bytes)
| OwnerKeyResultValue (r : OwnerKeyResult).

Definition ExtraData := list (Z * bytes).

(** A [crypto.Signer], by the public key it signs for. *)
Record Signer : Type := {
  signer_Public : CryptoPublicKey
}.

(** What the statement of line 120 leaves in [nextOwner]: a value (possibly
    the nil interface), or a panic of the assertion. *)
Inductive Assertion : Type :=
| Asserted (nextOwner : option OwnerValue)
| AssertionPanics (msg : string).

(** [VoucherConfig], reduced to the settings the callback reads. *)
Record VoucherConfig : Type := {
  PersistToDB : bool;
  VoucherSigning_Mode : string;
  OwnerSignover_Mode : string;
  OwnerSignover_StaticPublicKey : string;
  OwnerSignover_ExternalCommand : string;
  VoucherUpload_Enabled : bool;
  SaveToDisk_Directory : string
}.

(** [VoucherCallbackService] (line 21): the configuration and the
    collaborating services, each given by the method the callback calls,
    together with the two things [BeforeVoucherPersist] uses and the
    repository does not fix: the library function [fdo.ExtendVoucher], and
    the meaning of the assertion in line 120. *)
Record VoucherCallbackService : Type := {
  config : VoucherConfig;
  (** [ownerKeyService.GetOwnerKey(ctx, serial, model)] *)
  ownerKeyService : string -> string -> World -> run OwnerKeyResult * World;
  (** [voucherSigningService.SignVoucher(ctx, ov, nextOwner, serial, model,
      extraData)], after [SetSessionState(sessionState)] *)
  voucherSigningService :
    SessionState -> Voucher -> option OwnerValue -> string -> string ->
    option ExtraData -> errorOr Voucher;
  (** [voucherUploadService.UploadVoucher(ctx, serial, model, guid, ov)] *)
  voucherUploadService : string -> string -> string -> Voucher -> option string;
  (** [voucherDiskService.SaveVoucherToDisk(ov, serial)] *)
  voucherDiskService : Voucher -> string -> option string;
  (** [oveExtraDataService.GetOVEExtraData(ctx, serial, model)], or [nil] *)
  oveExtraDataService : option (string -> string -> errorOr (option ExtraData));
  (** [fdo.ExtendVoucher(ov, owner, nextOwner, extra)]: the voucher, the
      signer of the current owner, the next owner's key and the extra data;
      the call returns a voucher or an error, or it panics *)
  fdo_ExtendVoucher :
    Voucher -> option Signer -> OwnerValue -> option ExtraData -> run Voucher;
  (** [ownerKey.(crypto.PublicKey)] (line 120).  [ownerKey] is a
      [*OwnerKeyResult] and no interface, so the compiler rejects the
      assertion and the statement has no meaning of its own.  What it leaves
      in [nextOwner] is not chosen here: it is any function of the result
      (the result itself, its [PublicKey] field, a panic, ...), and the
      statements about the callback hold for each. *)
  ownerKey_asserted : OwnerKeyResult -> Assertion
}.

(** The calls the callback makes on its collaborators, in order. *)
Inductive Call : Type :=
| CallGetOwnerKey (serial model : string)
| CallGetOVEExtraData (serial model : string)
| CallSignVoucher (ov : Voucher) (nextOwner : option OwnerValue)
    (serial model : string) (extraData : option ExtraData)
| CallExtendVoucher (ov : Voucher) (key : OwnerValue)
| CallUploadVoucher (serial model guid : string) (ov : Voucher)
| CallSaveVoucherToDisk (ov : Voucher) (serial : string).

(** What the callback can change: the voucher behind [ov], the record of
    its calls, the warnings it has printed, and the resolver's world. *)
Record Station : Type := {
  voucher : Voucher;
  calls : list Call;
  printed : list string;
  world : World
}.

Definition called (c : Call) (st : Station) : Station :=
  {| voucher := voucher st; calls := calls st ++ [c]; printed := printed st;
     world := world st |}.

Definition set_voucher (ov : Voucher) (st : Station) : Station :=
  {| voucher := ov; calls := calls st; printed := printed st; world := world st |}.

Definition set_world (w : World) (st : Station) : Station :=
  {| voucher := voucher st; calls := calls st; printed := printed st; world := w |}.

(** [fmt.Printf] of a warning (the debug lines are not recorded). *)
Definition warn (msg : string) (st : Station) : Station :=
  {| voucher := voucher st; calls := calls st; printed := printed st ++ [msg];
     world := world st |}.

(** [fmt.Sprintf("%x", guid[:])]. *)
Definition hex_digit (n : Z) : ascii :=
  match n with
  | 0 => "0" | 1 => "1" | 2 => "2" | 3 => "3" | 4 => "4" | 5 => "5" | 6 => "6"
  | 7 => "7" | 8 => "8" | 9 => "9" | 10 => "a" | 11 => "b" | 12 => "c"
  | 13 => "d" | 14 => "e" | _ => "f"
  end%char.

Fixpoint hex (b : bytes) : string :=
  match b with
  | [] => EmptyString
  | x :: rest =>
      String (hex_digit (Z.land (Z.shiftr x 4) 15))
        (String (hex_digit (Z.land x 15)) (hex rest))
  end.

Section WithEnv.

Variable env : Env.

(** [parseStaticPublicKey] (line 240). *)
Definition parseStaticPublicKey (pemKey : string) : errorOr CryptoPublicKey :=
  match pem_Decode env pemKey with
  | None => Failure "failed to decode PEM block"
  | Some block =>
      match x509_ParsePKIXPublicKey env (BlockBytes block) with
      | Value key => Value key
      | Failure _ =>
          match x509_ParseCertificate env (BlockBytes block) with
          | Value certPublicKey => Value certPublicKey
          | Failure _ =>
              match x509_ParsePKCS1PublicKey env (BlockBytes block) with
              | Value key => Value key
              | Failure _ => Failure "unsupported public key format"
              end
          end
      end
  end.

End WithEnv.

(** [getDeviceInfo] (line 208). *)
Definition getDeviceInfo (sessionState : SessionState) (ov : option Voucher)
    : string * string * string :=
  let '(serial, model) :=
    match sessionState with
    | SessionDeviceInfo (Value (Some info)) => (SerialNumber info, MfgDeviceInfo info)
    | _ => (""%string, ""%string)
    end in
  let '(serial, model) :=
    match ov with
    | Some ov =>
        (if String.eqb serial "" then hex (GUID ov) else serial,
         if String.eqb model "" then DeviceInfo ov else model)
    | None => (serial, model)
    end in
  let guid := match ov with Some ov => hex (GUID ov) | None => ""%string end in
  (serial, model, guid).

(** The type of [nextOwner] printed by [%T] in the default case of the type
    switch. *)
Definition type_name (v : OwnerValue) : string :=
  match v with
  | KeyValue (ECDSAPublicKey _ _ _) => "*ecdsa.PublicKey"
  | KeyValue (RSAPublicKey _ _) => "*rsa.PublicKey"
  | KeyValue (OtherPublicKey algorithm _) => algorithm
  | CertChainValue _ => "[]*x509.Certificate"
  | OwnerKeyResultValue _ => "*main.OwnerKeyResult"
  end.

Section Workflow.

Variable env : Env.
Variable v : VoucherCallbackService.

(** Lines 55-88 of [BeforeVoucherPersist]: serial, model and GUID text.
    The second probe of the session state prints the fields of the
    answer before using them, so a nil answer without an error panics. *)
Definition deviceIdentity (sessionState : SessionState) (ov : Voucher)
    : run (string * string * string) :=
  let '(serial, model, _) := getDeviceInfo sessionState (Some ov) in
  let probed : run (string * string) :=
    match sessionState with
    | SessionDeviceInfo (Value (Some devInfo)) =>
        Returns (Value (SerialNumber devInfo, MfgDeviceInfo devInfo))
    | SessionDeviceInfo (Value None) =>
        Panics "runtime error: invalid memory address or nil pointer dereference"
    | SessionDeviceInfo (Failure _) => Returns (Value (serial, model))
    | SessionNil | SessionOpaque => Returns (Value (serial, model))
    end in
  match probed with
  | Returns (Value (serial, model)) =>
      let serial := if String.eqb serial "" then hex (GUID ov) else serial in
      let model := if String.eqb model "" then DeviceInfo ov else model in
      Returns (Value (serial, model, hex (GUID ov)))
  | Returns (Failure err) => Returns (Failure err)
  | Panics msg => Panics msg
  end.

(** Lines 94-128: the switch on [OwnerSignover.Mode].  In dynamic mode
    [GetOwnerKey] returns a [*OwnerKeyResult], and [nextOwner] is what
    [ownerKey_asserted] makes of it (line 120); no other statement of
    [BeforeVoucherPersist] reads the result or its [DIDURL]. *)
Definition ownerSignover (serial model : string) (st : Station)
    : run (option OwnerValue) * Station :=
  let mode := OwnerSignover_Mode (config v) in
  if String.eqb mode "static" then
    if negb (String.eqb (OwnerSignover_StaticPublicKey (config v)) "") then
      match parseStaticPublicKey env (OwnerSignover_StaticPublicKey (config v)) with
      | Failure err => (Returns (Failure (wrap "failed to parse static public key" err)), st)
      | Value key => (Returns (Value (Some (KeyValue key))), st)
      end
    else (Returns (Value None), st)
  else if String.eqb mode "dynamic" then
    if negb (String.eqb (OwnerSignover_ExternalCommand (config v)) "") then
      let st1 := called (CallGetOwnerKey serial model) st in
      match ownerKeyService v serial model (world st1) with
      | (Returns (Failure err), w1) =>
          (Returns (Failure (wrap "failed to get dynamic owner key" err)), set_world w1 st1)
      | (Returns (Value ownerKey), w1) =>
          match ownerKey_asserted v ownerKey with
          | Asserted nextOwner => (Returns (Value nextOwner), set_world w1 st1)
          | AssertionPanics msg => (Panics msg, set_world w1 st1)
          end
      | (Panics msg, w1) => (Panics msg, set_world w1 st1)
      end
    else (Returns (Failure "dynamic mode enabled but no external command configured"), st)
  else (Returns (Value None), st).

(** Lines 130-184: voucher signing, or direct extension to the owner.  The
    extension is [fdo.ExtendVoucher(ov, nil, key, nil)]: the owner's signer
    and the extra data are both [nil]. *)
Definition signOrExtend (sessionState : SessionState) (serial model : string)
    (nextOwner : option OwnerValue) (st : Station) : run unit * Station :=
  if negb (String.eqb (VoucherSigning_Mode (config v)) "") then
    let '(extraData, st1) :=
      match oveExtraDataService v with
      | Some getOVEExtraData =>
          let st0 := called (CallGetOVEExtraData serial model) st in
          match getOVEExtraData serial model with
          | Failure err => (None, warn (wrap "Failed to get OVEExtra data" err) st0)
          | Value data => (data, st0)
          end
      | None => (None, st)
      end in
    let st2 := called (CallSignVoucher (voucher st1) nextOwner serial model extraData) st1 in
    match voucherSigningService v sessionState (voucher st1) nextOwner serial model extraData with
    | Failure err => (Returns (Failure (wrap "voucher signing failed" err)), st2)
    | Value signedVoucher => (Returns (Value tt), set_voucher signedVoucher st2)
    end
  else
    match nextOwner with
    | None => (Returns (Value tt), st)
    | Some key =>
        let extend : run unit * Station :=
          let st1 := called (CallExtendVoucher (voucher st) key) st in
          match fdo_ExtendVoucher v (voucher st) None key None with
          | Panics msg => (Panics msg, st1)
          | Returns (Failure err) =>
              (Returns (Failure (wrap "failed to extend voucher to owner" err)), st1)
          | Returns (Value extended) => (Returns (Value tt), set_voucher extended st1)
          end in
        match key with
        | KeyValue (RSAPublicKey _ _) => extend
        | KeyValue (ECDSAPublicKey _ _ _) => extend
        | CertChainValue _ => extend
        | _ => (Returns (Failure ("unsupported owner key type: " +:+ type_name key)), st)
        end
    end.

(** Lines 186-191: upload. *)
Definition uploadStep (serial model guidStr : string) (st : Station)
    : option string * Station :=
  if VoucherUpload_Enabled (config v) then
    (voucherUploadService v serial model guidStr (voucher st),
     called (CallUploadVoucher serial model guidStr (voucher st)) st)
  else (None, st).

(** Lines 193-199: save to disk; the error is printed and dropped. *)
Definition diskStep (serial : string) (st : Station) : Station :=
  if negb (String.eqb (SaveToDisk_Directory (config v)) "") then
    let st1 := called (CallSaveVoucherToDisk (voucher st) serial) st in
    match voucherDiskService v (voucher st) serial with
    | Some err => warn (wrap "Failed to save voucher to disk" err) st1
    | None => st1
    end
  else st.

(** [BeforeVoucherPersist] (line 53). *)
Definition BeforeVoucherPersist (sessionState : SessionState) (st : Station)
    : run bool * Station :=
  match deviceIdentity sessionState (voucher st) with
  | Panics msg => (Panics msg, st)
  | Returns (Failure err) => (Returns (Failure err), st)
  | Returns (Value (serial, model, guidStr)) =>
      match ownerSignover serial model st with
      | (Panics msg, st1) => (Panics msg, st1)
      | (Returns (Failure err), st1) => (Returns (Failure err), st1)
      | (Returns (Value nextOwner), st1) =>
          match signOrExtend sessionState serial model nextOwner st1 with
          | (Panics msg, st2) => (Panics msg, st2)
          | (Returns (Failure err), st2) => (Returns (Failure err), st2)
          | (Returns (Value _), st2) =>
              match uploadStep serial model guidStr st2 with
              | (Some err, st3) =>
                  (Returns (Failure (wrap "voucher upload failed" err)), st3)
              | (None, st3) =>
                  let st4 := diskStep serial st3 in
                  (Returns (Value (PersistToDB (config v))), st4)
              end
          end
      end
  end.

End Workflow.


End Callback.

(** ** Vocabulary of the statements *)

(** A cache row after [touch_last_used], and after [record_error]. *)
Definition touched (t : GoTime.Time) (row : Cache.DIDCacheEntry) : Cache.DIDCacheEntry :=
  {| Cache.DIDURI := Cache.DIDURI row; Cache.PublicKey := Cache.PublicKey row;
     Cache.DIDURL := Cache.DIDURL row; Cache.Timestamp := Cache.Timestamp row;
     Cache.LastRefreshAttempt := Cache.LastRefreshAttempt row;
     Cache.LastRefreshError := Cache.LastRefreshError row; Cache.LastUsed := t |}.

Definition failed (t : GoTime.Time) (msg : string) (row : Cache.DIDCacheEntry)
    : Cache.DIDCacheEntry :=
  {| Cache.DIDURI := Cache.DIDURI row; Cache.PublicKey := Cache.PublicKey row;
     Cache.DIDURL := Cache.DIDURL row; Cache.Timestamp := Cache.Timestamp row;
     Cache.LastRefreshAttempt := t; Cache.LastRefreshError := msg;
     Cache.LastUsed := Cache.LastUsed row |}.

(** The world in which [resolveDIDWebCached] starts a refresh: the clock has
    been read, the row looked up and its [last_used] set. *)
Definition before_refresh (env : Env) (r : DIDResolver) (uri : string) (w : World) : World :=
  snd (Resolver.updateLastUsed r uri (time_Now env (clock w))
         (snd (Resolver.getFromCache r uri (tick w)))).

(** The world in which it fetches after a cache miss. *)
Definition after_miss (r : DIDResolver) (uri : string) (w : World) : World :=
  snd (Resolver.getFromCache r uri (tick w)).

(** The callback with another disk service. *)
Definition with_disk (save : Callback.Voucher -> string -> option string)
    (v : Callback.VoucherCallbackService) : Callback.VoucherCallbackService :=
  {| Callback.config := Callback.config v;
     Callback.ownerKeyService := Callback.ownerKeyService v;
     Callback.voucherSigningService := Callback.voucherSigningService v;
     Callback.voucherUploadService := Callback.voucherUploadService v;
     Callback.voucherDiskService := save;
     Callback.oveExtraDataService := Callback.oveExtraDataService v;
     Callback.fdo_ExtendVoucher := Callback.fdo_ExtendVoucher v;
     Callback.ownerKey_asserted := Callback.ownerKey_asserted v |}.

(** A call that hands the voucher over to a new owner: asking the owner-key
    service, extending the voucher, or signing with an owner key. *)
Definition is_signover (c : Callback.Call) : bool :=
  match c with
  | Callback.CallGetOwnerKey _ _ => true
  | Callback.CallExtendVoucher _ _ => true
  | Callback.CallSignVoucher _ (Some _) _ _ _ => true
  | _ => false
  end.

Definition no_signover (calls : list Callback.Call) : bool :=
  forallb (fun c => negb (is_signover c)) calls.

(** ** Fixtures: one concrete environment and configuration *)

Module Fixture.

Import Cache.

(** A station whose network is down: every request fails in transport.
    Keys unmarshal from one byte, the clock advances one hour per
    reading, and the owner-key command answers with an identifier URI. *)
Definition offline : Env :=
  {| time_Now := fun n => 100 * 3600000000000 + Z.of_nat n * 3600000000000;
     ecdsa_GenerateKey := fun curve n =>
       Value {| ecdsa_Curve := curve; ecdsa_X := 1000 + Z.of_nat n;
                ecdsa_Y := 2000 + Z.of_nat n; ecdsa_D := 3000 + Z.of_nat n |};
     rsa_GenerateKey := fun bits n =>
       Value {| rsa_N := 5000 + Z.of_nat n; rsa_E := 65537; rsa_D := 7 |};
     http_NewRequestWithContext := fun method url => Value url;
     http_Do := fun req => Failure "dial tcp: connection refused";
     did_ParseDocument := fun body => Failure "unexpected end of JSON input";
     x509_MarshalPKIXPublicKey := fun key =>
       match key with
       | ECDSAPublicKey _ x y => Value [x; y]
       | _ => Failure "unsupported public key type"
       end;
     x509_ParsePKIXPublicKey := fun der =>
       match der with
       | [x; y] => Value (ECDSAPublicKey P256 x y)
       | _ => Failure "asn1: syntax error"
       end;
     x509_ParseCertificate := fun der => Failure "x509: malformed certificate";
     x509_ParsePKCS1PublicKey := fun der => Failure "asn1: syntax error";
     pem_Decode := fun data => None;
     os_ReadFile := fun path => Failure "no such file or directory";
     json_Unmarshal_map := fun data => Failure "unexpected end of JSON input";
     json_Unmarshal_OwnerKeyResponse := fun output =>
       Value {| OwnerKeyPEM := ""; OwnerDID := output; ResponseError := "" |};
     executor_Execute := fun variables => Value "did:web:owner.example.com";
     exec_error := fun statement => None |}.

Definition hour : GoTime.Duration := 3600000000000.

(** The defaults of [DefaultConfig], switched on. *)
Definition cache_config : DIDCache :=
  {| Enabled := true; RefreshInterval := hour; MaxAge := 24 * hour;
     FailureBackoff := hour; PurgeUnused := 7 * 24 * hour;
     PurgeOnStartup := false |}.

Definition resolver : DIDResolver := NewDIDResolver DBSession cache_config.

Definition owner_uri : string := "did:web:owner.example.com".

(** A row resolved 30 hours before the first clock reading. *)
Definition stale_row : DIDCacheEntry :=
  {| DIDURI := owner_uri; PublicKey := [11; 22];
     DIDURL := "https://owner.example.com/api/vouchers";
     Timestamp := 70 * hour; LastRefreshAttempt := 70 * hour;
     LastRefreshError := ""; LastUsed := 90 * hour |}.

Definition warm : World :=
  {| did_cache := <[owner_uri := stale_row]> ∅; oplog := []; clock := 0; draws := 0 |}.

Definition cold : World :=
  {| did_cache := ∅; oplog := []; clock := 0; draws := 0 |}.

(** Two EC P-256 JWKs with different coordinates, and an RSA JWK. *)
Definition jwk_a : gmap string GoAny :=
  <["kty" := AString "EC"]> (<["crv" := AString "P-256"]>
  (<["x" := AString "f83OJ3D2xF1Bg8vub9tLe1gHMzV76e8Tus9uPHvRVEU"]>
  (<["y" := AString "x_FEzRu9m36HLN_tue659LNpXW6pCyStikYjKIWI5a0"]> ∅))).

Definition jwk_b : gmap string GoAny :=
  <["kty" := AString "EC"]> (<["crv" := AString "P-256"]>
  (<["x" := AString "WKn-ZIGevcwGIyyrzFoZNBdaq9_TsqzGl96oc0CWuis"]>
  (<["y" := AString "y77t-RvAHRKTsSGdIYUfweuOvwrvDD-Q3Hv5J0fSKbE"]> ∅))).

Definition jwk_rsa : gmap string GoAny :=
  <["kty" := AString "RSA"]> (<["n" := AString "sXchDaQebHnPiGvyDOAT4saGEUetSyo9MKLOoWFsueri23bOdgWp4Dy1Wl"]>
  (<["e" := AString "AQAB"]> ∅)).

Definition document_a : Document :=
  {| ID := owner_uri;
     VerificationMethods :=
       [Some {| PublicKeyJwk := Some jwk_a; PublicKeyMultibase := "";
                PublicKeyBase58 := "" |}] |}.

(** The callback: a device, the owner the authority would name, and
    collaborators that sign by appending one entry, accept every upload and
    cannot write to disk.  An extension appends an entry too, but needs the
    owner's signer.  Line 120 is read as [ownerKey.PublicKey]. *)
Definition ov0 : Callback.Voucher :=
  {| Callback.GUID := [222; 173; 190; 239]; Callback.DeviceInfo := "widget";
     Callback.Entries := [] |}.

Definition owner : OwnerKey.OwnerKeyResult :=
  {| OwnerKey.PublicKey := ECDSAPublicKey P256 11 22; OwnerKey.DIDURL := "" |}.

Definition append_entry (entry : bytes) (ov : Callback.Voucher) : Callback.Voucher :=
  {| Callback.GUID := Callback.GUID ov; Callback.DeviceInfo := Callback.DeviceInfo ov;
     Callback.Entries := Callback.Entries ov ++ [entry] |}.

Definition service (cfg : Callback.VoucherConfig) : Callback.VoucherCallbackService :=
  {| Callback.config := cfg;
     Callback.ownerKeyService := fun serial model w => (Returns (Value owner), w);
     Callback.voucherSigningService := fun ss ov nextOwner serial model extra =>
       Value (append_entry [1] ov);
     Callback.voucherUploadService := fun serial model guid ov => None;
     Callback.voucherDiskService := fun ov serial => Some "permission denied";
     Callback.oveExtraDataService := None;
     Callback.fdo_ExtendVoucher := fun ov owner key extra =>
       match owner with
       | Some _ => Returns (Value (append_entry [2] ov))
       | None => Panics "runtime error: invalid memory address or nil pointer dereference"
       end;
     Callback.ownerKey_asserted := fun r =>
       Callback.Asserted (Some (Callback.KeyValue (OwnerKey.PublicKey r))) |}.

(** Dynamic signover, default signing, upload and disk-save switched on. *)
Definition dynamic_config : Callback.VoucherConfig :=
  {| Callback.PersistToDB := true;
     Callback.VoucherSigning_Mode := "internal";
     Callback.OwnerSignover_Mode := "dynamic";
     Callback.OwnerSignover_StaticPublicKey := "";
     Callback.OwnerSignover_ExternalCommand := "/usr/local/bin/owner-key";
     Callback.VoucherUpload_Enabled := true;
     Callback.SaveToDisk_Directory := "/var/lib/vouchers" |}.

(** Static signover without a key; nothing is to be kept in the store. *)
Definition static_config : Callback.VoucherConfig :=
  {| Callback.PersistToDB := false;
     Callback.VoucherSigning_Mode := "internal";
     Callback.OwnerSignover_Mode := "static";
     Callback.OwnerSignover_StaticPublicKey := "";
     Callback.OwnerSignover_ExternalCommand := "";
     Callback.VoucherUpload_Enabled := true;
     Callback.SaveToDisk_Directory := "/var/lib/vouchers" |}.

Definition session : Callback.SessionState :=
  Callback.SessionDeviceInfo
    (Value (Some {| Callback.SerialNumber := "SN-0001"; Callback.MfgDeviceInfo := "widget" |})).

Definition station : Callback.Station :=
  {| Callback.voucher := ov0; Callback.calls := []; Callback.printed := [];
     Callback.world := cold |}.

End Fixture.

(** ** did_resolver.go: cache maintenance *)

Module Maintenance.

Import Cache.

(** [-d] on an [int64]: the least duration is its own negation. *)
Definition negate (d : GoTime.Duration) : GoTime.Duration :=
  if d =? GoTime.minDuration then GoTime.minDuration else - d.

(** [t.Add(d)]. *)
Definition Add (t : GoTime.Time) (d : GoTime.Duration) : GoTime.Time := t + d.

(** Modelled from the spec: the session state's [exec] is not in the
    repository; when it reports no error, on
    ["DELETE FROM did_cache WHERE last_used < :last_used_lt"] it is the
    contract's [delete_where]: the rows with [last_used] before the bound
    are removed and their number is returned. *)
Definition exec_delete_unused (table : gmap string DIDCacheEntry) (last_used_lt : GoTime.Time)
    : Z * gmap string DIDCacheEntry :=
  let kept := filter (fun kv => last_used_lt <= LastUsed kv.2) table in
  (Z.of_nat (size table) - Z.of_nat (size kept), kept).

(** Modelled from the spec: [exec] on ["DELETE FROM did_cache"], when it
    reports no error, is the contract's [delete_all]. *)
Definition exec_delete_all (table : gmap string DIDCacheEntry)
    : Z * gmap string DIDCacheEntry :=
  (Z.of_nat (size table), ∅).

Section WithEnv.

Variable env : Env.

(** [PurgeExpired] (line 547).  The statements of the maintenance path are
    not row accesses of a resolution and are not put in the operation log. *)
Definition PurgeExpired (r : DIDResolver) (w : World) : errorOr Z * World :=
  match sessionState r with
  | NilSession => (Failure "no session state available", w)
  | PlainSession => (Failure "session state does not support database operations", w)
  | DBSession =>
      let cutoff := Add (time_Now env (clock w)) (negate (PurgeUnused (config r))) in
      let w := tick w in
      match exec_error env "DELETE FROM did_cache WHERE last_used < :last_used_lt" with
      | Some err => (Failure (wrap "failed to purge expired DID cache entries" err), w)
      | None =>
          let '(result, table) := exec_delete_unused (did_cache w) cutoff in
          (Value result, set_table table w)
      end
  end.

(** [PurgeAll] (line 572). *)
Definition PurgeAll (r : DIDResolver) (w : World) : errorOr Z * World :=
  match sessionState r with
  | NilSession => (Failure "no session state available", w)
  | PlainSession => (Failure "session state does not support database operations", w)
  | DBSession =>
      match exec_error env "DELETE FROM did_cache" with
      | Some err => (Failure (wrap "failed to purge all DID cache entries" err), w)
      | None =>
          let '(result, table) := exec_delete_all (did_cache w) in
          (Value result, set_table table w)
      end
  end.

End WithEnv.

End Maintenance.

(** ** Vocabulary of the further statements *)

(** Every row is filed under its own [did_uri]. *)
Definition keyed (table : gmap string Cache.DIDCacheEntry) : Prop :=
  forall uri row, table !! uri = Some row -> Cache.DIDURI row = uri.

(** The table after a step differs from the one before at most in the row
    of [uri], and files every row under its key if the one before did. *)
Definition confined (uri : string) (t t' : gmap string Cache.DIDCacheEntry) : Prop :=
  (forall other, other <> uri -> t' !! other = t !! other)
  /\ (keyed t -> keyed t').

(** The row a successful fetch writes. *)
Definition fetched (uri : string) (key : bytes) (url : string) (now : GoTime.Time)
    : Cache.DIDCacheEntry :=
  {| Cache.DIDURI := uri; Cache.PublicKey := key; Cache.DIDURL := url;
     Cache.Timestamp := now; Cache.LastRefreshAttempt := now;
     Cache.LastRefreshError := ""; Cache.LastUsed := now |}.

(** The place of a collaborator call in the pipeline. *)
Definition stage (c : Callback.Call) : nat :=
  match c with
  | Callback.CallGetOwnerKey _ _ => 1
  | Callback.CallGetOVEExtraData _ _ => 2
  | Callback.CallSignVoucher _ _ _ _ _ => 3
  | Callback.CallExtendVoucher _ _ => 3
  | Callback.CallUploadVoucher _ _ _ _ => 4
  | Callback.CallSaveVoucherToDisk _ _ => 5
  end%nat.

(** The calls are made in pipeline order, each stage at most once, all of
    them after stage [from]. *)
Fixpoint staged (from : nat) (cs : list Callback.Call) : bool :=
  match cs with
  | [] => true
  | c :: rest => (from <? stage c)%nat && staged (stage c) rest
  end.

(** The callback with another extra-data service, or another configuration. *)
Definition with_extra_data
    (svc : option (string -> string -> errorOr (option Callback.ExtraData)))
    (v : Callback.VoucherCallbackService) : Callback.VoucherCallbackService :=
  {| Callback.config := Callback.config v;
     Callback.ownerKeyService := Callback.ownerKeyService v;
     Callback.voucherSigningService := Callback.voucherSigningService v;
     Callback.voucherUploadService := Callback.voucherUploadService v;
     Callback.voucherDiskService := Callback.voucherDiskService v;
     Callback.oveExtraDataService := svc;
     Callback.fdo_ExtendVoucher := Callback.fdo_ExtendVoucher v;
     Callback.ownerKey_asserted := Callback.ownerKey_asserted v |}.

Definition with_config (cfg : Callback.VoucherConfig)
    (v : Callback.VoucherCallbackService) : Callback.VoucherCallbackService :=
  {| Callback.config := cfg;
     Callback.ownerKeyService := Callback.ownerKeyService v;
     Callback.voucherSigningService := Callback.voucherSigningService v;
     Callback.voucherUploadService := Callback.voucherUploadService v;
     Callback.voucherDiskService := Callback.voucherDiskService v;
     Callback.oveExtraDataService := Callback.oveExtraDataService v;
     Callback.fdo_ExtendVoucher := Callback.fdo_ExtendVoucher v;
     Callback.ownerKey_asserted := Callback.ownerKey_asserted v |}.

(** A configuration with static signover and no key, otherwise as [cfg]. *)
Definition without_signover (cfg : Callback.VoucherConfig) : Callback.VoucherConfig :=
  {| Callback.PersistToDB := Callback.PersistToDB cfg;
     Callback.VoucherSigning_Mode := Callback.VoucherSigning_Mode cfg;
     Callback.OwnerSignover_Mode := "static";
     Callback.OwnerSignover_StaticPublicKey := "";
     Callback.OwnerSignover_ExternalCommand := Callback.OwnerSignover_ExternalCommand cfg;
     Callback.VoucherUpload_Enabled := Callback.VoucherUpload_Enabled cfg;
     Callback.SaveToDisk_Directory := Callback.SaveToDisk_Directory cfg |}.

(** Two stations that differ at most in the warnings printed. *)
Definition same_but_printed (st1 st2 : Callback.Station) : Prop :=
  Callback.voucher st1 = Callback.voucher st2
  /\ Callback.calls st1 = Callback.calls st2
  /\ Callback.world st1 = Callback.world st2.

(** ** Further fixtures *)

Module Bench.

(** A station whose network answers: every request gets the document of
    the owner; keys marshal to their two coordinates. *)
Definition online : Env :=
  {| time_Now := time_Now Fixture.offline;
     ecdsa_GenerateKey := ecdsa_GenerateKey Fixture.offline;
     rsa_GenerateKey := rsa_GenerateKey Fixture.offline;
     http_NewRequestWithContext := fun method url => Value url;
     http_Do := fun req => Value {| StatusCode := 200; Body := Value req |};
     did_ParseDocument := fun body => Value Fixture.document_a;
     x509_MarshalPKIXPublicKey := x509_MarshalPKIXPublicKey Fixture.offline;
     x509_ParsePKIXPublicKey := x509_ParsePKIXPublicKey Fixture.offline;
     x509_ParseCertificate := fun der =>
       match der with
       | [x; y; _] => Value (ECDSAPublicKey P384 x y)
       | _ => Failure "x509: malformed certificate"
       end;
     x509_ParsePKCS1PublicKey := fun der =>
       match der with
       | [n] => Value (RSAPublicKey n 65537)
       | _ => Failure "asn1: syntax error"
       end;
     pem_Decode := fun data =>
       if String.eqb data "" then None
       else if GoStrings.HasPrefix data "-----BEGIN PUBLIC KEY-----"
       then Some {| BlockType := "PUBLIC KEY"; BlockBytes := [11; 22] |}
       else if GoStrings.HasPrefix data "-----BEGIN CERTIFICATE-----"
       then Some {| BlockType := "CERTIFICATE"; BlockBytes := [33; 44; 55] |}
       else Some {| BlockType := "RSA PUBLIC KEY"; BlockBytes := [77] |};
     os_ReadFile := os_ReadFile Fixture.offline;
     json_Unmarshal_map := json_Unmarshal_map Fixture.offline;
     json_Unmarshal_OwnerKeyResponse := fun output =>
       if GoStrings.HasPrefix output "error:"
       then Value {| OwnerKeyPEM := "-----BEGIN PUBLIC KEY-----"; OwnerDID := "did:web:x";
                     ResponseError := output |}
       else Value {| OwnerKeyPEM := output; OwnerDID := ""; ResponseError := "" |};
     executor_Execute := fun variables =>
       match variables !! "serialno" with
       | Some serial =>
           if String.eqb serial "SN-0001" then Value "-----BEGIN PUBLIC KEY-----"
           else if String.eqb serial "SN-0002" then Value "-----BEGIN CERTIFICATE-----"
           else if String.eqb serial "SN-0003" then Value "-----BEGIN RSA PUBLIC KEY-----"
           else Value "error: unknown device"
       | None => Failure "exit status 1"
       end;
     exec_error := fun statement =>
       if String.eqb statement "DELETE FROM did_cache" then Some "database is locked"
       else None |}.

(** The same station when the document served lists a null verification
    method. *)
Definition headless : Env :=
  {| time_Now := time_Now online;
     ecdsa_GenerateKey := ecdsa_GenerateKey online;
     rsa_GenerateKey := rsa_GenerateKey online;
     http_NewRequestWithContext := http_NewRequestWithContext online;
     http_Do := http_Do online;
     did_ParseDocument := fun body =>
       Value {| ID := Fixture.owner_uri; VerificationMethods := [None] |};
     x509_MarshalPKIXPublicKey := x509_MarshalPKIXPublicKey online;
     x509_ParsePKIXPublicKey := x509_ParsePKIXPublicKey online;
     x509_ParseCertificate := x509_ParseCertificate online;
     x509_ParsePKCS1PublicKey := x509_ParsePKCS1PublicKey online;
     pem_Decode := pem_Decode online;
     os_ReadFile := os_ReadFile online;
     json_Unmarshal_map := json_Unmarshal_map online;
     json_Unmarshal_OwnerKeyResponse := json_Unmarshal_OwnerKeyResponse online;
     executor_Execute := executor_Execute online;
     exec_error := exec_error online |}.

Definition no_database : DIDResolver := NewDIDResolver NilSession Fixture.cache_config.

(** A resolver that keeps rows for two hours before it looks again. *)
Definition patient : DIDResolver :=
  NewDIDResolver DBSession
    {| Enabled := true; RefreshInterval := 2 * Fixture.hour; MaxAge := 24 * Fixture.hour;
       FailureBackoff := Fixture.hour; PurgeUnused := 7 * 24 * Fixture.hour;
       PurgeOnStartup := false |}.

(** A station on which no request can be built. *)
Definition unroutable : Env :=
  {| time_Now := time_Now Fixture.offline;
     ecdsa_GenerateKey := ecdsa_GenerateKey Fixture.offline;
     rsa_GenerateKey := rsa_GenerateKey Fixture.offline;
     http_NewRequestWithContext := fun method url => Failure ("net/url: invalid URL " +:+ url);
     http_Do := http_Do Fixture.offline;
     did_ParseDocument := did_ParseDocument Fixture.offline;
     x509_MarshalPKIXPublicKey := x509_MarshalPKIXPublicKey Fixture.offline;
     x509_ParsePKIXPublicKey := x509_ParsePKIXPublicKey Fixture.offline;
     x509_ParseCertificate := x509_ParseCertificate Fixture.offline;
     x509_ParsePKCS1PublicKey := x509_ParsePKCS1PublicKey Fixture.offline;
     pem_Decode := pem_Decode Fixture.offline;
     os_ReadFile := os_ReadFile Fixture.offline;
     json_Unmarshal_map := json_Unmarshal_map Fixture.offline;
     json_Unmarshal_OwnerKeyResponse := json_Unmarshal_OwnerKeyResponse Fixture.offline;
     executor_Execute := executor_Execute Fixture.offline;
     exec_error := exec_error Fixture.offline |}.

(** A row resolved and used ten minutes before the first clock reading. *)
Definition fresh_row : Cache.DIDCacheEntry :=
  {| Cache.DIDURI := Fixture.owner_uri; Cache.PublicKey := [11; 22];
     Cache.DIDURL := "https://owner.example.com/api/vouchers";
     Cache.Timestamp := 100 * Fixture.hour - 600000000000;
     Cache.LastRefreshAttempt := 100 * Fixture.hour - 600000000000;
     Cache.LastRefreshError := "";
     Cache.LastUsed := 100 * Fixture.hour - 600000000000 |}.

(** A row of another owner, not used for 60 days. *)
Definition idle_row : Cache.DIDCacheEntry :=
  {| Cache.DIDURI := "did:web:idle.example.com"; Cache.PublicKey := [5; 6];
     Cache.DIDURL := ""; Cache.Timestamp := - 1340 * Fixture.hour;
     Cache.LastRefreshAttempt := - 1340 * Fixture.hour;
     Cache.LastRefreshError := ""; Cache.LastUsed := - 1340 * Fixture.hour |}.

Definition busy : World :=
  {| did_cache := <[Fixture.owner_uri := fresh_row]>
                    (<["did:web:idle.example.com" := idle_row]> ∅);
     oplog := []; clock := 0; draws := 0 |}.

End Bench.

(** * Properties *)

(** ** Refresh policy *)

(** C4. With [X = now - resolved_at] and [B = now - last_refresh_attempt]:
    a row older than [MaxAge] is refreshed whatever its last attempt was;
    otherwise a row younger than [RefreshInterval] is not refreshed;
    otherwise a row whose last attempt is less than [FailureBackoff] ago is
    not refreshed; otherwise it is refreshed.  The four cases are exhaustive,
    so the decision is exactly this one. *)
Theorem shouldRefresh_policy :
  forall (config : DIDCache) (cached : Cache.DIDCacheEntry) (now : GoTime.Time),
    let X := GoTime.Sub now (Cache.Timestamp cached) in
    let B := GoTime.Sub now (Cache.LastRefreshAttempt cached) in
    (X > MaxAge config ->
       forall attempt,
         Resolver.shouldRefresh config
           {| Cache.DIDURI := Cache.DIDURI cached;
              Cache.PublicKey := Cache.PublicKey cached;
              Cache.DIDURL := Cache.DIDURL cached;
              Cache.Timestamp := Cache.Timestamp cached;
              Cache.LastRefreshAttempt := attempt;
              Cache.LastRefreshError := Cache.LastRefreshError cached;
              Cache.LastUsed := Cache.LastUsed cached |} now = true)
    /\ (X <= MaxAge config -> X < RefreshInterval config ->
          Resolver.shouldRefresh config cached now = false)
    /\ (X <= MaxAge config -> RefreshInterval config <= X ->
          B < FailureBackoff config ->
          Resolver.shouldRefresh config cached now = false)
    /\ (X <= MaxAge config -> RefreshInterval config <= X ->
          FailureBackoff config <= B ->
          Resolver.shouldRefresh config cached now = true)
    /\ (Resolver.shouldRefresh config cached now = true <->
          X > MaxAge config
          \/ (RefreshInterval config <= X /\ FailureBackoff config <= B)).
Proof.
  intros config cached now X B. unfold Resolver.shouldRefresh.
  cbn [Cache.Timestamp Cache.LastRefreshAttempt]. fold X B.
  destruct (Z.ltb_spec (MaxAge config) X);
    destruct (Z.ltb_spec X (RefreshInterval config));
    destruct (Z.ltb_spec B (FailureBackoff config));
    repeat split; intros; try reflexivity; try lia; try discriminate;
    try (left; lia); try (right; lia);
    repeat match goal with H : _ \/ _ |- _ => destruct H end; lia.
Qed.

(** The policy on the fixture: a row 30 hours old is refreshed although its
    last attempt is recent, a row 10 minutes old is not. *)
Example shouldRefresh_forced :
  Resolver.shouldRefresh Fixture.cache_config
    {| Cache.DIDURI := Fixture.owner_uri; Cache.PublicKey := [];
       Cache.DIDURL := ""; Cache.Timestamp := 70 * Fixture.hour;
       Cache.LastRefreshAttempt := 100 * Fixture.hour - 1;
       Cache.LastRefreshError := "timeout"; Cache.LastUsed := 0 |}
    (100 * Fixture.hour) = true.
Proof. reflexivity. Qed.

Example shouldRefresh_fresh :
  Resolver.shouldRefresh Fixture.cache_config
    {| Cache.DIDURI := Fixture.owner_uri; Cache.PublicKey := [];
       Cache.DIDURL := ""; Cache.Timestamp := 100 * Fixture.hour - 600000000000;
       Cache.LastRefreshAttempt := 0;
       Cache.LastRefreshError := ""; Cache.LastUsed := 0 |}
    (100 * Fixture.hour) = false.
Proof. reflexivity. Qed.

(** A row 2 hours old whose refresh failed 10 minutes ago is left alone, and
    refreshed once the last attempt is an hour old. *)
Example shouldRefresh_backoff :
  Resolver.shouldRefresh Fixture.cache_config
    {| Cache.DIDURI := Fixture.owner_uri; Cache.PublicKey := [];
       Cache.DIDURL := ""; Cache.Timestamp := 98 * Fixture.hour;
       Cache.LastRefreshAttempt := 100 * Fixture.hour - 600000000000;
       Cache.LastRefreshError := "timeout"; Cache.LastUsed := 0 |}
    (100 * Fixture.hour) = false.
Proof. reflexivity. Qed.

Example shouldRefresh_after_backoff :
  Resolver.shouldRefresh Fixture.cache_config
    {| Cache.DIDURI := Fixture.owner_uri; Cache.PublicKey := [];
       Cache.DIDURL := ""; Cache.Timestamp := 98 * Fixture.hour;
       Cache.LastRefreshAttempt := 99 * Fixture.hour;
       Cache.LastRefreshError := "timeout"; Cache.LastUsed := 0 |}
    (100 * Fixture.hour) = true.
Proof. reflexivity. Qed.

(** ** Dispatch on the method *)

Section Dispatch.

Import GoStrings.

Lemma prefix_append (p s : string) :
  String.prefix p s = true -> exists rest, s = p +:+ rest.
Proof.
  revert s. induction p as [|a p IH]; intros s.
  - intros _. exists s. reflexivity.
  - destruct s as [|c s]; cbn -[ascii_dec]; [discriminate|].
    destruct (ascii_dec a c) as [<-|]; [|discriminate].
    intros H. destruct (IH _ H) as [rest ->]. exists rest. reflexivity.
Qed.

Lemma web_is_not_key (uri : string) :
  HasPrefix uri "did:web:" = true -> HasPrefix uri "did:key:" = false.
Proof.
  unfold HasPrefix. intros H.
  destruct (prefix_append _ _ H) as [rest ->]. reflexivity.
Qed.

Lemma Split_without_separator (s : string) (sep : ascii) :
  contains s sep = false -> Split s sep = [s].
Proof.
  induction s as [|c s IH]; cbn; [reflexivity|].
  intros H. apply orb_false_iff in H as [Hc Hs].
  rewrite Hc, (IH Hs). reflexivity.
Qed.

Lemma Split_nonempty (s : string) (sep : ascii) : Split s sep <> [].
Proof.
  destruct s as [|c s]; cbn; [discriminate|].
  destruct (Ascii.eqb c sep); [discriminate|].
  destruct (Split s sep); discriminate.
Qed.

Lemma Split_with_separator (s : string) (sep : ascii) :
  contains s sep = true ->
  exists first second rest, Split s sep = first :: second :: rest.
Proof.
  induction s as [|c s IH]; cbn; [discriminate|].
  destruct (Ascii.eqb c sep) eqn:Hc; cbn.
  - intros _. destruct (Split s sep) as [|p ps] eqn:Hs.
    + exfalso. exact (Split_nonempty _ _ Hs).
    + eauto.
  - intros H. destruct (IH H) as (a & b & rest & ->). eauto.
Qed.

Lemma no_colon_no_method (uri : string) :
  contains uri Resolver.colon = false ->
  HasPrefix uri "did:key:" = false /\ HasPrefix uri "did:web:" = false.
Proof.
  unfold HasPrefix. intros H. split.
  - destruct (String.prefix "did:key:" uri) eqn:E; [|reflexivity].
    destruct (prefix_append _ _ E) as [rest ->]. discriminate H.
  - destruct (String.prefix "did:web:" uri) eqn:E; [|reflexivity].
    destruct (prefix_append _ _ E) as [rest ->]. discriminate H.
Qed.

(** A URI of another method that does contain a colon is refused with the
    text after the first colon as the method's name. *)
Lemma ResolveDIDKey_other_method (env : Env) (r : DIDResolver) (uri : string) (w : World) :
  Enabled (config r) = true ->
  HasPrefix uri "did:key:" = false ->
  HasPrefix uri "did:web:" = false ->
  contains uri Resolver.colon = true ->
  exists method,
    nth_error (Split uri Resolver.colon) 1 = Some method /\
    Resolver.ResolveDIDKey env r uri w
      = (Returns (Failure ("unsupported DID method: " +:+ method)), w).
Proof.
  intros He Hk Hw Hc. unfold Resolver.ResolveDIDKey, Resolver.unsupportedMethod.
  rewrite He, Hk, Hw. cbn.
  destruct (Split_with_separator _ _ Hc) as (a & m & rest & ->).
  exists m. split; reflexivity.
Qed.

(** C6, at the input where the code departs from it: with the resolver
    enabled, a URI without any colon makes [ResolveDIDKey] panic on
    [strings.Split(didURI, ":")[1]] instead of returning an error. *)
Theorem ResolveDIDKey_without_colon_panics
    (env : Env) (r : DIDResolver) (uri : string) (w : World) :
  Enabled (config r) = true ->
  contains uri Resolver.colon = false ->
  Resolver.ResolveDIDKey env r uri w
    = (Panics "runtime error: index out of range [1] with length 1", w).
Proof.
  intros He Hc. destruct (no_colon_no_method _ Hc) as [Hk Hw].
  unfold Resolver.ResolveDIDKey, Resolver.unsupportedMethod.
  rewrite He, Hk, Hw, (Split_without_separator _ _ Hc). reflexivity.
Qed.

Lemma ResolveDIDKey_without_colon_panics_witness :
  Resolver.ResolveDIDKey Fixture.offline Fixture.resolver "not-a-did" Fixture.cold
    = (Panics "runtime error: index out of range [1] with length 1", Fixture.cold).
Proof.
  apply (ResolveDIDKey_without_colon_panics Fixture.offline Fixture.resolver
           "not-a-did" Fixture.cold); reflexivity.
Defined.

(** C7. Resolving a [did:key:] URI through [ResolveDIDKey] leaves the
    world as it was: the table is not read or written and nothing is added
    to the operation log (no query, no upsert, no [last_used] update, no
    error record), whatever the session state and the configuration. *)
Theorem ResolveDIDKey_did_key_leaves_cache_alone
    (env : Env) (r : DIDResolver) (uri : string) (w : World) :
  HasPrefix uri "did:key:" = true ->
  snd (Resolver.ResolveDIDKey env r uri w) = w
  /\ oplog (snd (Resolver.ResolveDIDKey env r uri w)) = oplog w
  /\ did_cache (snd (Resolver.ResolveDIDKey env r uri w)) = did_cache w.
Proof.
  intros Hk.
  assert (snd (Resolver.ResolveDIDKey env r uri w) = w) as ->.
  { unfold Resolver.ResolveDIDKey. destruct (Enabled (config r)); cbn; [|reflexivity].
    rewrite Hk. reflexivity. }
  auto.
Qed.

Lemma ResolveDIDKey_did_key_leaves_cache_alone_witness :
  snd (Resolver.ResolveDIDKey Fixture.offline Fixture.resolver
         "did:key:z6MkhaXgBZDvotDkL5257faiztiGiC2QtKLGpbnnEGta2do7" Fixture.warm)
    = Fixture.warm.
Proof.
  apply (ResolveDIDKey_did_key_leaves_cache_alone Fixture.offline Fixture.resolver
           "did:key:z6MkhaXgBZDvotDkL5257faiztiGiC2QtKLGpbnnEGta2do7" Fixture.warm).
  reflexivity.
Defined.

End Dispatch.

(** ** Key extraction from a DID document *)

Section KeyExtraction.

Variable env : Env.

(** What [parseJWK] returns does not depend on the encoded key material:
    the entries [x], [y], [n] and [e] can be replaced by anything. *)
Lemma parseJWK_ignores_key_material (jwk : gmap string GoAny) (value : GoAny) (w : World) :
  Resolver.parseJWK env (<["x" := value]> jwk) w = Resolver.parseJWK env jwk w
  /\ Resolver.parseJWK env (<["y" := value]> jwk) w = Resolver.parseJWK env jwk w
  /\ Resolver.parseJWK env (<["n" := value]> jwk) w = Resolver.parseJWK env jwk w
  /\ Resolver.parseJWK env (<["e" := value]> jwk) w = Resolver.parseJWK env jwk w.
Proof.
  unfold Resolver.parseJWK, Resolver.parseECJWK, Resolver.parseRSAJWK.
  repeat split; rewrite !lookup_insert_ne by discriminate; reflexivity.
Qed.

(** For an EC verification method the extracted key is the public half of
    whatever [ecdsa.GenerateKey] draws from [rand.Reader]. *)
Lemma extractPublicKey_EC_is_generated
    (doc : Document) (vm : VerificationMethod) (rest : list (option VerificationMethod))
    (jwk : gmap string GoAny) (crv : string) (curve : Curve) (w : World) :
  VerificationMethods doc = Some vm :: rest ->
  PublicKeyJwk vm = Some jwk ->
  jwk !! "kty" = Some (AString "EC") ->
  jwk !! "crv" = Some (AString crv) ->
  (crv = "P-256" /\ curve = P256 \/ crv = "P-384" /\ curve = P384) ->
  Resolver.extractPublicKey env doc w
    = (Returns match ecdsa_GenerateKey env curve (draws w) with
               | Value privateKey => Value (ecdsa_Public privateKey)
               | Failure err => Failure (wrap "failed to generate test EC key" err)
               end, draw w).
Proof.
  intros Hvm Hjwk Hkty Hcrv Hcurve.
  unfold Resolver.extractPublicKey, Resolver.parseJWK, Resolver.parseECJWK.
  rewrite Hvm, Hjwk, Hkty, Hcrv. cbn.
  destruct Hcurve as [[-> ->]|[-> ->]]; cbn;
    destruct (ecdsa_GenerateKey env _ (draws w)); reflexivity.
Qed.

(** For an RSA verification method it is the public half of a fresh 2048-bit
    key. *)
Lemma extractPublicKey_RSA_is_generated
    (doc : Document) (vm : VerificationMethod) (rest : list (option VerificationMethod))
    (jwk : gmap string GoAny) (w : World) :
  VerificationMethods doc = Some vm :: rest ->
  PublicKeyJwk vm = Some jwk ->
  jwk !! "kty" = Some (AString "RSA") ->
  Resolver.extractPublicKey env doc w
    = (Returns match rsa_GenerateKey env 2048 (draws w) with
               | Value privateKey => Value (rsa_Public privateKey)
               | Failure err => Failure (wrap "failed to generate test RSA key" err)
               end, draw w).
Proof.
  intros Hvm Hjwk Hkty.
  unfold Resolver.extractPublicKey, Resolver.parseJWK, Resolver.parseRSAJWK.
  rewrite Hvm, Hjwk, Hkty. cbn.
  destruct (rsa_GenerateKey env 2048 (draws w)); reflexivity.
Qed.

End KeyExtraction.

(** C1, at the input where the code departs from it: two P-256 JWKs with
    different coordinates yield the same key when the random source is in the
    same state, and one JWK yields two different keys when it is not; the key
    of the document is the generator's, not the one encoded in [x] and [y]. *)
Theorem extractPublicKey_fresh_key_material :
  Resolver.parseJWK Fixture.offline Fixture.jwk_a Fixture.cold
    = (Value (ECDSAPublicKey P256 1000 2000), draw Fixture.cold)
  /\ Resolver.parseJWK Fixture.offline Fixture.jwk_b Fixture.cold
    = (Value (ECDSAPublicKey P256 1000 2000), draw Fixture.cold)
  /\ Resolver.parseJWK Fixture.offline Fixture.jwk_a (draw Fixture.cold)
    = (Value (ECDSAPublicKey P256 1001 2001), draw (draw Fixture.cold))
  /\ Resolver.parseJWK Fixture.offline Fixture.jwk_rsa Fixture.cold
    = (Value (RSAPublicKey 5000 65537), draw Fixture.cold)
  /\ Resolver.extractPublicKey Fixture.offline Fixture.document_a Fixture.cold
    = (Returns (Value (ECDSAPublicKey P256 1000 2000)), draw Fixture.cold).
Proof. repeat split; vm_compute; reflexivity. Qed.

(** ** Owner key service *)

Section OwnerKeyService.

Variable env : Env.

(** The resolver built by [handleDIDResponse] is disabled, so the call
    fails before looking at the URI. *)
Lemma handleDIDResponse_disabled (didURI : string) (w : World) :
  OwnerKey.handleDIDResponse env didURI w
    = (Returns (Failure (wrap ("failed to resolve DID " +:+ didURI) "DID cache is disabled")), w).
Proof. reflexivity. Qed.

(** C2, at the inputs where the code departs from it: when the authority
    answers with a non-empty identifier URI (and no error), [GetOwnerKey]
    fails with the resolver's "DID cache is disabled" error and returns no
    key, whatever the URI is. *)
Theorem GetOwnerKey_identifier_uri_fails
    (serial model output : string) (response : OwnerKeyResponse) (w : World) :
  executor_Execute env
    (<["serialno" := serial]> (<["model" := model]> (<["guid" := ""]> ∅))) = Value output ->
  json_Unmarshal_OwnerKeyResponse env output = Value response ->
  ResponseError response = "" ->
  OwnerDID response <> "" ->
  OwnerKey.GetOwnerKey env serial model w
    = (Returns (Failure (wrap ("failed to resolve DID " +:+ OwnerDID response)
                           "DID cache is disabled")), w).
Proof.
  intros Hexec Hjson Herr Hdid. unfold OwnerKey.GetOwnerKey.
  rewrite Hexec, Hjson, Herr. cbn.
  destruct (String.eqb_spec (OwnerDID response) "") as [E|_]; [contradiction|].
  cbn. apply handleDIDResponse_disabled.
Qed.

End OwnerKeyService.

Lemma GetOwnerKey_identifier_uri_fails_witness :
  OwnerKey.GetOwnerKey Fixture.offline "SN-0001" "widget" Fixture.warm
    = (Returns (Failure "failed to resolve DID did:web:owner.example.com: DID cache is disabled"),
       Fixture.warm).
Proof.
  apply (GetOwnerKey_identifier_uri_fails Fixture.offline "SN-0001" "widget"
           "did:web:owner.example.com"
           {| OwnerKeyPEM := ""; OwnerDID := "did:web:owner.example.com";
              ResponseError := "" |} Fixture.warm);
    [reflexivity | reflexivity | reflexivity | discriminate].
Defined.

(** ** The cache path of the web method *)

Section CachePath.

Import Cache.

Variable env : Env.

Lemma set_columns_last_used (t : GoTime.Time) (row : DIDCacheEntry) :
  set_columns (<["last_used" := CTime t]> ∅) row = touched t row.
Proof. reflexivity. Qed.

Lemma set_columns_error (t : GoTime.Time) (msg : string) (row : DIDCacheEntry) :
  set_columns (<["last_refresh_attempt" := CTime t]>
                 (<["last_refresh_error" := CText msg]> ∅)) row = failed t msg row.
Proof. reflexivity. Qed.

(** Key extraction touches nothing but the random source. *)
Lemma extractPublicKey_world (doc : Document) (w : World) :
  snd (Resolver.extractPublicKey env doc w) = w
  \/ snd (Resolver.extractPublicKey env doc w) = draw w.
Proof.
  unfold Resolver.extractPublicKey, Resolver.parseJWK, Resolver.parseECJWK,
    Resolver.parseRSAJWK.
  repeat case_match; simplify_eq; cbn; auto.
Qed.

(** Every failing exit of [fetchDIDWeb] records its error: the world it
    leaves is the one [updateCacheError] produces, from a world with the
    same table, log and clock as the initial one. *)
Lemma fetchDIDWeb_failure_recorded
    (r : DIDResolver) (uri : string) (now : GoTime.Time) (w w' : World) (msg : string) :
  Resolver.fetchDIDWeb env r uri now w = (Returns (Failure msg), w') ->
  exists w0,
    w' = snd (Resolver.updateCacheError r uri now msg w0)
    /\ did_cache w0 = did_cache w /\ oplog w0 = oplog w /\ clock w0 = clock w.
Proof.
  unfold Resolver.fetchDIDWeb. intros H.
  repeat case_match; simplify_eq;
    try (eexists; split; [reflexivity|]; auto; fail);
    match goal with
    | E : Resolver.extractPublicKey env ?doc w = (_, ?w1) |- _ =>
        exists w1; split; [reflexivity|];
        destruct (extractPublicKey_world doc w) as [Hw|Hw];
        rewrite E in Hw; cbn in Hw; subst w1; auto
    end.
Qed.

(** The world a failed refresh leaves, when the row is in the table. *)
Lemma refreshFromNetwork_failure_table
    (r : DIDResolver) (uri : string) (w w' : World) (row : DIDCacheEntry) (msg : string) :
  GoStrings.HasPrefix uri "did:web:" = true ->
  sessionState r = DBSession ->
  did_cache w !! uri = Some row ->
  Resolver.refreshFromNetwork env r uri w = (Returns (Failure msg), w') ->
  did_cache w' = <[uri := failed (time_Now env (clock w)) msg row]> (did_cache w).
Proof.
  intros Hp Hs Hrow H. unfold Resolver.refreshFromNetwork in H. rewrite Hp in H.
  destruct (fetchDIDWeb_failure_recorded _ _ _ _ _ _ H) as (w0 & -> & Ht & _ & _).
  unfold Resolver.updateCacheError. rewrite Hs. unfold Cache.insert.
  cbn in Ht. rewrite Ht, Hrow. cbn. rewrite set_columns_error. reflexivity.
Qed.

(** C5. For a [did:web:] URI on an enabled resolver: when the table holds a
    row for the URI, the policy asks for a refresh and the refresh fails,
    the call succeeds with the key decoded from the row's stored bytes and
    the row's delivery URL; afterwards the row differs from the one found
    only in [last_used] (set on the read), [last_refresh_attempt] and
    [last_refresh_error] (the failure), so [resolved_at], the key bytes and
    the URL are the old ones, and no other row changes.  When the table holds
    no row for the URI, a failed fetch is the error of the call. *)
Theorem failed_refresh_serves_cached_entry
    (r : DIDResolver) (uri : string) (w : World) :
  Enabled (config r) = true ->
  GoStrings.HasPrefix uri "did:web:" = true ->
  (forall (cached : DIDCacheEntry) (key : CryptoPublicKey) (msg : string),
      sessionState r = DBSession ->
      did_cache w !! uri = Some cached ->
      Resolver.shouldRefresh (config r) cached (time_Now env (clock w)) = true ->
      fst (Resolver.refreshFromNetwork env r uri (before_refresh env r uri w))
        = Returns (Failure msg) ->
      Resolver.deserializePublicKey env (PublicKey cached) = Value key ->
      fst (Resolver.ResolveDIDKey env r uri w) = Returns (Value (key, DIDURL cached))
      /\ did_cache (snd (Resolver.ResolveDIDKey env r uri w))
         = <[uri := failed (time_Now env (S (clock w))) msg
                      (touched (time_Now env (clock w)) cached)]> (did_cache w))
  /\ (forall (msg : string),
      did_cache w !! uri = None ->
      fst (Resolver.refreshFromNetwork env r uri (after_miss r uri w))
        = Returns (Failure msg) ->
      fst (Resolver.ResolveDIDKey env r uri w) = Returns (Failure msg)).
Proof.
  intros He Hp. split.
  - intros cached key msg Hs Hrow Hpol Hfail Hkey.
    unfold Resolver.ResolveDIDKey. rewrite He, (web_is_not_key _ Hp), Hp. cbn [negb].
    unfold Resolver.resolveDIDWebCached.
    unfold before_refresh in Hfail.
    assert (Resolver.getFromCache r uri (tick w)
            = (Value cached, log_op (OpQuery uri) (tick w))) as Hget.
    { unfold Resolver.getFromCache, Cache.query. rewrite Hs. cbn. rewrite Hrow. reflexivity. }
    rewrite Hget in *. cbn [snd] in Hfail. rewrite Hpol.
    set (w2 := snd (Resolver.updateLastUsed r uri (time_Now env (clock w))
                      (log_op (OpQuery uri) (tick w)))) in *.
    assert (did_cache w2 = <[uri := touched (time_Now env (clock w)) cached]> (did_cache w)
            /\ clock w2 = S (clock w)) as [Ht2 Hc2].
    { subst w2. unfold Resolver.updateLastUsed. rewrite Hs. unfold Cache.insert. cbn.
      rewrite Hrow. cbn. rewrite set_columns_last_used. auto. }
    destruct (Resolver.refreshFromNetwork env r uri w2) as [res w3] eqn:Hr.
    cbn [fst] in Hfail. subst res. rewrite Hkey. cbn [fst snd]. split; [reflexivity|].
    rewrite (refreshFromNetwork_failure_table r uri w2 w3
               (touched (time_Now env (clock w)) cached) msg Hp Hs
               ltac:(rewrite Ht2; apply lookup_insert_eq) Hr).
    rewrite Ht2, Hc2, insert_insert_eq. reflexivity.
  - intros msg Hnone Hfail.
    unfold Resolver.ResolveDIDKey. rewrite He, (web_is_not_key _ Hp), Hp. cbn [negb].
    unfold Resolver.resolveDIDWebCached. unfold after_miss in Hfail.
    destruct (Resolver.getFromCache r uri (tick w)) as [got w1] eqn:Hget.
    assert (exists err, got = Failure err) as [err ->].
    { unfold Resolver.getFromCache, Cache.query in Hget.
      destruct (sessionState r); cbn in Hget; try rewrite Hnone in Hget;
        simplify_eq; eauto. }
    exact Hfail.
Qed.

End CachePath.

Lemma failed_refresh_serves_cached_entry_witness :
  (fst (Resolver.ResolveDIDKey Fixture.offline Fixture.resolver Fixture.owner_uri Fixture.warm)
     = Returns (Value (ECDSAPublicKey P256 11 22, "https://owner.example.com/api/vouchers"))
   /\ did_cache (snd (Resolver.ResolveDIDKey Fixture.offline Fixture.resolver
                        Fixture.owner_uri Fixture.warm)) !! Fixture.owner_uri
      = Some {| Cache.DIDURI := Fixture.owner_uri; Cache.PublicKey := [11; 22];
                Cache.DIDURL := "https://owner.example.com/api/vouchers";
                Cache.Timestamp := 70 * Fixture.hour;
                Cache.LastRefreshAttempt := 101 * Fixture.hour;
                Cache.LastRefreshError :=
                  "failed to fetch DID document: dial tcp: connection refused";
                Cache.LastUsed := 100 * Fixture.hour |})
  /\ fst (Resolver.ResolveDIDKey Fixture.offline Fixture.resolver Fixture.owner_uri Fixture.cold)
     = Returns (Failure "failed to fetch DID document: dial tcp: connection refused").
Proof.
  split.
  - destruct (failed_refresh_serves_cached_entry Fixture.offline Fixture.resolver
                Fixture.owner_uri Fixture.warm eq_refl eq_refl) as [Hhit _].
    destruct (Hhit Fixture.stale_row (ECDSAPublicKey P256 11 22)
                "failed to fetch DID document: dial tcp: connection refused"
                eq_refl eq_refl eq_refl eq_refl eq_refl) as [Hres Htable].
    split; [exact Hres|]. rewrite Htable. reflexivity.
  - destruct (failed_refresh_serves_cached_entry Fixture.offline Fixture.resolver
                Fixture.owner_uri Fixture.cold eq_refl eq_refl) as [_ Hmiss].
    apply Hmiss; reflexivity.
Defined.

(** ** The voucher callback *)

Section VoucherCallback.

Import Callback.

Variable env : Env.

(** In dynamic mode the value handed on as [nextOwner] is what line 120
    makes of the owner-key service's result. *)
Lemma ownerSignover_dynamic
    (v : VoucherCallbackService) (serial model : string) (st st' : Station)
    (nextOwner : option OwnerValue) :
  OwnerSignover_Mode (config v) = "dynamic" ->
  ownerSignover env v serial model st = (Returns (Value nextOwner), st') ->
  exists r w',
    ownerKeyService v serial model (world st) = (Returns (Value r), w')
    /\ ownerKey_asserted v r = Asserted nextOwner.
Proof.
  intros Hmode. unfold ownerSignover. rewrite Hmode. cbn.
  destruct (negb _); [|discriminate].
  destruct (ownerKeyService v serial model _) as [[[r|err]|msg] w'] eqn:Hsvc;
    intros H; simplify_eq.
  exists r, w'. split; [reflexivity|].
  destruct (ownerKey_asserted v r); simplify_eq. reflexivity.
Qed.



End VoucherCallback.


(** ** The outcome of the callback *)

Section Outcome.

Import Callback.

Variable env : Env.
Variable v : VoucherCallbackService.

Lemma no_signover_snoc (cs : list Call) (c : Call) :
  no_signover (cs ++ [c]) = no_signover cs && negb (is_signover c).
Proof. unfold no_signover. rewrite forallb_app. cbn. rewrite andb_true_r. reflexivity. Qed.

Lemma ownerSignover_static_without_key (serial model : string) (st : Station) :
  OwnerSignover_Mode (config v) = "static" ->
  OwnerSignover_StaticPublicKey (config v) = "" ->
  ownerSignover env v serial model st = (Returns (Value None), st).
Proof. intros Hm Hk. unfold ownerSignover. rewrite Hm, Hk. reflexivity. Qed.

Lemma ownerSignover_voucher (serial model : string) (st : Station) :
  voucher (snd (ownerSignover env v serial model st)) = voucher st.
Proof. unfold ownerSignover. repeat case_match; reflexivity. Qed.

Lemma signOrExtend_without_owner (ss : SessionState) (serial model : string) (st : Station) :
  no_signover (calls st) = true ->
  no_signover (calls (snd (signOrExtend v ss serial model None st))) = true.
Proof.
  intros H. unfold signOrExtend.
  repeat case_match; simplify_eq; cbn;
    rewrite ?no_signover_snoc, ?H; reflexivity.
Qed.

(** A failed signing or extension leaves the voucher as it was. *)
Lemma signOrExtend_failure (ss : SessionState) (serial model : string)
    (nextOwner : option OwnerValue) (st st' : Station) (err : string) :
  signOrExtend v ss serial model nextOwner st = (Returns (Failure err), st') ->
  voucher st' = voucher st.
Proof.
  unfold signOrExtend. intros H. repeat case_match; simplify_eq; reflexivity.
Qed.

(** So does a panic of [fdo.ExtendVoucher]. *)
Lemma signOrExtend_panic (ss : SessionState) (serial model : string)
    (nextOwner : option OwnerValue) (st st' : Station) (msg : string) :
  signOrExtend v ss serial model nextOwner st = (Panics msg, st') ->
  voucher st' = voucher st.
Proof.
  unfold signOrExtend. intros H. repeat case_match; simplify_eq; reflexivity.
Qed.

(** After a successful one the voucher is the old one (nothing to do), or
    what the signing service or [fdo.ExtendVoucher] returned for it. *)
Lemma signOrExtend_success (ss : SessionState) (serial model : string)
    (nextOwner : option OwnerValue) (st st' : Station) (u : unit) :
  signOrExtend v ss serial model nextOwner st = (Returns (Value u), st') ->
  voucher st' = voucher st
  \/ (exists extraData,
        voucherSigningService v ss (voucher st) nextOwner serial model extraData
          = Value (voucher st'))
  \/ (exists key,
        fdo_ExtendVoucher v (voucher st) None key None = Returns (Value (voucher st'))).
Proof.
  unfold signOrExtend. intros H.
  repeat case_match; simplify_eq; cbn in *; eauto.
Qed.

Lemma uploadStep_station (serial model guidStr : string) (st : Station) :
  voucher (snd (uploadStep v serial model guidStr st)) = voucher st
  /\ (no_signover (calls st) = true ->
      no_signover (calls (snd (uploadStep v serial model guidStr st))) = true).
Proof.
  unfold uploadStep. destruct (VoucherUpload_Enabled (config v)); cbn; split; auto.
  intros H. rewrite no_signover_snoc, H. reflexivity.
Qed.

Lemma diskStep_station (serial : string) (st : Station) :
  voucher (diskStep v serial st) = voucher st
  /\ (no_signover (calls st) = true -> no_signover (calls (diskStep v serial st)) = true).
Proof.
  unfold diskStep. destruct (negb _); [|split; auto].
  destruct (voucherDiskService v (voucher st) serial); cbn; split; auto;
    intros H; rewrite no_signover_snoc, H; reflexivity.
Qed.

(** C8. Whenever the callback returns without an error, the boolean it
    returns is the configured [PersistToDB], whatever the other settings and
    the collaborators did.  In static mode without a configured key such a
    run has made no signover call: the owner-key service is not asked,
    the voucher is not extended, and signing gets no owner key. *)
Theorem BeforeVoucherPersist_returns_persist_flag
    (ss : SessionState) (st st' : Station) (b : bool) :
  BeforeVoucherPersist env v ss st = (Returns (Value b), st') ->
  b = PersistToDB (config v)
  /\ (OwnerSignover_Mode (config v) = "static" ->
      OwnerSignover_StaticPublicKey (config v) = "" ->
      no_signover (calls st) = true ->
      no_signover (calls st') = true).
Proof.
  unfold BeforeVoucherPersist. intros H.
  destruct (deviceIdentity ss (voucher st)) as [[[[serial model] guidStr]|]|];
    try discriminate.
  destruct (ownerSignover env v serial model st) as [[[nextOwner|]|] st1] eqn:Hown;
    try discriminate.
  destruct (signOrExtend v ss serial model nextOwner st1) as [[[u|]|] st2] eqn:Hsign;
    try discriminate.
  destruct (uploadStep v serial model guidStr st2) as [[err|] st3] eqn:Hup;
    try discriminate.
  injection H as <- <-. split; [reflexivity|].
  intros Hm Hk Hcalls.
  rewrite (ownerSignover_static_without_key serial model st Hm Hk) in Hown.
  injection Hown as <- <-.
  apply diskStep_station.
  pose proof (uploadStep_station serial model guidStr st2) as [_ Hu].
  rewrite Hup in Hu. apply Hu.
  pose proof (signOrExtend_without_owner ss serial model st Hcalls) as Hs.
  rewrite Hsign in Hs. exact Hs.
Qed.

End Outcome.

Lemma BeforeVoucherPersist_returns_persist_flag_witness :
  false = Callback.PersistToDB Fixture.static_config
  /\ no_signover
       [Callback.CallSignVoucher Fixture.ov0 None "SN-0001" "widget" None;
        Callback.CallUploadVoucher "SN-0001" "widget" "deadbeef"
          (Fixture.append_entry [1] Fixture.ov0);
        Callback.CallSaveVoucherToDisk (Fixture.append_entry [1] Fixture.ov0) "SN-0001"]
     = true.
Proof.
  destruct (BeforeVoucherPersist_returns_persist_flag Fixture.offline
              (Fixture.service Fixture.static_config) Fixture.session Fixture.station
              {| Callback.voucher := Fixture.append_entry [1] Fixture.ov0;
                 Callback.calls :=
                   [Callback.CallSignVoucher Fixture.ov0 None "SN-0001" "widget" None;
                    Callback.CallUploadVoucher "SN-0001" "widget" "deadbeef"
                      (Fixture.append_entry [1] Fixture.ov0);
                    Callback.CallSaveVoucherToDisk (Fixture.append_entry [1] Fixture.ov0)
                      "SN-0001"];
                 Callback.printed := ["Failed to save voucher to disk: permission denied"];
                 Callback.world := Fixture.cold |}
              false eq_refl) as [Hflag Hcalls].
  split; [exact Hflag | exact (Hcalls eq_refl eq_refl eq_refl)].
Defined.

Section Aborts.

Import Callback.

Variable env : Env.
Variable v : VoucherCallbackService.

(** The disk step with two disk services: the stations differ at most in
    the warning printed. *)
Lemma diskStep_any_service
    (save1 save2 : Voucher -> string -> option string) (serial : string) (st : Station) :
  voucher (diskStep (with_disk save1 v) serial st)
    = voucher (diskStep (with_disk save2 v) serial st)
  /\ calls (diskStep (with_disk save1 v) serial st)
    = calls (diskStep (with_disk save2 v) serial st)
  /\ world (diskStep (with_disk save1 v) serial st)
    = world (diskStep (with_disk save2 v) serial st).
Proof.
  unfold diskStep. cbn [with_disk config voucherDiskService].
  destruct (negb _); [|auto].
  destruct (save1 (voucher st) serial), (save2 (voucher st) serial); cbn; auto.
Qed.

(** What the disk service answers reaches nothing but the printed
    warnings: with any two disk services the callback returns the same
    result and leaves the same voucher, calls and world. *)
Lemma disk_service_only_prints
    (save1 save2 : Voucher -> string -> option string)
    (ss : SessionState) (st : Station) :
  let one := BeforeVoucherPersist env (with_disk save1 v) ss st in
  let other := BeforeVoucherPersist env (with_disk save2 v) ss st in
  fst one = fst other
  /\ voucher (snd one) = voucher (snd other)
  /\ calls (snd one) = calls (snd other)
  /\ world (snd one) = world (snd other).
Proof.
  unfold BeforeVoucherPersist.
  change (ownerSignover env (with_disk save1 v)) with (ownerSignover env v).
  change (ownerSignover env (with_disk save2 v)) with (ownerSignover env v).
  change (signOrExtend (with_disk save1 v)) with (signOrExtend v).
  change (signOrExtend (with_disk save2 v)) with (signOrExtend v).
  change (uploadStep (with_disk save1 v)) with (uploadStep v).
  change (uploadStep (with_disk save2 v)) with (uploadStep v).
  destruct (deviceIdentity ss (voucher st)) as [[[[serial model] guidStr]|]|];
    cbn; auto.
  destruct (ownerSignover env v serial model st) as [[[nextOwner|]|] st1]; cbn; auto.
  destruct (signOrExtend v ss serial model nextOwner st1) as [[[u|]|] st2]; cbn; auto.
  destruct (uploadStep v serial model guidStr st2) as [[err|] st3]; cbn; auto.
  split; [reflexivity|]. apply diskStep_any_service.
Qed.

(** C9. Disk-save is configured, the steps before it succeed (the run with
    a disk service that works returns a decision), and the disk service fails
    on the voucher and serial it is handed.  Then the callback still returns
    the configured [PersistToDB] and no error; its last call is the one to
    the disk service, on the final voucher; the failure is printed as a
    warning; and apart from that warning the station is the one the
    successful save leaves: same voucher, same calls, same world. *)
Theorem disk_save_failure_is_not_fatal
    (failing : Voucher -> string -> option string) (ss : SessionState) (st : Station)
    (serial model guidStr : string) (b : bool) (err : string) :
  let bad := BeforeVoucherPersist env (with_disk failing v) ss st in
  let good := BeforeVoucherPersist env (with_disk (fun _ _ => None) v) ss st in
  SaveToDisk_Directory (config v) <> "" ->
  deviceIdentity ss (voucher st) = Returns (Value (serial, model, guidStr)) ->
  fst good = Returns (Value b) ->
  failing (voucher (snd good)) serial = Some err ->
  fst bad = Returns (Value (PersistToDB (config v)))
  /\ fst bad = fst good
  /\ snd bad = warn (wrap "Failed to save voucher to disk" err) (snd good)
  /\ printed (snd bad) = printed (snd good) ++ [wrap "Failed to save voucher to disk" err]
  /\ (exists earlier,
        calls (snd bad) = earlier ++ [CallSaveVoucherToDisk (voucher (snd bad)) serial]).
Proof.
  cbv zeta. unfold BeforeVoucherPersist.
  change (ownerSignover env (with_disk failing v)) with (ownerSignover env v).
  change (ownerSignover env (with_disk (fun _ _ => None) v)) with (ownerSignover env v).
  change (signOrExtend (with_disk failing v)) with (signOrExtend v).
  change (signOrExtend (with_disk (fun _ _ => None) v)) with (signOrExtend v).
  change (uploadStep (with_disk failing v)) with (uploadStep v).
  change (uploadStep (with_disk (fun _ _ => None) v)) with (uploadStep v).
  intros Hdir -> .
  destruct (ownerSignover env v serial model st) as [[[nextOwner|]|] st1];
    cbn [fst snd]; try discriminate.
  destruct (signOrExtend v ss serial model nextOwner st1) as [[[u|]|] st2];
    cbn [fst snd]; try discriminate.
  destruct (uploadStep v serial model guidStr st2) as [[uerr|] st3];
    cbn [fst snd]; try discriminate.
  intros _. unfold diskStep. cbn [with_disk config voucherDiskService].
  destruct (String.eqb_spec (SaveToDisk_Directory (config v)) "") as [E|_];
    [contradiction|].
  cbn [negb called warn voucher calls printed]. intros ->.
  cbn [warn called voucher calls printed world].
  repeat split. exists (calls st3). reflexivity.
Qed.

(** With disk-save configured, a run that gets past the upload ends with
    the call to the disk service and returns the flag. *)
Lemma disk_save_then_decide (ss : SessionState) (st st3 : Station)
    (serial model guidStr : string) (nextOwner : option OwnerValue) (st1 st2 : Station) (u : unit) :
  SaveToDisk_Directory (config v) <> "" ->
  deviceIdentity ss (voucher st) = Returns (Value (serial, model, guidStr)) ->
  ownerSignover env v serial model st = (Returns (Value nextOwner), st1) ->
  signOrExtend v ss serial model nextOwner st1 = (Returns (Value u), st2) ->
  uploadStep v serial model guidStr st2 = (None, st3) ->
  BeforeVoucherPersist env v ss st
  = (Returns (Value (PersistToDB (config v))), diskStep v serial st3)
  /\ In (CallSaveVoucherToDisk (voucher st3) serial) (calls (diskStep v serial st3)).
Proof.
  intros Hdir Hid Hown Hsign Hup. unfold BeforeVoucherPersist.
  rewrite Hid, Hown, Hsign, Hup. split; [reflexivity|].
  unfold diskStep.
  destruct (String.eqb_spec (SaveToDisk_Directory (config v)) ""); [contradiction|].
  cbn [negb].
  destruct (voucherDiskService v (voucher st3) serial); cbn;
    apply in_or_app; right; left; reflexivity.
Qed.

Lemma upload_error_prefix (err : string) :
  GoStrings.HasPrefix (wrap "voucher upload failed" err) "voucher upload failed: " = true.
Proof. destruct err; reflexivity. Qed.

(** C10. When the callback panics, or returns an error other than the
    upload's, the voucher behind [ov] is the one it was given: the errors of
    identity derivation, owner-key resolution and signing or extension leave
    it untouched.  Whenever the voucher has changed, it is what the signing
    service or [fdo.ExtendVoucher] returned for the voucher given. *)
Theorem voucher_replaced_only_after_signing (ss : SessionState) (st : Station) :
  let res := fst (BeforeVoucherPersist env v ss st) in
  let st' := snd (BeforeVoucherPersist env v ss st) in
  (forall msg, res = Returns (Failure msg) ->
     GoStrings.HasPrefix msg "voucher upload failed: " = false ->
     voucher st' = voucher st)
  /\ (forall msg, res = Panics msg -> voucher st' = voucher st)
  /\ (voucher st' = voucher st
      \/ (exists nextOwner serial model extraData,
            voucherSigningService v ss (voucher st) nextOwner serial model extraData
              = Value (voucher st'))
      \/ (exists key,
            fdo_ExtendVoucher v (voucher st) None key None = Returns (Value (voucher st')))).
Proof.
  unfold BeforeVoucherPersist.
  destruct (deviceIdentity ss (voucher st)) as [[[[serial model] guidStr]|]|];
    cbn; try (repeat split; auto; fail).
  pose proof (ownerSignover_voucher env v serial model st) as Hv1.
  destruct (ownerSignover env v serial model st) as [[[nextOwner|]|] st1] eqn:Hown;
    cbn in *; try (repeat split; auto; fail).
  destruct (signOrExtend v ss serial model nextOwner st1) as [[[u|err]|msg] st2] eqn:Hsign;
    cbn.
  - pose proof (uploadStep_station v serial model guidStr st2) as [Hv3 _].
    assert (voucher st2 = voucher st
            \/ (exists nextOwner serial model extraData,
                  voucherSigningService v ss (voucher st) nextOwner serial model extraData
                    = Value (voucher st2))
            \/ (exists key,
                  fdo_ExtendVoucher v (voucher st) None key None
                    = Returns (Value (voucher st2))))
      as Hchanged.
    { destruct (signOrExtend_success v _ _ _ _ _ _ _ Hsign) as [E|[[x E]|[k E]]];
        rewrite Hv1 in E; eauto 8. }
    destruct (uploadStep v serial model guidStr st2) as [[uerr|] st3] eqn:Hup;
      cbn in *.
    + rewrite Hv3. repeat split; try discriminate; auto.
      intros msg [= <-] Hprefix. rewrite upload_error_prefix in Hprefix. discriminate.
    + destruct (diskStep_station v serial st3) as [-> _]. rewrite Hv3.
      repeat split; try discriminate; auto.
  - rewrite (signOrExtend_failure v _ _ _ _ _ _ _ Hsign), Hv1.
    repeat split; auto.
  - rewrite (signOrExtend_panic v _ _ _ _ _ _ _ Hsign), Hv1.
    repeat split; auto.
Qed.

End Aborts.

Lemma disk_save_failure_is_not_fatal_witness :
  fst (Callback.BeforeVoucherPersist Fixture.offline
         (with_disk (fun _ _ => Some "no space left on device")
            (Fixture.service Fixture.static_config))
         Fixture.session Fixture.station)
  = Returns (Value false)
  /\ Callback.printed
       (snd (Callback.BeforeVoucherPersist Fixture.offline
               (with_disk (fun _ _ => Some "no space left on device")
                  (Fixture.service Fixture.static_config))
               Fixture.session Fixture.station))
     = ["Failed to save voucher to disk: no space left on device"].
Proof.
  destruct (disk_save_failure_is_not_fatal Fixture.offline
              (Fixture.service Fixture.static_config)
              (fun _ _ => Some "no space left on device")
              Fixture.session Fixture.station "SN-0001" "widget" "deadbeef" false
              "no space left on device"
              ltac:(discriminate) eq_refl eq_refl eq_refl)
    as (Hflag & _ & _ & Hprinted & _).
  split; [exact Hflag | exact Hprinted].
Defined.

(** The run on the fixture, whose disk service fails, against the run with
    a disk service that succeeds: the warning is the only trace of the
    failure. *)
Example disk_save_failure_is_printed :
  let v := Fixture.service Fixture.dynamic_config in
  let good :=
    Callback.BeforeVoucherPersist Fixture.offline (with_disk (fun _ _ => None) v)
      Fixture.session Fixture.station in
  Callback.BeforeVoucherPersist Fixture.offline v Fixture.session Fixture.station
  = (fst good,
     Callback.warn "Failed to save voucher to disk: permission denied" (snd good))
  /\ fst good = Returns (Value true).
Proof. split; vm_compute; reflexivity. Qed.

(** Runs that abort before and after the voucher is replaced: a signing
    failure leaves the voucher of the fixture as it was, an upload failure
    leaves the signed one. *)
Example abort_on_signing_failure :
  let v := Fixture.service Fixture.dynamic_config in
  let failing :=
    {| Callback.config := Callback.config v;
       Callback.ownerKeyService := Callback.ownerKeyService v;
       Callback.voucherSigningService := fun _ _ _ _ _ _ => Failure "HSM unreachable";
       Callback.voucherUploadService := Callback.voucherUploadService v;
       Callback.voucherDiskService := Callback.voucherDiskService v;
       Callback.oveExtraDataService := Callback.oveExtraDataService v;
       Callback.fdo_ExtendVoucher := Callback.fdo_ExtendVoucher v;
     Callback.ownerKey_asserted := Callback.ownerKey_asserted v |} in
  fst (Callback.BeforeVoucherPersist Fixture.offline failing Fixture.session Fixture.station)
    = Returns (Failure "voucher signing failed: HSM unreachable")
  /\ GoStrings.HasPrefix "voucher signing failed: HSM unreachable" "voucher upload failed: "
     = false
  /\ Callback.voucher
       (snd (Callback.BeforeVoucherPersist Fixture.offline failing Fixture.session
               Fixture.station))
     = Fixture.ov0.
Proof. repeat split; vm_compute; reflexivity. Qed.

Example abort_on_upload_failure :
  let v := Fixture.service Fixture.dynamic_config in
  let failing :=
    {| Callback.config := Callback.config v;
       Callback.ownerKeyService := Callback.ownerKeyService v;
       Callback.voucherSigningService := Callback.voucherSigningService v;
       Callback.voucherUploadService := fun _ _ _ _ => Some "HTTP 503";
       Callback.voucherDiskService := Callback.voucherDiskService v;
       Callback.oveExtraDataService := Callback.oveExtraDataService v;
       Callback.fdo_ExtendVoucher := Callback.fdo_ExtendVoucher v;
     Callback.ownerKey_asserted := Callback.ownerKey_asserted v |} in
  fst (Callback.BeforeVoucherPersist Fixture.offline failing Fixture.session Fixture.station)
    = Returns (Failure "voucher upload failed: HTTP 503")
  /\ Callback.voucher
       (snd (Callback.BeforeVoucherPersist Fixture.offline failing Fixture.session
               Fixture.station))
     = Fixture.append_entry [1] Fixture.ov0.
Proof. split; vm_compute; reflexivity. Qed.

(** * Further properties *)

(** ** Outcomes of [ResolveDIDKey] *)

Section Outcomes.

Import GoStrings.

Variable env : Env.

Lemma refreshFromNetwork_web (r : DIDResolver) (uri : string) (w : World) :
  HasPrefix uri "did:web:" = true ->
  Resolver.refreshFromNetwork env r uri w
  = Resolver.fetchDIDWeb env r uri (time_Now env (clock w)) (tick w).
Proof. intros Hp. unfold Resolver.refreshFromNetwork. rewrite Hp. reflexivity. Qed.

(** [fetchDIDWeb] panics in one place only: in [extractPublicKey], on a
    parsed document whose first verification method is nil.  Nothing has
    been written by then. *)
Lemma fetchDIDWeb_panic
    (r : DIDResolver) (uri : string) (now : GoTime.Time) (w w' : World) (msg : string) :
  Resolver.fetchDIDWeb env r uri now w = (Panics msg, w') ->
  w' = w
  /\ exists body doc rest,
       did_ParseDocument env body = Value doc /\ VerificationMethods doc = None :: rest.
Proof.
  unfold Resolver.fetchDIDWeb. intros H.
  repeat case_match; simplify_eq;
    match goal with
    | E : Resolver.extractPublicKey env _ _ = _ |- _ =>
        unfold Resolver.extractPublicKey in E; repeat case_match; simplify_eq
    end;
    (split; [reflexivity | eauto]).
Qed.

Lemma resolveDIDWebCached_panic (r : DIDResolver) (uri : string) (w : World) (msg : string) :
  HasPrefix uri "did:web:" = true ->
  fst (Resolver.resolveDIDWebCached env r uri w) = Panics msg ->
  exists body doc rest,
    did_ParseDocument env body = Value doc /\ VerificationMethods doc = None :: rest.
Proof.
  intros Hp. unfold Resolver.resolveDIDWebCached.
  destruct (Resolver.getFromCache r uri (tick w)) as [[cached|err] w1].
  - destruct (Resolver.shouldRefresh _ _ _).
    + rewrite (refreshFromNetwork_web _ _ _ Hp).
      destruct (Resolver.fetchDIDWeb _ _ _ _ _) as [[[kv|e]|m] w3] eqn:Hf; cbn.
      * discriminate.
      * destruct (Resolver.deserializePublicKey env _); discriminate.
      * intros _. apply (fetchDIDWeb_panic _ _ _ _ _ _ Hf).
    + destruct (Resolver.deserializePublicKey env _); discriminate.
  - rewrite (refreshFromNetwork_web _ _ _ Hp).
    destruct (Resolver.fetchDIDWeb _ _ _ _ _) as [[res|m] w3] eqn:Hf; cbn; [discriminate|].
    intros _. apply (fetchDIDWeb_panic _ _ _ _ _ _ Hf).
Qed.

Lemma unsupportedMethod_panics_iff (uri : string) :
  (exists msg, @Resolver.unsupportedMethod (CryptoPublicKey * string) uri = Panics msg)
  <-> contains uri Resolver.colon = false.
Proof.
  unfold Resolver.unsupportedMethod. split.
  - intros [msg H]. destruct (contains uri Resolver.colon) eqn:Hc; [|reflexivity].
    destruct (Split_with_separator _ _ Hc) as (a & b & rest & E).
    rewrite E in H. discriminate.
  - intros Hc. rewrite (Split_without_separator _ _ Hc). eauto.
Qed.

(** X1. [ResolveDIDKey] panics in two ways only, both on an enabled
    resolver: on a URI of neither method that contains no colon (the index
    into [strings.Split]), and on a [did:web:] URI for which a document has
    been parsed whose first verification method is nil.  Both happen: a URI
    of the first kind always panics, and so does a [did:web:] URI that is not
    in the table when the document fetched for it starts with a nil
    method. *)
Theorem ResolveDIDKey_panics_in_two_ways (r : DIDResolver) (uri : string) (w : World) :
  ((exists msg, fst (Resolver.ResolveDIDKey env r uri w) = Panics msg) ->
     Enabled (config r) = true
     /\ HasPrefix uri "did:key:" = false
     /\ (HasPrefix uri "did:web:" = false /\ contains uri Resolver.colon = false
         \/ HasPrefix uri "did:web:" = true
            /\ exists body doc rest,
                 did_ParseDocument env body = Value doc
                 /\ VerificationMethods doc = None :: rest))
  /\ (Enabled (config r) = true ->
      HasPrefix uri "did:key:" = false ->
      HasPrefix uri "did:web:" = false ->
      contains uri Resolver.colon = false ->
      exists msg, fst (Resolver.ResolveDIDKey env r uri w) = Panics msg)
  /\ (forall resp body doc rest,
      Enabled (config r) = true ->
      HasPrefix uri "did:web:" = true ->
      did_cache w !! uri = None ->
      (forall url, http_NewRequestWithContext env "GET" url = Value url) ->
      (forall req, http_Do env req = Value resp) ->
      StatusCode resp = 200 ->
      Body resp = Value body ->
      did_ParseDocument env body = Value doc ->
      VerificationMethods doc = None :: rest ->
      fst (Resolver.ResolveDIDKey env r uri w)
      = Panics "runtime error: invalid memory address or nil pointer dereference").
Proof.
  split; [|split].
  - unfold Resolver.ResolveDIDKey. intros [msg H].
    destruct (Enabled (config r)); cbn [negb] in H; [|discriminate].
    split; [reflexivity|].
    destruct (HasPrefix uri "did:key:") eqn:Hk; [discriminate|].
    split; [reflexivity|].
    destruct (HasPrefix uri "did:web:") eqn:Hw.
    + right. split; [reflexivity|]. exact (resolveDIDWebCached_panic r uri w msg Hw H).
    + left. split; [reflexivity|]. apply unsupportedMethod_panics_iff. eauto.
  - intros He Hk Hw Hc. unfold Resolver.ResolveDIDKey. rewrite He, Hk, Hw. cbn [negb fst].
    apply unsupportedMethod_panics_iff. exact Hc.
  - intros resp body doc rest He Hp Hrow Hreq Hdo Hstatus Hbody Hparse Hvm.
    unfold Resolver.ResolveDIDKey. rewrite He, (web_is_not_key _ Hp), Hp. cbn [negb].
    unfold Resolver.resolveDIDWebCached.
    destruct (Resolver.getFromCache r uri (tick w)) as [[cached|err] w1] eqn:Hget.
    { unfold Resolver.getFromCache, Cache.query in Hget.
      destruct (sessionState r); cbn in Hget; try rewrite Hrow in Hget; discriminate. }
    rewrite (refreshFromNetwork_web _ _ _ Hp). unfold Resolver.fetchDIDWeb.
    destruct (Split (TrimPrefix uri "did:web:") Resolver.colon) as [|domain path] eqn:Hsplit;
      [destruct (Split_nonempty _ _ Hsplit)|].
    rewrite Hreq, Hdo, Hstatus, Hbody, Hparse. cbn [Z.eqb Pos.eqb negb].
    unfold Resolver.extractPublicKey. rewrite Hvm. reflexivity.
Qed.

(** X2. A key is returned only for a [did:web:] URI on an enabled resolver:
    a [did:key:] URI, a URI of any other method and every URI on a disabled
    resolver end in an error or a panic. *)
Theorem ResolveDIDKey_resolves_only_web
    (r : DIDResolver) (uri : string) (w : World) (key : CryptoPublicKey) (url : string) :
  fst (Resolver.ResolveDIDKey env r uri w) = Returns (Value (key, url)) ->
  Enabled (config r) = true /\ HasPrefix uri "did:web:" = true.
Proof.
  unfold Resolver.ResolveDIDKey, Resolver.unsupportedMethod.
  destruct (Enabled (config r)); cbn [negb]; [|discriminate].
  destruct (HasPrefix uri "did:key:"); [discriminate|].
  destruct (HasPrefix uri "did:web:"); [auto|].
  cbn. repeat case_match; discriminate.
Qed.

End Outcomes.

(** A station that is served a document with a null verification method:
    the resolution of a URI not yet in the table panics, after the lookup
    and before anything is written. *)
Example ResolveDIDKey_on_nil_method :
  Resolver.ResolveDIDKey Bench.headless Fixture.resolver Fixture.owner_uri Fixture.cold
  = (Panics "runtime error: invalid memory address or nil pointer dereference",
     {| did_cache := ∅; oplog := [Cache.OpQuery Fixture.owner_uri]; clock := 2;
        draws := 0 |}).
Proof. vm_compute. reflexivity. Qed.

(** ** What a resolution does to the table *)

Section TableEffects.

Import GoStrings.
Import Cache.

Variable env : Env.

(** A successful [fetchDIDWeb] ends in [updateCache] on the row made of the
    marshalled key, the URL and the time of the fetch. *)
Lemma fetchDIDWeb_success_stored
    (r : DIDResolver) (uri : string) (now : GoTime.Time) (w w' : World)
    (key : CryptoPublicKey) (url : string) :
  Resolver.fetchDIDWeb env r uri now w = (Returns (Value (key, url)), w') ->
  exists w1 der,
    x509_MarshalPKIXPublicKey env key = Value der
    /\ w' = snd (Resolver.updateCache r (fetched uri der url now) w1)
    /\ did_cache w1 = did_cache w /\ oplog w1 = oplog w /\ clock w1 = clock w.
Proof.
  unfold Resolver.fetchDIDWeb. intros H.
  repeat case_match; simplify_eq.
  all: match goal with
  | E : Resolver.extractPublicKey env ?doc ?w0 = (_, ?w1) |- _ =>
      exists w1; eexists; split; [eassumption|]; split; [reflexivity|];
      destruct (extractPublicKey_world env doc w0) as [Hw|Hw];
      rewrite E in Hw; cbn in Hw; subst w1; auto
  end.
Qed.

Lemma new_row_of_entry (entry : DIDCacheEntry) :
  new_row (<["did_uri" := CText (DIDURI entry)]>
          (<["public_key" := CBlob (PublicKey entry)]>
          (<["did_url" := CText (DIDURL entry)]>
          (<["timestamp" := CTime (Timestamp entry)]>
          (<["last_refresh_attempt" := CTime (LastRefreshAttempt entry)]>
          (<["last_refresh_error" := CText (LastRefreshError entry)]>
          (<["last_used" := CTime (LastUsed entry)]> ∅)))))))
  = Some entry.
Proof. destruct entry. reflexivity. Qed.

(** [updateCache] adds the row when its key is free and changes nothing
    otherwise. *)
Lemma updateCache_table (r : DIDResolver) (entry : DIDCacheEntry) (w : World) :
  did_cache (snd (Resolver.updateCache r entry w))
  = match sessionState r, did_cache w !! DIDURI entry with
    | DBSession, None => <[DIDURI entry := entry]> (did_cache w)
    | _, _ => did_cache w
    end.
Proof.
  unfold Resolver.updateCache, Cache.insertOrIgnore.
  destruct (sessionState r); try reflexivity.
  rewrite new_row_of_entry. destruct (did_cache w !! DIDURI entry); reflexivity.
Qed.

Lemma updateLastUsed_table (r : DIDResolver) (uri : string) (t : GoTime.Time) (w : World) :
  did_cache (snd (Resolver.updateLastUsed r uri t w))
  = match sessionState r, did_cache w !! uri with
    | DBSession, Some row => <[uri := touched t row]> (did_cache w)
    | _, _ => did_cache w
    end.
Proof.
  unfold Resolver.updateLastUsed, Cache.insert.
  destruct (sessionState r); try reflexivity.
  destruct (did_cache w !! uri); reflexivity.
Qed.

Lemma updateCacheError_table
    (r : DIDResolver) (uri : string) (t : GoTime.Time) (msg : string) (w : World) :
  did_cache (snd (Resolver.updateCacheError r uri t msg w))
  = match sessionState r, did_cache w !! uri with
    | DBSession, Some row => <[uri := failed t msg row]> (did_cache w)
    | _, _ => did_cache w
    end.
Proof.
  unfold Resolver.updateCacheError, Cache.insert.
  destruct (sessionState r); try reflexivity.
  destruct (did_cache w !! uri); reflexivity.
Qed.

Lemma getFromCache_table (r : DIDResolver) (uri : string) (w : World) :
  did_cache (snd (Resolver.getFromCache r uri w)) = did_cache w.
Proof. unfold Resolver.getFromCache. destruct (sessionState r); reflexivity. Qed.

Lemma confined_refl (uri : string) (t : gmap string DIDCacheEntry) : confined uri t t.
Proof. split; auto. Qed.

Lemma confined_trans (uri : string) (t1 t2 t3 : gmap string DIDCacheEntry) :
  confined uri t1 t2 -> confined uri t2 t3 -> confined uri t1 t3.
Proof.
  intros [H1 K1] [H2 K2]. split; [|auto].
  intros other Hne. rewrite (H2 _ Hne). auto.
Qed.

Lemma confined_insert (uri : string) (row : DIDCacheEntry) (t : gmap string DIDCacheEntry) :
  (keyed t -> DIDURI row = uri) -> confined uri t (<[uri := row]> t).
Proof.
  intros Hrow. split.
  - intros other Hne. apply lookup_insert_ne. congruence.
  - intros Hk k x. rewrite lookup_insert. case_decide; [|apply Hk].
    intros [= <-]. subst. auto.
Qed.

End TableEffects.

Section Frame.

Import GoStrings.
Import Cache.

Variable env : Env.
Variable r : DIDResolver.

Lemma confined_updateLastUsed (uri : string) (t : GoTime.Time) (w : World) :
  confined uri (did_cache w) (did_cache (snd (Resolver.updateLastUsed r uri t w))).
Proof.
  rewrite updateLastUsed_table.
  destruct (sessionState r); try apply confined_refl.
  destruct (did_cache w !! uri) as [row|] eqn:E; [|apply confined_refl].
  apply confined_insert. intros Hk. apply (Hk _ _ E).
Qed.

Lemma confined_updateCacheError (uri : string) (t : GoTime.Time) (msg : string) (w : World) :
  confined uri (did_cache w) (did_cache (snd (Resolver.updateCacheError r uri t msg w))).
Proof.
  rewrite updateCacheError_table.
  destruct (sessionState r); try apply confined_refl.
  destruct (did_cache w !! uri) as [row|] eqn:E; [|apply confined_refl].
  apply confined_insert. intros Hk. apply (Hk _ _ E).
Qed.

Lemma confined_updateCache (entry : DIDCacheEntry) (w : World) :
  confined (DIDURI entry) (did_cache w) (did_cache (snd (Resolver.updateCache r entry w))).
Proof.
  rewrite updateCache_table.
  destruct (sessionState r); try apply confined_refl.
  destruct (did_cache w !! DIDURI entry); [apply confined_refl|].
  apply confined_insert. reflexivity.
Qed.

Lemma confined_fetchDIDWeb (uri : string) (now : GoTime.Time) (w : World) :
  confined uri (did_cache w) (did_cache (snd (Resolver.fetchDIDWeb env r uri now w))).
Proof.
  destruct (Resolver.fetchDIDWeb env r uri now w) as [[[[key url]|msg]|panic] w'] eqn:Hf;
    cbn.
  - destruct (fetchDIDWeb_success_stored env _ _ _ _ _ _ _ Hf) as (w1 & der & _ & -> & <- & _).
    apply (confined_updateCache (fetched uri der url now)).
  - destruct (fetchDIDWeb_failure_recorded env _ _ _ _ _ _ Hf) as (w0 & -> & <- & _).
    apply confined_updateCacheError.
  - destruct (fetchDIDWeb_panic env _ _ _ _ _ _ Hf) as [-> _]. apply confined_refl.
Qed.

Lemma confined_refreshFromNetwork (uri : string) (w : World) :
  confined uri (did_cache w) (did_cache (snd (Resolver.refreshFromNetwork env r uri w))).
Proof.
  unfold Resolver.refreshFromNetwork.
  destruct (HasPrefix uri "did:web:").
  - exact (confined_fetchDIDWeb uri (time_Now env (clock w)) (tick w)).
  - destruct (HasPrefix uri "did:key:"); [|apply confined_refl].
    cbn. apply (confined_updateCacheError uri _ _ (tick w)).
Qed.

Lemma confined_resolveDIDWebCached (uri : string) (w : World) :
  confined uri (did_cache w) (did_cache (snd (Resolver.resolveDIDWebCached env r uri w))).
Proof.
  unfold Resolver.resolveDIDWebCached.
  pose proof (getFromCache_table r uri (tick w)) as Hg.
  destruct (Resolver.getFromCache r uri (tick w)) as [[cached|err] w1]; cbn in Hg.
  - pose proof (confined_updateLastUsed uri (time_Now env (clock w)) w1) as Hu.
    rewrite Hg in Hu. cbn in Hu.
    set (w2 := snd (Resolver.updateLastUsed r uri (time_Now env (clock w)) w1)) in *.
    pose proof (confined_refreshFromNetwork uri w2) as Hr.
    destruct (Resolver.shouldRefresh _ _ _).
    + destruct (Resolver.refreshFromNetwork env r uri w2) as [[[kv|e]|m] w3]; cbn in *;
        try destruct (Resolver.deserializePublicKey env _); cbn;
        apply (confined_trans _ _ _ _ Hu Hr).
    + destruct (Resolver.deserializePublicKey env _); exact Hu.
  - pose proof (confined_refreshFromNetwork uri w1) as Hr. rewrite Hg in Hr. exact Hr.
Qed.

(** X3. Resolving one URI leaves the rows of every other URI as they were,
    and a table in which every row is filed under its own [did_uri] stays
    such a table: whatever the outcome, one row per URI. *)
Theorem ResolveDIDKey_confined_to_row (uri : string) (w : World) :
  (forall other, other <> uri ->
     did_cache (snd (Resolver.ResolveDIDKey env r uri w)) !! other = did_cache w !! other)
  /\ (keyed (did_cache w) -> keyed (did_cache (snd (Resolver.ResolveDIDKey env r uri w)))).
Proof.
  change (confined uri (did_cache w) (did_cache (snd (Resolver.ResolveDIDKey env r uri w)))).
  unfold Resolver.ResolveDIDKey, Resolver.resolveDIDKeyDirect.
  destruct (negb _); [apply confined_refl|].
  destruct (HasPrefix uri "did:key:"); [apply confined_refl|].
  destruct (HasPrefix uri "did:web:"); [apply confined_resolveDIDWebCached|].
  apply confined_refl.
Qed.

(** X4. A resolver without database access (a nil session state, or one
    without the database methods) never changes the table and never adds to
    the operation log, whatever the URI and the outcome of the fetch. *)
Theorem ResolveDIDKey_without_database (uri : string) (w : World) :
  sessionState r <> DBSession ->
  did_cache (snd (Resolver.ResolveDIDKey env r uri w)) = did_cache w
  /\ oplog (snd (Resolver.ResolveDIDKey env r uri w)) = oplog w.
Proof.
  intros Hs.
  assert (forall u t m w0, snd (Resolver.updateCacheError r u t m w0) = w0) as Herr.
  { intros. unfold Resolver.updateCacheError.
    destruct (sessionState r); [reflexivity | reflexivity | congruence]. }
  assert (forall e w0, snd (Resolver.updateCache r e w0) = w0) as Hupd.
  { intros. unfold Resolver.updateCache.
    destruct (sessionState r); [reflexivity | reflexivity | congruence]. }
  assert (forall u w0, exists e, Resolver.getFromCache r u w0 = (Failure e, w0)) as Hget.
  { intros. unfold Resolver.getFromCache. destruct (sessionState r); eauto.
    exfalso. congruence. }
  assert (forall u w0,
            did_cache (snd (Resolver.refreshFromNetwork env r u w0)) = did_cache w0
            /\ oplog (snd (Resolver.refreshFromNetwork env r u w0)) = oplog w0) as Href.
  { intros u w0. unfold Resolver.refreshFromNetwork.
    destruct (HasPrefix u "did:web:").
    - destruct (Resolver.fetchDIDWeb env r u (time_Now env (clock w0)) (tick w0))
        as [[[[key url]|msg]|panic] w'] eqn:Hf; cbn.
      + destruct (fetchDIDWeb_success_stored env _ _ _ _ _ _ _ Hf)
          as (w1 & der & _ & -> & Ht & Hl & _).
        rewrite Hupd. auto.
      + destruct (fetchDIDWeb_failure_recorded env _ _ _ _ _ _ Hf) as (w1 & -> & Ht & Hl & _).
        rewrite Herr. auto.
      + destruct (fetchDIDWeb_panic env _ _ _ _ _ _ Hf) as [-> _]. auto.
    - destruct (HasPrefix u "did:key:"); cbn; [rewrite Herr|]; auto. }
  unfold Resolver.ResolveDIDKey, Resolver.resolveDIDKeyDirect, Resolver.resolveDIDWebCached.
  destruct (negb _); [auto|].
  destruct (HasPrefix uri "did:key:"); [auto|].
  destruct (HasPrefix uri "did:web:"); [|auto].
  destruct (Hget uri (tick w)) as [e ->]. apply (Href uri (tick w)).
Qed.

End Frame.

Lemma ResolveDIDKey_without_database_witness :
  did_cache (snd (Resolver.ResolveDIDKey Bench.online Bench.no_database Fixture.owner_uri
                    Fixture.warm)) = did_cache Fixture.warm
  /\ oplog (snd (Resolver.ResolveDIDKey Bench.online Bench.no_database Fixture.owner_uri
                   Fixture.warm)) = oplog Fixture.warm.
Proof.
  apply (ResolveDIDKey_without_database Bench.online Bench.no_database Fixture.owner_uri
           Fixture.warm).
  discriminate.
Defined.

Lemma ResolveDIDKey_resolves_only_web_witness :
  Enabled (config Fixture.resolver) = true
  /\ GoStrings.HasPrefix Fixture.owner_uri "did:web:" = true.
Proof.
  apply (ResolveDIDKey_resolves_only_web Bench.online Fixture.resolver Fixture.owner_uri
           Fixture.cold (ECDSAPublicKey P256 1000 2000) "").
  vm_compute. reflexivity.
Defined.

(** ** Hits, misses and the round trip through the table *)

Section HitsAndMisses.

Import GoStrings.
Import Cache.

Variable env : Env.
Variable r : DIDResolver.

Lemma updateCache_clock (entry : DIDCacheEntry) (w : World) :
  clock (snd (Resolver.updateCache r entry w)) = clock w.
Proof.
  unfold Resolver.updateCache, Cache.insertOrIgnore.
  destruct (sessionState r); try reflexivity.
  rewrite new_row_of_entry. destruct (did_cache w !! DIDURI entry); reflexivity.
Qed.

(** A hit on a row that is not to be refreshed, with the world it leaves. *)
Lemma fresh_hit
    (uri : string) (w : World) (cached : DIDCacheEntry) (key : CryptoPublicKey) :
  Enabled (config r) = true ->
  HasPrefix uri "did:web:" = true ->
  sessionState r = DBSession ->
  did_cache w !! uri = Some cached ->
  Resolver.shouldRefresh (config r) cached (time_Now env (clock w)) = false ->
  Resolver.deserializePublicKey env (PublicKey cached) = Value key ->
  Resolver.ResolveDIDKey env r uri w
  = (Returns (Value (key, DIDURL cached)),
     {| did_cache := <[uri := touched (time_Now env (clock w)) cached]> (did_cache w);
        oplog := oplog w ++ [OpQuery uri;
                             OpInsert (<["last_used" := CTime (time_Now env (clock w))]> ∅) uri];
        clock := S (clock w);
        draws := draws w |}).
Proof.
  intros He Hp Hs Hrow Hpol Hkey.
  unfold Resolver.ResolveDIDKey. rewrite He, (web_is_not_key _ Hp), Hp. cbn [negb].
  unfold Resolver.resolveDIDWebCached, Resolver.getFromCache, Resolver.updateLastUsed,
    Cache.query, Cache.insert.
  rewrite Hs. cbn. rewrite Hrow. cbn. rewrite Hpol, Hkey. cbn.
  rewrite set_columns_last_used. unfold set_table, log_op, tick. cbn.
  rewrite <- app_assoc. reflexivity.
Qed.

(** X5. A hit on a row the policy does not want refreshed is answered from
    the table alone: the key decoded from the row and the row's URL are
    returned, the clock is read once, nothing is drawn from the random
    source, and the table is read once and written once, to set [last_used]
    of that row to the time of the call. *)
Theorem fresh_entry_served_from_cache
    (uri : string) (w : World) (cached : DIDCacheEntry) (key : CryptoPublicKey) :
  Enabled (config r) = true ->
  HasPrefix uri "did:web:" = true ->
  sessionState r = DBSession ->
  did_cache w !! uri = Some cached ->
  Resolver.shouldRefresh (config r) cached (time_Now env (clock w)) = false ->
  Resolver.deserializePublicKey env (PublicKey cached) = Value key ->
  Resolver.ResolveDIDKey env r uri w
  = (Returns (Value (key, DIDURL cached)),
     {| did_cache := <[uri := touched (time_Now env (clock w)) cached]> (did_cache w);
        oplog := oplog w ++ [OpQuery uri;
                             OpInsert (<["last_used" := CTime (time_Now env (clock w))]> ∅) uri];
        clock := S (clock w);
        draws := draws w |}).
Proof.
  intros He Hp Hs Hrow Hpol Hkey.
  unfold Resolver.ResolveDIDKey. rewrite He, (web_is_not_key _ Hp), Hp. cbn [negb].
  unfold Resolver.resolveDIDWebCached, Resolver.getFromCache, Resolver.updateLastUsed,
    Cache.query, Cache.insert.
  rewrite Hs. cbn. rewrite Hrow. cbn. rewrite Hpol, Hkey. cbn.
  rewrite set_columns_last_used. unfold set_table, log_op, tick. cbn.
  rewrite <- app_assoc. reflexivity.
Qed.

(** A miss followed by a successful fetch, with the row it files. *)
Lemma miss_then_fetch
    (uri : string) (w : World) (key : CryptoPublicKey) (url : string) :
  Enabled (config r) = true ->
  HasPrefix uri "did:web:" = true ->
  sessionState r = DBSession ->
  did_cache w !! uri = None ->
  fst (Resolver.refreshFromNetwork env r uri (after_miss r uri w)) = Returns (Value (key, url)) ->
  fst (Resolver.ResolveDIDKey env r uri w) = Returns (Value (key, url))
  /\ clock (snd (Resolver.ResolveDIDKey env r uri w)) = S (S (clock w))
  /\ exists der,
       x509_MarshalPKIXPublicKey env key = Value der
       /\ did_cache (snd (Resolver.ResolveDIDKey env r uri w))
          = <[uri := fetched uri der url (time_Now env (S (clock w)))]> (did_cache w).
Proof.
  intros He Hp Hs Hrow Hfetch.
  unfold Resolver.ResolveDIDKey. rewrite He, (web_is_not_key _ Hp), Hp. cbn [negb].
  unfold Resolver.resolveDIDWebCached. unfold after_miss in Hfetch.
  assert (Resolver.getFromCache r uri (tick w)
          = (Failure "not found", log_op (OpQuery uri) (tick w))) as Hget.
  { unfold Resolver.getFromCache, Cache.query. rewrite Hs. cbn. rewrite Hrow. reflexivity. }
  rewrite Hget in *. cbn [snd] in Hfetch.
  rewrite (refreshFromNetwork_web env _ _ _ Hp) in *. cbn [fst snd] in *.
  destruct (Resolver.fetchDIDWeb env r uri _ _) as [res w'] eqn:Hf.
  cbn in Hfetch. subst res. cbn [fst snd].
  split; [reflexivity|].
  destruct (fetchDIDWeb_success_stored env _ _ _ _ _ _ _ Hf)
    as (w1 & der & Hder & -> & Ht & _ & Hc).
  rewrite updateCache_clock, Hc. split; [reflexivity|].
  exists der. split; [exact Hder|].
  rewrite updateCache_table, Hs, Ht. cbn. rewrite Hrow. reflexivity.
Qed.

(** X6. A miss followed by a successful fetch returns the fetched key and
    URL and files one new row under the URI: the marshalled key, the URL,
    no error, and the time of the fetch as [resolved_at],
    [last_refresh_attempt] and [last_used] alike. *)
Theorem miss_stores_fetched_entry
    (uri : string) (w : World) (key : CryptoPublicKey) (url : string) :
  Enabled (config r) = true ->
  HasPrefix uri "did:web:" = true ->
  sessionState r = DBSession ->
  did_cache w !! uri = None ->
  fst (Resolver.refreshFromNetwork env r uri (after_miss r uri w)) = Returns (Value (key, url)) ->
  fst (Resolver.ResolveDIDKey env r uri w) = Returns (Value (key, url))
  /\ clock (snd (Resolver.ResolveDIDKey env r uri w)) = S (S (clock w))
  /\ exists der,
       x509_MarshalPKIXPublicKey env key = Value der
       /\ did_cache (snd (Resolver.ResolveDIDKey env r uri w))
          = <[uri := fetched uri der url (time_Now env (S (clock w)))]> (did_cache w).
Proof.
  intros He Hp Hs Hrow Hfetch.
  unfold Resolver.ResolveDIDKey. rewrite He, (web_is_not_key _ Hp), Hp. cbn [negb].
  unfold Resolver.resolveDIDWebCached. unfold after_miss in Hfetch.
  assert (Resolver.getFromCache r uri (tick w)
          = (Failure "not found", log_op (OpQuery uri) (tick w))) as Hget.
  { unfold Resolver.getFromCache, Cache.query. rewrite Hs. cbn. rewrite Hrow. reflexivity. }
  rewrite Hget in *. cbn [snd] in Hfetch.
  rewrite (refreshFromNetwork_web env _ _ _ Hp) in *. cbn [fst snd] in *.
  destruct (Resolver.fetchDIDWeb env r uri _ _) as [res w'] eqn:Hf.
  cbn in Hfetch. subst res. cbn [fst snd].
  split; [reflexivity|].
  destruct (fetchDIDWeb_success_stored env _ _ _ _ _ _ _ Hf)
    as (w1 & der & Hder & -> & Ht & _ & Hc).
  rewrite updateCache_clock, Hc. split; [reflexivity|].
  exists der. split; [exact Hder|].
  rewrite updateCache_table, Hs, Ht. cbn. rewrite Hrow. reflexivity.
Qed.

(** X7. Fetch, then lookup: when the marshalled key parses back to the key,
    the call after a miss-and-fetch that falls within [RefreshInterval] and
    [MaxAge] of the fetch returns the same key and URL, from the table. *)
Theorem fetched_entry_is_served_next
    (uri : string) (w : World) (key : CryptoPublicKey) (url : string) :
  Enabled (config r) = true ->
  HasPrefix uri "did:web:" = true ->
  sessionState r = DBSession ->
  did_cache w !! uri = None ->
  fst (Resolver.refreshFromNetwork env r uri (after_miss r uri w)) = Returns (Value (key, url)) ->
  (forall der, x509_MarshalPKIXPublicKey env key = Value der ->
               x509_ParsePKIXPublicKey env der = Value key) ->
  GoTime.Sub (time_Now env (S (S (clock w)))) (time_Now env (S (clock w)))
    <= MaxAge (config r) ->
  GoTime.Sub (time_Now env (S (S (clock w)))) (time_Now env (S (clock w)))
    < RefreshInterval (config r) ->
  fst (Resolver.ResolveDIDKey env r uri (snd (Resolver.ResolveDIDKey env r uri w)))
  = Returns (Value (key, url))
  /\ clock (snd (Resolver.ResolveDIDKey env r uri (snd (Resolver.ResolveDIDKey env r uri w))))
     = S (S (S (clock w))).
Proof.
  intros He Hp Hs Hrow Hfetch Hround Hage Hfresh.
  destruct (miss_then_fetch uri w key url He Hp Hs Hrow Hfetch)
    as (_ & Hclock & der & Hder & Htable).
  set (w' := snd (Resolver.ResolveDIDKey env r uri w)) in *.
  rewrite (fresh_hit uri w'
             (fetched uri der url (time_Now env (S (clock w)))) key He Hp Hs).
  - cbn. rewrite Hclock. auto.
  - rewrite Htable. apply lookup_insert_eq.
  - rewrite Hclock. unfold Resolver.shouldRefresh. cbn.
    destruct (Z.ltb_spec (MaxAge (config r))
                (GoTime.Sub (time_Now env (S (S (clock w)))) (time_Now env (S (clock w)))));
      [lia|].
    destruct (Z.ltb_spec
                (GoTime.Sub (time_Now env (S (S (clock w)))) (time_Now env (S (clock w))))
                (RefreshInterval (config r))); [reflexivity|lia].
  - apply Hround. exact Hder.
Qed.

End HitsAndMisses.

Lemma fresh_entry_served_from_cache_witness :
  fst (Resolver.ResolveDIDKey Fixture.offline Fixture.resolver Fixture.owner_uri Bench.busy)
  = Returns (Value (ECDSAPublicKey P256 11 22, "https://owner.example.com/api/vouchers")).
Proof.
  rewrite (fresh_entry_served_from_cache Fixture.offline Fixture.resolver Fixture.owner_uri
             Bench.busy Bench.fresh_row (ECDSAPublicKey P256 11 22)
             eq_refl eq_refl eq_refl eq_refl eq_refl eq_refl).
  reflexivity.
Defined.

Lemma miss_stores_fetched_entry_witness :
  fst (Resolver.ResolveDIDKey Bench.online Fixture.resolver Fixture.owner_uri Fixture.cold)
  = Returns (Value (ECDSAPublicKey P256 1000 2000, "")).
Proof.
  apply (miss_stores_fetched_entry Bench.online Fixture.resolver Fixture.owner_uri
           Fixture.cold (ECDSAPublicKey P256 1000 2000) ""
           eq_refl eq_refl eq_refl eq_refl eq_refl).
Defined.

Lemma fetched_entry_is_served_next_witness :
  fst (Resolver.ResolveDIDKey Bench.online Bench.patient Fixture.owner_uri
         (snd (Resolver.ResolveDIDKey Bench.online Bench.patient Fixture.owner_uri
                 Fixture.cold)))
  = Returns (Value (ECDSAPublicKey P256 1000 2000, "")).
Proof.
  apply (fetched_entry_is_served_next Bench.online Bench.patient Fixture.owner_uri
           Fixture.cold (ECDSAPublicKey P256 1000 2000) ""
           eq_refl eq_refl eq_refl eq_refl eq_refl).
  - intros der [= <-]. reflexivity.
  - vm_compute. discriminate.
  - vm_compute. reflexivity.
Defined.

(** ** The document location and the delivery URL *)

Section Location.

Import GoStrings.

Lemma prefix_of_append (p x : string) : String.prefix p (p +:+ x) = true.
Proof.
  induction p as [|a p IH].
  - destruct x; reflexivity.
  - change (String a p +:+ x) with (String a (p +:+ x)). cbn -[ascii_dec].
    destruct (ascii_dec a a); [exact IH | congruence].
Qed.

Lemma substring_from_start (x : string) : String.substring 0 (String.length x) x = x.
Proof. induction x as [|a x IH]; cbn; [reflexivity | rewrite IH; reflexivity]. Qed.

Lemma TrimPrefix_append (p x : string) : TrimPrefix (p +:+ x) p = x.
Proof.
  unfold TrimPrefix, HasPrefix. rewrite prefix_of_append.
  induction p as [|a p IH]; cbn.
  - rewrite Nat.sub_0_r. apply substring_from_start.
  - exact IH.
Qed.

Lemma Split_String (c : ascii) (rest : string) (sep : ascii) :
  Split (String c rest) sep
  = if Ascii.eqb c sep then EmptyString :: Split rest sep
    else match Split rest sep with
         | [] => [String c EmptyString]
         | piece :: pieces => String c piece :: pieces
         end.
Proof. reflexivity. Qed.

Lemma Split_at_first_separator (first rest : string) (sep : ascii) :
  contains first sep = false ->
  Split (first +:+ String sep rest) sep = first :: Split rest sep.
Proof.
  induction first as [|a first IH]; intros H.
  - change (Split (String sep rest) sep = "" :: Split rest sep).
    rewrite Split_String, Ascii.eqb_refl. reflexivity.
  - change (Split (String a (first +:+ String sep rest)) sep
            = String a first :: Split rest sep).
    change (contains (String a first) sep) with (Ascii.eqb a sep || contains first sep) in H.
    apply orb_false_iff in H as [Ha Hf].
    rewrite Split_String, Ha, (IH Hf). reflexivity.
Qed.

Lemma Join_Split (s : string) (sep : ascii) :
  Join (Split s sep) (String sep EmptyString) = s.
Proof.
  induction s as [|a s IH]; [reflexivity|].
  rewrite Split_String.
  destruct (Split s sep) as [|p ps] eqn:E; [destruct (Split_nonempty _ _ E)|].
  destruct (Ascii.eqb_spec a sep) as [->|Hne].
  - change (Join ("" :: p :: ps) (String sep ""))
      with (String sep (Join (p :: ps) (String sep ""))).
    rewrite IH. reflexivity.
  - destruct ps as [|q qs].
    + change (String a p = String a s). cbn in IH. rewrite IH. reflexivity.
    + change (Join (String a p :: q :: qs) (String sep ""))
        with (String a (Join (p :: q :: qs) (String sep ""))).
      rewrite IH. reflexivity.
Qed.

Variable env : Env.
Variable r : DIDResolver.

(** X8. The document of [did:web:<domain>] is requested, with GET, at
    [https://<domain>/.well-known/did.json], and the document of
    [did:web:<domain>:<path>] at [https://<domain>/.well-known/did.json/<path>],
    the colons of the path left as they are: when no request can be built
    for that URL the fetch fails with the builder's error. *)
Theorem fetchDIDWeb_location (domain : string) (now : GoTime.Time) (w : World) :
  contains domain Resolver.colon = false ->
  (forall err,
      http_NewRequestWithContext env "GET" ("https://" +:+ domain +:+ "/.well-known/did.json")
        = Failure err ->
      fst (Resolver.fetchDIDWeb env r ("did:web:" +:+ domain) now w)
        = Returns (Failure (wrap "failed to create request" err)))
  /\ (forall path err,
      http_NewRequestWithContext env "GET"
        ("https://" +:+ domain +:+ "/.well-known/did.json/" +:+ path) = Failure err ->
      fst (Resolver.fetchDIDWeb env r ("did:web:" +:+ domain +:+ ":" +:+ path) now w)
        = Returns (Failure (wrap "failed to create request" err))).
Proof.
  intros Hd. split.
  - intros err Hreq. unfold Resolver.fetchDIDWeb.
    rewrite (TrimPrefix_append "did:web:" domain), (Split_without_separator _ _ Hd).
    cbn -[append].
    change ("/.well-known/did.json" +:+ "") with "/.well-known/did.json".
    rewrite Hreq. reflexivity.
  - intros path err Hreq. unfold Resolver.fetchDIDWeb.
    rewrite (TrimPrefix_append "did:web:" (domain +:+ ":" +:+ path)).
    change (domain +:+ ":" +:+ path) with (domain +:+ String Resolver.colon path).
    rewrite (Split_at_first_separator _ _ _ Hd).
    pose proof (Join_Split path Resolver.colon) as HJ.
    destruct (Split path Resolver.colon) as [|p ps] eqn:E; [destruct (Split_nonempty _ _ E)|].
    unfold Resolver.colon in HJ. cbn -[append Join]. rewrite HJ.
    change ("https://" +:+ domain +:+ "/.well-known/did.json" +:+ "/" +:+ path)
      with ("https://" +:+ domain +:+ "/.well-known/did.json/" +:+ path).
    rewrite Hreq. reflexivity.
Qed.

(** The URL a successful fetch returns is the one [extractDIDURL] reads off
    the parsed document. *)
Lemma fetchDIDWeb_success_document
    (uri : string) (now : GoTime.Time) (w w' : World) (key : CryptoPublicKey) (url : string) :
  Resolver.fetchDIDWeb env r uri now w = (Returns (Value (key, url)), w') ->
  exists body doc,
    did_ParseDocument env body = Value doc /\ url = Resolver.extractDIDURL env doc.
Proof.
  unfold Resolver.fetchDIDWeb. intros H.
  repeat case_match; simplify_eq; eauto.
Qed.

(** X9. A fetched document yields a delivery URL only if its [id] is a
    [did:file:] URI: when the documents of the station carry any other [id]
    (their [did:web:] URI, say), every successful fetch returns the empty
    URL, whatever extension the document has. *)
Theorem fetchDIDWeb_no_delivery_url
    (uri : string) (now : GoTime.Time) (w w' : World) (key : CryptoPublicKey) (url : string) :
  Resolver.fetchDIDWeb env r uri now w = (Returns (Value (key, url)), w') ->
  (forall body doc, did_ParseDocument env body = Value doc ->
                    HasPrefix (ID doc) "did:file:" = false) ->
  url = "".
Proof.
  intros Hf Hid.
  destruct (fetchDIDWeb_success_document _ _ _ _ _ _ Hf) as (body & doc & Hdoc & ->).
  unfold Resolver.extractDIDURL. rewrite (Hid _ _ Hdoc). reflexivity.
Qed.

End Location.

Lemma fetchDIDWeb_location_witness :
  fst (Resolver.fetchDIDWeb Bench.unroutable Fixture.resolver
         "did:web:example.com:tenants:acme" 0 Fixture.cold)
  = Returns (Failure ("failed to create request: net/url: invalid URL "
                      +:+ "https://example.com/.well-known/did.json/tenants:acme")).
Proof.
  destruct (fetchDIDWeb_location Bench.unroutable Fixture.resolver "example.com" 0
              Fixture.cold eq_refl) as [_ H].
  apply (H "tenants:acme"). reflexivity.
Defined.

Lemma fetchDIDWeb_no_delivery_url_witness : ""%string = ""%string.
Proof.
  apply (fetchDIDWeb_no_delivery_url Bench.online Fixture.resolver Fixture.owner_uri
           (101 * Fixture.hour) Fixture.cold
           (snd (Resolver.fetchDIDWeb Bench.online Fixture.resolver Fixture.owner_uri
                   (101 * Fixture.hour) Fixture.cold))
           (ECDSAPublicKey P256 1000 2000) "").
  - vm_compute. reflexivity.
  - intros body doc [= <-]. reflexivity.
Defined.

(** ** Purging *)

Section Purging.

Import Cache.

Variable env : Env.
Variable r : DIDResolver.

(** A purge leaves every row whose [last_used] is not before the cutoff as
    it is, whether [exec] removes the others or reports an error. *)
Lemma PurgeExpired_keeps (w : World) (uri : string) (row : DIDCacheEntry) :
  did_cache w !! uri = Some row ->
  time_Now env (clock w) + Maintenance.negate (PurgeUnused (config r)) <= LastUsed row ->
  did_cache (snd (Maintenance.PurgeExpired env r w)) !! uri = Some row.
Proof.
  intros Hrow Hcut.
  unfold Maintenance.PurgeExpired, Maintenance.exec_delete_unused, Maintenance.Add.
  destruct (sessionState r); cbn; try exact Hrow.
  destruct (exec_error env _); cbn; [exact Hrow|].
  apply map_lookup_filter_Some. split; [exact Hrow | exact Hcut].
Qed.

(** X11. A row that has just been served is not purged: after a hit at one
    clock reading, a purge at the next reading whose cutoff is not later
    than the hit leaves the row in the table, with the hit as its
    [last_used]. *)
Theorem served_row_survives_purge
    (uri : string) (w : World) (cached : DIDCacheEntry) (key : CryptoPublicKey) :
  Enabled (config r) = true ->
  GoStrings.HasPrefix uri "did:web:" = true ->
  sessionState r = DBSession ->
  did_cache w !! uri = Some cached ->
  Resolver.shouldRefresh (config r) cached (time_Now env (clock w)) = false ->
  Resolver.deserializePublicKey env (PublicKey cached) = Value key ->
  time_Now env (S (clock w)) + Maintenance.negate (PurgeUnused (config r))
    <= time_Now env (clock w) ->
  did_cache (snd (Maintenance.PurgeExpired env r (snd (Resolver.ResolveDIDKey env r uri w))))
    !! uri
  = Some (touched (time_Now env (clock w)) cached).
Proof.
  intros He Hp Hs Hrow Hpol Hkey Hcut.
  rewrite (fresh_hit env r uri w cached key He Hp Hs Hrow Hpol Hkey).
  cbn [snd].
  apply PurgeExpired_keeps; cbn [did_cache clock].
  - apply lookup_insert_eq.
  - exact Hcut.
Qed.

(** Without database access neither purge reads the clock or the table. *)
Lemma purge_without_database (w : World) :
  sessionState r <> DBSession ->
  (exists err, Maintenance.PurgeExpired env r w = (Failure err, w))
  /\ (exists err, Maintenance.PurgeAll env r w = (Failure err, w)).
Proof.
  intros Hs. unfold Maintenance.PurgeExpired, Maintenance.PurgeAll.
  destruct (sessionState r); [eauto | eauto | congruence].
Qed.

End Purging.

(** A purge on the fixture removes the row not used for 60 days and keeps
    the one used ten minutes ago; a purge of everything whose [exec] fails
    returns the wrapped error and removes nothing. *)
Example purge_on_the_bench :
  Maintenance.PurgeExpired Fixture.offline Fixture.resolver Bench.busy
  = (Value 1,
     {| did_cache := <[Fixture.owner_uri := Bench.fresh_row]> ∅;
        oplog := []; clock := 1; draws := 0 |})
  /\ Maintenance.PurgeAll Fixture.offline Fixture.resolver Bench.busy
     = (Value 2, {| did_cache := ∅; oplog := []; clock := 0; draws := 0 |})
  /\ Maintenance.PurgeAll Bench.online Fixture.resolver Bench.busy
     = (Failure "failed to purge all DID cache entries: database is locked", Bench.busy).
Proof. repeat split; vm_compute; reflexivity. Qed.

Lemma served_row_survives_purge_witness :
  did_cache (snd (Maintenance.PurgeExpired Fixture.offline Fixture.resolver
                    (snd (Resolver.ResolveDIDKey Fixture.offline Fixture.resolver
                            Fixture.owner_uri Bench.busy))))
    !! Fixture.owner_uri
  = Some (touched (100 * Fixture.hour) Bench.fresh_row).
Proof.
  apply (served_row_survives_purge Fixture.offline Fixture.resolver Fixture.owner_uri
           Bench.busy Bench.fresh_row (ECDSAPublicKey P256 11 22)
           eq_refl eq_refl eq_refl eq_refl eq_refl eq_refl).
  vm_compute. discriminate.
Defined.

(** ** The owner key service, further *)

Section OwnerKeyFurther.

Variable env : Env.

(** X12. [GetOwnerKey] always returns (it never panics) and leaves the
    world as it was: neither the table nor the clock nor the random source
    is touched, also when the authority names an identifier URI. *)
Theorem GetOwnerKey_returns_and_keeps_world (serial model : string) (w : World) :
  exists res, OwnerKey.GetOwnerKey env serial model w = (Returns res, w).
Proof.
  unfold OwnerKey.GetOwnerKey.
  repeat case_match; eexists; reflexivity.
Qed.

(** X13. A key comes out of [GetOwnerKey] only from the encoded key of an
    answer without error and without identifier URI, whose first PEM block is
    a [PUBLIC KEY] holding a PKIX key or a [CERTIFICATE]; the result then
    carries no delivery URL. *)
Theorem GetOwnerKey_success_is_encoded_key
    (serial model : string) (w w' : World) (result : OwnerKey.OwnerKeyResult) :
  OwnerKey.GetOwnerKey env serial model w = (Returns (Value result), w') ->
  OwnerKey.DIDURL result = ""
  /\ exists output response block,
       executor_Execute env
         (<["serialno" := serial]> (<["model" := model]> (<["guid" := ""]> ∅))) = Value output
       /\ json_Unmarshal_OwnerKeyResponse env output = Value response
       /\ ResponseError response = "" /\ OwnerDID response = ""
       /\ pem_Decode env (OwnerKeyPEM response) = Some block
       /\ (BlockType block = "PUBLIC KEY"
           /\ x509_ParsePKIXPublicKey env (BlockBytes block)
              = Value (OwnerKey.PublicKey result)
           \/ BlockType block = "CERTIFICATE"
              /\ x509_ParseCertificate env (BlockBytes block)
                 = Value (OwnerKey.PublicKey result)).
Proof.
  unfold OwnerKey.GetOwnerKey. intros H.
  destruct (executor_Execute env _) as [output|] eqn:Hexec; [|discriminate].
  destruct (json_Unmarshal_OwnerKeyResponse env output) as [response|] eqn:Hjson;
    [|discriminate].
  destruct (String.eqb_spec (ResponseError response) "") as [Herr|]; [|discriminate].
  destruct (String.eqb_spec (OwnerDID response) "") as [Hdid|].
  2:{ cbn [negb] in H. rewrite handleDIDResponse_disabled in H. discriminate. }
  cbn [negb] in H. destruct (String.eqb (OwnerKeyPEM response) ""); [discriminate|].
  destruct (OwnerKey.parsePublicKeyFromPEM env (OwnerKeyPEM response)) as [key|] eqn:Hpem;
    [|discriminate].
  injection H as <- <-. split; [reflexivity|].
  exists output, response.
  unfold OwnerKey.parsePublicKeyFromPEM, OwnerKey.parsePKIXPublicKey,
    OwnerKey.parseCertificatePublicKey in Hpem.
  destruct (pem_Decode env (OwnerKeyPEM response)) as [block|]; [|discriminate].
  exists block. repeat (split; [assumption || reflexivity|]).
  cbn [OwnerKey.PublicKey].
  destruct (String.eqb_spec (BlockType block) "PUBLIC KEY") as [Ht|_].
  - left. split; [exact Ht|].
    destruct (x509_ParsePKIXPublicKey env (BlockBytes block)); congruence.
  - destruct (String.eqb_spec (BlockType block) "CERTIFICATE") as [Ht|_]; [|discriminate].
    right. split; [exact Ht|].
    destruct (x509_ParseCertificate env (BlockBytes block)); congruence.
Qed.

(** X14. Every encoded key the owner key service accepts is accepted as a
    static key too, and decodes to the same key, unless it is a certificate
    whose bytes also parse as a bare PKIX key: [parseStaticPublicKey] tries
    the parsers in turn without looking at the block type. *)
Theorem static_key_accepts_what_owner_service_accepts (data : string) (key : CryptoPublicKey) :
  OwnerKey.parsePublicKeyFromPEM env data = Value key ->
  exists key',
    Callback.parseStaticPublicKey env data = Value key'
    /\ (key' = key
        \/ exists block,
             pem_Decode env data = Some block
             /\ BlockType block = "CERTIFICATE"
             /\ x509_ParsePKIXPublicKey env (BlockBytes block) = Value key').
Proof.
  unfold OwnerKey.parsePublicKeyFromPEM, OwnerKey.parsePKIXPublicKey,
    OwnerKey.parseCertificatePublicKey, Callback.parseStaticPublicKey.
  destruct (pem_Decode env data) as [block|]; [|discriminate].
  destruct (String.eqb_spec (BlockType block) "PUBLIC KEY") as [Ht|_].
  - destruct (x509_ParsePKIXPublicKey env (BlockBytes block)) as [k|]; [|discriminate].
    intros [= <-]. eauto.
  - destruct (String.eqb_spec (BlockType block) "CERTIFICATE") as [Ht|_]; [|discriminate].
    destruct (x509_ParseCertificate env (BlockBytes block)) as [k|]; [|discriminate].
    intros [= <-].
    destruct (x509_ParsePKIXPublicKey env (BlockBytes block)) as [k'|] eqn:Hk; eauto 8.
Qed.

End OwnerKeyFurther.

Lemma GetOwnerKey_success_is_encoded_key_witness :
  OwnerKey.DIDURL {| OwnerKey.PublicKey := ECDSAPublicKey P384 33 44; OwnerKey.DIDURL := "" |}
  = "".
Proof.
  apply (GetOwnerKey_success_is_encoded_key Bench.online "SN-0002" "widget"
           Fixture.warm Fixture.warm
           {| OwnerKey.PublicKey := ECDSAPublicKey P384 33 44; OwnerKey.DIDURL := "" |}).
  vm_compute. reflexivity.
Defined.

Lemma static_key_accepts_what_owner_service_accepts_witness :
  exists key',
    Callback.parseStaticPublicKey Bench.online "-----BEGIN PUBLIC KEY-----" = Value key'
    /\ (key' = ECDSAPublicKey P256 11 22
        \/ exists block,
             pem_Decode Bench.online "-----BEGIN PUBLIC KEY-----" = Some block
             /\ BlockType block = "CERTIFICATE"
             /\ x509_ParsePKIXPublicKey Bench.online (BlockBytes block) = Value key').
Proof.
  apply (static_key_accepts_what_owner_service_accepts Bench.online
           "-----BEGIN PUBLIC KEY-----" (ECDSAPublicKey P256 11 22)).
  vm_compute. reflexivity.
Defined.

(** The converse fails: a PKCS#1 block is a static key but no answer of the
    authority. *)
Example static_key_accepts_more :
  Callback.parseStaticPublicKey Bench.online "-----BEGIN RSA PUBLIC KEY-----"
    = Value (RSAPublicKey 77 65537)
  /\ OwnerKey.parsePublicKeyFromPEM Bench.online "-----BEGIN RSA PUBLIC KEY-----"
     = Failure "unsupported PEM block type: RSA PUBLIC KEY"
  /\ fst (OwnerKey.GetOwnerKey Bench.online "SN-0003" "widget" Fixture.cold)
     = Returns (Failure "failed to parse PEM key: unsupported PEM block type: RSA PUBLIC KEY")
  /\ fst (OwnerKey.GetOwnerKey Bench.online "SN-0404" "widget" Fixture.cold)
     = Returns (Failure "owner key service error: error: unknown device").
Proof. repeat split; vm_compute; reflexivity. Qed.

(** ** The callback, further *)

Section Pipeline.

Import Callback.

Variable env : Env.
Variable v : VoucherCallbackService.

Lemma fallback_twice (s d : string) :
  (if String.eqb (if String.eqb s "" then d else s) "" then d
   else if String.eqb s "" then d else s)
  = if String.eqb s "" then d else s.
Proof.
  destruct (String.eqb s "") eqn:E; [|rewrite E; reflexivity].
  destruct (String.eqb d ""); reflexivity.
Qed.


(** X15. The device identity of the callback is that of [getDeviceInfo]
    (metadata of the session, else the voucher's device info, with the hex
    GUID as last-resort serial), except for a session whose [DeviceSelfInfo]
    answers with neither metadata nor error: exactly then the callback
    panics, before it has called anything. *)
Theorem deviceIdentity_is_getDeviceInfo (ss : SessionState) (ov : Voucher) :
  (ss = SessionDeviceInfo (Value None) ->
     exists msg, deviceIdentity ss ov = Panics msg)
  /\ (ss <> SessionDeviceInfo (Value None) ->
      deviceIdentity ss ov = Returns (Value (getDeviceInfo ss (Some ov))))
  /\ (forall st msg,
        deviceIdentity ss (voucher st) = Panics msg ->
        BeforeVoucherPersist env v ss st = (Panics msg, st)).
Proof.
  split; [|split].
  - intros ->. cbn. eauto.
  - intros Hss. unfold deviceIdentity, getDeviceInfo.
    destruct ss as [| |[[info|]|err]]; try congruence; cbn;
      rewrite ?fallback_twice;
      repeat match goal with |- context [if ?b then ?x else ?x] => destruct b end;
      reflexivity.
  - intros st msg H. unfold BeforeVoucherPersist. rewrite H. reflexivity.
Qed.

Lemma ownerSignover_calls (serial model : string) (st : Station) :
  exists n1,
    calls (snd (ownerSignover env v serial model st)) = calls st ++ n1
    /\ (n1 = [] \/ n1 = [CallGetOwnerKey serial model]).
Proof.
  unfold ownerSignover.
  repeat case_match; cbn;
    (exists []; split; [symmetry; apply app_nil_r | auto]; fail)
    || (exists [CallGetOwnerKey serial model]; split; auto).
Qed.

Lemma signOrExtend_calls (ss : SessionState) (serial model : string)
    (nextOwner : option OwnerValue) (st : Station) :
  exists n2,
    calls (snd (signOrExtend v ss serial model nextOwner st)) = calls st ++ n2
    /\ (n2 = []
        \/ (exists extraData, n2 = [CallSignVoucher (voucher st) nextOwner serial model extraData])
        \/ (exists extraData,
              n2 = [CallGetOVEExtraData serial model;
                    CallSignVoucher (voucher st) nextOwner serial model extraData])
        \/ (exists key, nextOwner = Some key /\ n2 = [CallExtendVoucher (voucher st) key])).
Proof.
  unfold signOrExtend.
  repeat case_match; simplify_eq; cbn;
    first
      [ exists []; split; [symmetry; apply app_nil_r | auto]; fail
      | eexists [CallSignVoucher _ _ _ _ _]; split; [reflexivity | eauto]; fail
      | eexists [CallGetOVEExtraData _ _; CallSignVoucher _ _ _ _ _];
        split; [rewrite <- app_assoc; reflexivity | eauto 6]; fail
      | eexists [CallExtendVoucher _ _]; split; [reflexivity | eauto 8] ].
Qed.

Lemma uploadStep_calls (serial model guidStr : string) (st : Station) :
  exists n3,
    calls (snd (uploadStep v serial model guidStr st)) = calls st ++ n3
    /\ (n3 = [] \/ n3 = [CallUploadVoucher serial model guidStr (voucher st)]).
Proof.
  unfold uploadStep. destruct (VoucherUpload_Enabled (config v)); cbn.
  - eexists. split; [reflexivity | auto].
  - exists []. split; [symmetry; apply app_nil_r | auto].
Qed.

Lemma diskStep_calls (serial : string) (st : Station) :
  exists n4,
    calls (diskStep v serial st) = calls st ++ n4
    /\ (n4 = [] \/ n4 = [CallSaveVoucherToDisk (voucher st) serial]).
Proof.
  unfold diskStep. destruct (negb _); cbn.
  - destruct (voucherDiskService v (voucher st) serial); cbn;
      eexists; (split; [reflexivity | auto]).
  - exists []. split; [symmetry; apply app_nil_r | auto].
Qed.

(** The calls of one run, stage by stage. *)
Lemma BeforeVoucherPersist_trace (ss : SessionState) (st : Station) :
  let res := fst (BeforeVoucherPersist env v ss st) in
  let st' := snd (BeforeVoucherPersist env v ss st) in
  exists n1 n2 n3 n4,
    calls st' = calls st ++ n1 ++ n2 ++ n3 ++ n4
    /\ (n1 = [] \/ exists serial model, n1 = [CallGetOwnerKey serial model])
    /\ (n2 = []
        \/ (exists nextOwner serial model extraData,
              n2 = [CallSignVoucher (voucher st) nextOwner serial model extraData])
        \/ (exists nextOwner serial model extraData,
              n2 = [CallGetOVEExtraData serial model;
                    CallSignVoucher (voucher st) nextOwner serial model extraData])
        \/ (exists key, n2 = [CallExtendVoucher (voucher st) key]))
    /\ (n3 = []
        \/ exists serial model guidStr,
             deviceIdentity ss (voucher st) = Returns (Value (serial, model, guidStr))
             /\ n3 = [CallUploadVoucher serial model guidStr (voucher st')])
    /\ (n4 = []
        \/ exists serial model guidStr,
             deviceIdentity ss (voucher st) = Returns (Value (serial, model, guidStr))
             /\ n4 = [CallSaveVoucherToDisk (voucher st') serial]
             /\ res = Returns (Value (PersistToDB (config v)))).
Proof.
  unfold BeforeVoucherPersist.
  destruct (deviceIdentity ss (voucher st)) as [[[[serial model] guidStr]|err]|msg] eqn:Hid;
    cbn; try (exists [], [], [], []; rewrite app_nil_r; auto 10; fail).
  destruct (ownerSignover_calls serial model st) as (n1 & Hc1 & Hn1).
  pose proof (ownerSignover_voucher env v serial model st) as Hv1.
  destruct (ownerSignover env v serial model st) as [[[nextOwner|err]|msg] st1];
    cbn in *;
    try (exists n1, [], [], []; rewrite !app_nil_r; split; [exact Hc1|];
         split; [destruct Hn1; eauto|]; auto 10; fail).
  destruct (signOrExtend_calls ss serial model nextOwner st1) as (n2 & Hc2 & Hn2).
  rewrite Hv1, Hc1 in *.
  assert (n2 = []
          \/ (exists nextOwner serial model extraData,
                n2 = [CallSignVoucher (voucher st) nextOwner serial model extraData])
          \/ (exists nextOwner serial model extraData,
                n2 = [CallGetOVEExtraData serial model;
                      CallSignVoucher (voucher st) nextOwner serial model extraData])
          \/ (exists key, n2 = [CallExtendVoucher (voucher st) key])) as Hn2'.
  { destruct Hn2 as [?|[[e ?]|[[e ?]|[k [? ?]]]]]; eauto 10. }
  assert (n1 = [] \/ exists serial model, n1 = [CallGetOwnerKey serial model]) as Hn1'.
  { destruct Hn1; eauto. }
  destruct (signOrExtend v ss serial model nextOwner st1) as [[[u|err]|msg] st2]; cbn in *.
  2,3: exists n1, n2, [], []; rewrite !app_nil_r, Hc2, <- app_assoc; auto 10.
  destruct (uploadStep_calls serial model guidStr st2) as (n3 & Hc3 & Hn3).
  pose proof (uploadStep_station v serial model guidStr st2) as [Hv3 _].
  destruct (uploadStep v serial model guidStr st2) as [[uerr|] st3]; cbn in *.
  - exists n1, n2, n3, []. rewrite app_nil_r, Hc3, Hc2, <- !app_assoc.
    split; [reflexivity|]. repeat (split; [assumption|]). split; [|auto].
    destruct Hn3 as [->| ->]; [auto|]. right. exists serial, model, guidStr.
    rewrite Hv3. auto.
  - destruct (diskStep_calls serial st3) as (n4 & Hc4 & Hn4).
    destruct (diskStep_station v serial st3) as [Hv4 _].
    exists n1, n2, n3, n4. rewrite Hc4, Hc3, Hc2, <- !app_assoc.
    split; [reflexivity|]. repeat (split; [assumption|]).
    rewrite Hv4, Hv3. split.
    + destruct Hn3 as [->| ->]; [auto|]. right. exists serial, model, guidStr. auto.
    + destruct Hn4 as [->| ->]; [auto|]. right. exists serial, model, guidStr.
      rewrite Hv3. auto.
Qed.

End Pipeline.

Section Handoff.

Import Callback.

Variable env : Env.
Variable v : VoucherCallbackService.

(** X16. In one run the collaborators are called in pipeline order and
    each stage at most once: owner-key service, extra-data service, signing
    or extension, upload, disk-save. *)
Theorem BeforeVoucherPersist_calls_in_order (ss : SessionState) (st : Station) :
  exists new,
    calls (snd (BeforeVoucherPersist env v ss st)) = calls st ++ new
    /\ staged 0 new = true.
Proof.
  destruct (BeforeVoucherPersist_trace env v ss st)
    as (n1 & n2 & n3 & n4 & Hc & H1 & H2 & H3 & H4).
  exists (n1 ++ n2 ++ n3 ++ n4). split; [exact Hc|].
  destruct H1 as [->|(? & ? & ->)];
    destruct H2 as [->|[(? & ? & ? & ? & ->)|[(? & ? & ? & ? & ->)|(? & ->)]]];
    destruct H3 as [->|(? & ? & ? & _ & ->)];
    destruct H4 as [->|(? & ? & ? & _ & -> & _)];
    reflexivity.
Qed.

(** X17. What is uploaded is the voucher the callback leaves behind, that
    is the signed or extended one when there was signing or extension,
    under the serial, model and hex GUID of the device identity. *)
Theorem upload_hands_over_final_voucher
    (ss : SessionState) (st : Station) (serial model guidStr : string) (ov : Voucher) :
  calls st = [] ->
  In (CallUploadVoucher serial model guidStr ov)
     (calls (snd (BeforeVoucherPersist env v ss st))) ->
  ov = voucher (snd (BeforeVoucherPersist env v ss st))
  /\ deviceIdentity ss (voucher st) = Returns (Value (serial, model, guidStr))
  /\ guidStr = hex (GUID (voucher st)).
Proof.
  intros Hfresh Hin.
  destruct (BeforeVoucherPersist_trace env v ss st)
    as (n1 & n2 & n3 & n4 & Hc & H1 & H2 & H3 & H4).
  cbn zeta in *. rewrite Hc, Hfresh in Hin. cbn [app] in Hin.
  assert (deviceIdentity ss (voucher st) = Returns (Value (serial, model, guidStr))
          /\ ov = voucher (snd (BeforeVoucherPersist env v ss st))) as [Hid ->].
  { destruct H1 as [->|(? & ? & ->)];
      destruct H2 as [->|[(? & ? & ? & ? & ->)|[(? & ? & ? & ? & ->)|(? & ->)]]];
      destruct H3 as [->|(? & ? & ? & Hid & ->)];
      destruct H4 as [->|(? & ? & ? & _ & -> & _)];
      cbn in Hin; intuition (try discriminate); simplify_eq; auto. }
  split; [reflexivity|]. split; [exact Hid|].
  unfold deviceIdentity in Hid. repeat case_match; simplify_eq; reflexivity.
Qed.

(** X18. The disk service is called only in a run that ends with the
    persistence decision, and then with the voucher the callback leaves
    behind: a failed upload, a failed signing or any earlier abort saves
    nothing to disk. *)
Theorem disk_save_only_on_success
    (ss : SessionState) (st : Station) (serial : string) (ov : Voucher) :
  calls st = [] ->
  In (CallSaveVoucherToDisk ov serial) (calls (snd (BeforeVoucherPersist env v ss st))) ->
  fst (BeforeVoucherPersist env v ss st) = Returns (Value (PersistToDB (config v)))
  /\ ov = voucher (snd (BeforeVoucherPersist env v ss st)).
Proof.
  intros Hfresh Hin.
  destruct (BeforeVoucherPersist_trace env v ss st)
    as (n1 & n2 & n3 & n4 & Hc & H1 & H2 & H3 & H4).
  cbn zeta in *. rewrite Hc, Hfresh in Hin. cbn [app] in Hin.
  assert (fst (BeforeVoucherPersist env v ss st) = Returns (Value (PersistToDB (config v)))
          /\ ov = voucher (snd (BeforeVoucherPersist env v ss st))) as [Hres ->].
  { destruct H1 as [->|(? & ? & ->)];
      destruct H2 as [->|[(? & ? & ? & ? & ->)|[(? & ? & ? & ? & ->)|(? & ->)]]];
      destruct H3 as [->|(? & ? & ? & _ & ->)];
      destruct H4 as [->|(? & ? & ? & _ & -> & Hres)];
      cbn in Hin; intuition (try discriminate); simplify_eq; auto. }
  split; [exact Hres | reflexivity].
Qed.

End Handoff.

Lemma upload_hands_over_final_voucher_witness :
  Fixture.append_entry [1] Fixture.ov0
  = Callback.voucher
      (snd (Callback.BeforeVoucherPersist Fixture.offline
              (Fixture.service Fixture.static_config) Fixture.session Fixture.station))
  /\ Callback.deviceIdentity Fixture.session (Callback.voucher Fixture.station)
     = Returns (Value ("SN-0001", "widget", "deadbeef"))
  /\ "deadbeef" = Callback.hex (Callback.GUID (Callback.voucher Fixture.station)).
Proof.
  apply (upload_hands_over_final_voucher Fixture.offline
           (Fixture.service Fixture.static_config) Fixture.session Fixture.station
           "SN-0001" "widget" "deadbeef" (Fixture.append_entry [1] Fixture.ov0) eq_refl).
  vm_compute. auto.
Defined.

Lemma disk_save_only_on_success_witness :
  fst (Callback.BeforeVoucherPersist Fixture.offline
         (Fixture.service Fixture.static_config) Fixture.session Fixture.station)
  = Returns (Value false)
  /\ Fixture.append_entry [1] Fixture.ov0
     = Callback.voucher
         (snd (Callback.BeforeVoucherPersist Fixture.offline
                 (Fixture.service Fixture.static_config) Fixture.session Fixture.station)).
Proof.
  apply (disk_save_only_on_success Fixture.offline
           (Fixture.service Fixture.static_config) Fixture.session Fixture.station
           "SN-0001" (Fixture.append_entry [1] Fixture.ov0) eq_refl).
  vm_compute. auto.
Defined.

Section Modes.

Import Callback.

Variable env : Env.
Variable v : VoucherCallbackService.

Lemma uploadStep_same_but_printed (serial model guidStr : string) (st1 st2 : Station) :
  same_but_printed st1 st2 ->
  fst (uploadStep v serial model guidStr st1) = fst (uploadStep v serial model guidStr st2)
  /\ same_but_printed (snd (uploadStep v serial model guidStr st1))
                      (snd (uploadStep v serial model guidStr st2)).
Proof.
  intros (Hv & Hc & Hw). unfold uploadStep, same_but_printed.
  destruct (VoucherUpload_Enabled (config v)); cbn; rewrite ?Hv, ?Hc; auto.
Qed.

Lemma diskStep_same_but_printed (serial : string) (st1 st2 : Station) :
  same_but_printed st1 st2 ->
  same_but_printed (diskStep v serial st1) (diskStep v serial st2).
Proof.
  intros (Hv & Hc & Hw). unfold diskStep, same_but_printed.
  destruct (negb _); [|auto]. rewrite Hv.
  destruct (voucherDiskService v (voucher st2) serial); cbn; rewrite ?Hv, ?Hc; auto.
Qed.

(** X19. A failing extra-data service is as good as one without data: the
    callback returns the same result and leaves the same voucher, calls and
    world as with a service that answers with no data, and signing still
    takes place; only the warning differs. *)
Theorem extra_data_failure_is_swallowed
    (failing : string -> string -> errorOr (option ExtraData))
    (ss : SessionState) (st : Station) :
  (forall serial model, exists err, failing serial model = Failure err) ->
  let bad := BeforeVoucherPersist env (with_extra_data (Some failing) v) ss st in
  let good :=
    BeforeVoucherPersist env (with_extra_data (Some (fun _ _ => Value None)) v) ss st in
  fst bad = fst good /\ same_but_printed (snd bad) (snd good).
Proof.
  intros Hfail. cbn zeta. unfold BeforeVoucherPersist.
  change (ownerSignover env (with_extra_data (Some failing) v)) with (ownerSignover env v).
  change (ownerSignover env (with_extra_data (Some (fun _ _ => Value None)) v))
    with (ownerSignover env v).
  change (uploadStep (with_extra_data (Some failing) v)) with (uploadStep v).
  change (uploadStep (with_extra_data (Some (fun _ _ => Value None)) v)) with (uploadStep v).
  change (diskStep (with_extra_data (Some failing) v)) with (diskStep v).
  change (diskStep (with_extra_data (Some (fun _ _ => Value None)) v)) with (diskStep v).
  change (config (with_extra_data (Some failing) v)) with (config v).
  change (config (with_extra_data (Some (fun _ _ => Value None)) v)) with (config v).
  destruct (deviceIdentity ss (voucher st)) as [[[[serial model] guidStr]|]|];
    cbn; try (unfold same_but_printed; auto; fail).
  destruct (ownerSignover env v serial model st) as [[[nextOwner|]|] st1]; cbn;
    try (unfold same_but_printed; auto; fail).
  assert (fst (signOrExtend (with_extra_data (Some failing) v) ss serial model nextOwner st1)
          = fst (signOrExtend (with_extra_data (Some (fun _ _ => Value None)) v)
                   ss serial model nextOwner st1)
          /\ same_but_printed
               (snd (signOrExtend (with_extra_data (Some failing) v) ss serial model
                       nextOwner st1))
               (snd (signOrExtend (with_extra_data (Some (fun _ _ => Value None)) v)
                       ss serial model nextOwner st1))) as [Hres Hst].
  { unfold signOrExtend, same_but_printed. cbn.
    destruct (negb _); [|repeat case_match; auto].
    destruct (Hfail serial model) as [err ->]. cbn.
    destruct (voucherSigningService v ss (voucher st1) nextOwner serial model None);
      cbn; auto. }
  destruct (signOrExtend (with_extra_data (Some failing) v) ss serial model nextOwner st1)
    as [r2 st2].
  destruct (signOrExtend (with_extra_data (Some (fun _ _ => Value None)) v) ss serial model
              nextOwner st1) as [r2' st2'].
  cbn in Hres, Hst. subst r2'. destruct r2 as [[u|err]|msg]; [|auto|auto].
  destruct (uploadStep_same_but_printed serial model guidStr _ _ Hst) as [Hup Hst3].
  destruct (uploadStep v serial model guidStr st2) as [r3 st3].
  destruct (uploadStep v serial model guidStr st2') as [r3' st3'].
  cbn in Hup, Hst3. subst r3'. destruct r3; cbn; [auto|].
  split; [reflexivity|]. apply diskStep_same_but_printed. exact Hst3.
Qed.

(** X20. A signover mode other than [static] and [dynamic] is no signover:
    the callback does exactly what it does in static mode without a key,
    call for call. *)
Theorem unknown_mode_is_no_signover (ss : SessionState) (st : Station) :
  OwnerSignover_Mode (config v) <> "static" ->
  OwnerSignover_Mode (config v) <> "dynamic" ->
  BeforeVoucherPersist env v ss st
  = BeforeVoucherPersist env (with_config (without_signover (config v)) v) ss st.
Proof.
  intros Hs Hd. unfold BeforeVoucherPersist.
  destruct (deviceIdentity ss (voucher st)) as [[[[serial model] guidStr]|]|];
    try reflexivity.
  assert (ownerSignover env v serial model st = (Returns (Value None), st)) as ->.
  { unfold ownerSignover.
    destruct (String.eqb_spec (OwnerSignover_Mode (config v)) "static"); [contradiction|].
    destruct (String.eqb_spec (OwnerSignover_Mode (config v)) "dynamic"); [contradiction|].
    reflexivity. }
  reflexivity.
Qed.


End Modes.

Lemma extra_data_failure_is_swallowed_witness :
  fst (Callback.BeforeVoucherPersist Fixture.offline
         (with_extra_data (Some (fun _ _ => Failure "timeout"))
            (Fixture.service Fixture.static_config))
         Fixture.session Fixture.station)
  = fst (Callback.BeforeVoucherPersist Fixture.offline
           (with_extra_data (Some (fun _ _ => Value None))
              (Fixture.service Fixture.static_config))
           Fixture.session Fixture.station).
Proof.
  apply (extra_data_failure_is_swallowed Fixture.offline
           (Fixture.service Fixture.static_config) (fun _ _ => Failure "timeout")
           Fixture.session Fixture.station).
  intros serial model. exists "timeout"%string. reflexivity.
Defined.

Lemma unknown_mode_is_no_signover_witness :
  let cfg :=
    {| Callback.PersistToDB := true;
       Callback.VoucherSigning_Mode := "internal";
       Callback.OwnerSignover_Mode := "manual";
       Callback.OwnerSignover_StaticPublicKey := "-----BEGIN PUBLIC KEY-----";
       Callback.OwnerSignover_ExternalCommand := "/usr/local/bin/owner-key";
       Callback.VoucherUpload_Enabled := true;
       Callback.SaveToDisk_Directory := "" |} in
  Callback.BeforeVoucherPersist Bench.online (Fixture.service cfg)
    Fixture.session Fixture.station
  = Callback.BeforeVoucherPersist Bench.online
      (with_config (without_signover cfg) (Fixture.service cfg))
      Fixture.session Fixture.station.
Proof.
  cbn zeta.
  apply (unknown_mode_is_no_signover Bench.online); cbn; discriminate.
Defined.


(** ** The hex text of a GUID *)

Section Hex.

Import Callback.

(** The character code of a hex digit: digits from ["0"], letters from
    ["a"]. *)
Lemma hex_digit_code (n : Z) :
  0 <= n < 16 ->
  Z.of_N (N_of_ascii (hex_digit n)) = if n <? 10 then 48 + n else 87 + n.
Proof.
  intros Hn. rewrite <- (Z2Nat.id n) by lia.
  assert (Z.to_nat n < 16)%nat as Hk by lia.
  revert Hk. generalize (Z.to_nat n). clear Hn. intros k Hk.
  do 16 (destruct k as [|k]; [reflexivity|]). lia.
Qed.

Lemma hex_digit_injective (n m : Z) :
  0 <= n < 16 -> 0 <= m < 16 -> hex_digit n = hex_digit m -> n = m.
Proof.
  intros Hn Hm Heq.
  pose proof (hex_digit_code n Hn) as Cn. pose proof (hex_digit_code m Hm) as Cm.
  rewrite Heq, Cm in Cn.
  destruct (Z.ltb_spec n 10), (Z.ltb_spec m 10); lia.
Qed.

Lemma byte_nibbles (x : Z) :
  0 <= x < 256 ->
  0 <= Z.land (Z.shiftr x 4) 15 < 16
  /\ 0 <= Z.land x 15 < 16
  /\ x = 16 * Z.land (Z.shiftr x 4) 15 + Z.land x 15.
Proof.
  intros Hx. change 15 with (Z.ones 4).
  rewrite !Z.land_ones, Z.shiftr_div_pow2 by lia.
  change (2 ^ 4) with 16.
  pose proof (Z.mod_pos_bound x 16 ltac:(lia)).
  pose proof (Z.mod_pos_bound (x / 16) 16 ltac:(lia)).
  assert (x / 16 < 16) by (apply Z.div_lt_upper_bound; lia).
  assert (0 <= x / 16) by (apply Z.div_pos; lia).
  rewrite (Z.mod_small (x / 16) 16) by lia.
  pose proof (Z.div_mod x 16 ltac:(lia)). lia.
Qed.

(** X23. The hex text of a GUID has two characters per byte, and two GUIDs
    (of bytes) with the same text are the same GUID: the text used as [guid],
    and as serial of last resort, identifies the device. *)
Theorem hex_identifies_guid (a b : bytes) :
  Forall (fun x => 0 <= x < 256) a ->
  Forall (fun x => 0 <= x < 256) b ->
  String.length (hex a) = (2 * length a)%nat
  /\ (hex a = hex b -> a = b).
Proof.
  intros Ha Hb. split.
  - clear. induction a as [|x a IH]; cbn [hex String.length length]; [reflexivity|].
    rewrite IH. lia.
  - revert b Hb. induction Ha as [|x a Hx Ha IH]; intros b Hb; destruct Hb as [|y b Hy Hb];
      cbn [hex]; try discriminate; [reflexivity|].
    intros [= H1 H2 H3].
    destruct (byte_nibbles x Hx) as (Hx1 & Hx2 & Ex).
    destruct (byte_nibbles y Hy) as (Hy1 & Hy2 & Ey).
    apply hex_digit_injective in H1; [|assumption..].
    apply hex_digit_injective in H2; [|assumption..].
    f_equal; [lia | apply IH; assumption].
Qed.

End Hex.

Lemma hex_identifies_guid_witness :
  String.length (Callback.hex [222; 173; 190; 239]) = 8%nat
  /\ (Callback.hex [222; 173; 190; 239] = Callback.hex [222; 173; 190; 239] ->
      [222; 173; 190; 239] = [222; 173; 190; 239]).
Proof.
  apply (hex_identifies_guid [222; 173; 190; 239] [222; 173; 190; 239]);
    repeat constructor; lia.
Defined.

(** ** Which documents yield a key, and when a stale row is retried *)

Section KeySources.

Variable env : Env.

(** X24. A key is extracted only from the first verification method of the
    document, and only when that method carries a JWK of type [EC] with curve
    [P-256] or [P-384], or of type [RSA]; one draw is then taken from the
    random source.  Later methods, multibase keys and base58 keys never
    yield a key. *)
Theorem extractPublicKey_success_needs_first_jwk
    (doc : Document) (w w' : World) (key : CryptoPublicKey) :
  Resolver.extractPublicKey env doc w = (Returns (Value key), w') ->
  w' = draw w
  /\ exists vm rest jwk,
       VerificationMethods doc = Some vm :: rest
       /\ PublicKeyJwk vm = Some jwk
       /\ (jwk !! "kty" = Some (AString "EC")
           /\ (jwk !! "crv" = Some (AString "P-256") \/ jwk !! "crv" = Some (AString "P-384"))
           \/ jwk !! "kty" = Some (AString "RSA")).
Proof.
  unfold Resolver.extractPublicKey, Resolver.parseJWK, Resolver.parseECJWK,
    Resolver.parseRSAJWK, Resolver.parseMultibase, Resolver.parseBase58.
  intros H.
  destruct (VerificationMethods doc) as [|[vm|] rest] eqn:Hvm; [discriminate| |discriminate].
  destruct (PublicKeyJwk vm) as [jwk|] eqn:Hjwk.
  2:{ repeat case_match; discriminate. }
  destruct (jwk !! "kty") as [[| | |kty| |]|] eqn:Hkty; try discriminate.
  destruct (String.eqb_spec kty "EC") as [->|_].
  - destruct (jwk !! "crv") as [[| | |crv| |]|] eqn:Hcrv; try discriminate.
    destruct (String.eqb_spec crv "P-256") as [->|_].
    + destruct (ecdsa_GenerateKey env P256 (draws w)); simplify_eq.
      split; [reflexivity|]. exists vm, rest, jwk.
      split; [reflexivity|]. split; [exact Hjwk|]. left. split; [exact Hkty|]. left. exact Hcrv.
    + destruct (String.eqb_spec crv "P-384") as [->|_]; [|discriminate].
      destruct (ecdsa_GenerateKey env P384 (draws w)); simplify_eq.
      split; [reflexivity|]. exists vm, rest, jwk.
      split; [reflexivity|]. split; [exact Hjwk|]. left. split; [exact Hkty|]. right. exact Hcrv.
  - destruct (String.eqb_spec kty "RSA") as [->|_]; [|discriminate].
    destruct (rsa_GenerateKey env 2048 (draws w)); simplify_eq.
    split; [reflexivity|]. exists vm, rest, jwk.
    split; [reflexivity|]. split; [exact Hjwk|]. right. exact Hkty.
Qed.

Lemma Sub_monotone (now now' t : GoTime.Time) :
  now <= now' -> GoTime.Sub now t <= GoTime.Sub now' t.
Proof.
  intros H. unfold GoTime.Sub, GoTime.minDuration, GoTime.maxDuration.
  repeat match goal with |- context [?a <? ?b] => destruct (Z.ltb_spec a b) end; lia.
Qed.

(** X25. A row older than [MaxAge] is retried on every call until a fetch
    succeeds: recording the failure (and the read) leaves [resolved_at]
    alone, so at any later time the policy asks for a refresh again, however
    recent the failed attempt is. *)
Theorem stale_row_is_retried
    (config : DIDCache) (row : Cache.DIDCacheEntry) (now now' attempt used : GoTime.Time)
    (msg : string) :
  MaxAge config < GoTime.Sub now (Cache.Timestamp row) ->
  now <= now' ->
  Resolver.shouldRefresh config (failed attempt msg (touched used row)) now' = true.
Proof.
  intros Hold Hlater. unfold Resolver.shouldRefresh. cbn.
  pose proof (Sub_monotone now now' (Cache.Timestamp row) Hlater).
  destruct (Z.ltb_spec (MaxAge config) (GoTime.Sub now' (Cache.Timestamp row)));
    [reflexivity | lia].
Qed.

End KeySources.

Lemma extractPublicKey_success_needs_first_jwk_witness :
  draw Fixture.cold = draw Fixture.cold
  /\ exists vm rest jwk,
       VerificationMethods Fixture.document_a = Some vm :: rest
       /\ PublicKeyJwk vm = Some jwk
       /\ (jwk !! "kty" = Some (AString "EC")
           /\ (jwk !! "crv" = Some (AString "P-256") \/ jwk !! "crv" = Some (AString "P-384"))
           \/ jwk !! "kty" = Some (AString "RSA")).
Proof.
  apply (extractPublicKey_success_needs_first_jwk Fixture.offline Fixture.document_a
           Fixture.cold (draw Fixture.cold) (ECDSAPublicKey P256 1000 2000)).
  vm_compute. reflexivity.
Defined.

Lemma stale_row_is_retried_witness :
  Resolver.shouldRefresh Fixture.cache_config
    (failed (101 * Fixture.hour) "failed to fetch DID document: dial tcp: connection refused"
       (touched (100 * Fixture.hour) Fixture.stale_row))
    (102 * Fixture.hour) = true.
Proof.
  apply (stale_row_is_retried Fixture.cache_config Fixture.stale_row
           (100 * Fixture.hour) (102 * Fixture.hour)).
  - vm_compute. reflexivity.
  - vm_compute. discriminate.
Defined.
